(** * TAK-Wrapper build script ([build.py]): a shallow embedding

    [build.py] is a sequential build pipeline: it cleans old build output,
    runs the frontend package manager, checks the platform icon, runs the
    native packager, writes a debug launcher (macOS) and creates the
    distribution archive.  Everything it does is an effect on the file
    system, a subprocess, a log record or a process exit, so the embedding
    is a state-and-exception monad over

    - the working directory, a tree of named entries;
    - a chronological trace of the effects performed;
    - Python exceptions, [SystemExit] among them.

    External programs (npm, pyinstaller, tar) are an oracle of the
    environment: the script only sees their exit status and what they left
    on disk.

    The model comes first: the tree, the library calls and the functions
    of [build.py], each under its own name.  Then the predicates the
    statements are written with, the lemmas about the model, and last the
    properties of the script, C1 to C10. *)

From Stdlib Require Import ZArith Ascii String List Lia.
From stdpp Require Import base tactics option list strings gmap.
Import ListNotations.

Local Open Scope string_scope.
Local Open Scope list_scope.

(** ** Paths and the directory tree *)

(** A relative [pathlib.Path], as its components: [Path("web") / "dist"] is
    [["web"; "dist"]], and [Path('.')] is [[]]. *)
Definition path := list string.

(** What a regular file holds: bytes, or an archive described by the names
    of its members. *)
Inductive fdata :=
| Bytes (s : string)
| Archive (format : string) (members : list path).

(** A directory entry.  The entries of a directory are kept in the order
    [os.scandir] lists them. *)
Unset Elimination Schemes.
Inductive node :=
| File (data : fdata) (mode : Z)
| Dir (entries : list (string * node)).
Set Elimination Schemes.

Definition dirents := list (string * node).

Definition is_dir (n : node) : bool :=
  match n with Dir _ => true | File _ _ => false end.

(** First entry called [x]. *)
Fixpoint assoc (x : string) (es : dirents) : option node :=
  match es with
  | [] => None
  | (n, c) :: es' => if String.eqb n x then Some c else assoc x es'
  end.

(** Resolution of a relative path from the working directory [es]. *)
Fixpoint lookup_in (p : path) (es : dirents) : option node :=
  match p with
  | [] => Some (Dir es)
  | x :: q =>
      match assoc x es with
      | Some (Dir es') => lookup_in q es'
      | Some (File d m) => match q with [] => Some (File d m) | _ :: _ => None end
      | None => None
      end
  end.

Definition drop_name (x : string) (es : dirents) : dirents :=
  List.filter (fun e => negb (String.eqb (fst e) x)) es.

(** Apply [f] to the contents of the directories called [x]. *)
Definition on_child (x : string) (f : dirents -> dirents) (es : dirents) : dirents :=
  List.map (fun e =>
    if String.eqb (fst e) x
    then (fst e, match snd e with Dir es' => Dir (f es') | File d m => File d m end)
    else e) es.

(** Create the entry [x], or replace it where it stands. *)
Definition set_child (x : string) (c : node) (es : dirents) : dirents :=
  match assoc x es with
  | Some _ => List.map (fun e => if String.eqb (fst e) x then (fst e, c) else e) es
  | None => es ++ [(x, c)]
  end.

(** The tree without whatever sits at [p]. *)
Fixpoint remove_in (p : path) (es : dirents) : dirents :=
  match p with
  | [] => es
  | x :: q =>
      match q with
      | [] => drop_name x es
      | _ :: _ => on_child x (remove_in q) es
      end
  end.

(** The tree with [c] at [p]; the parent of [p] has to be a directory. *)
Fixpoint store_in (p : path) (c : node) (es : dirents) : dirents :=
  match p with
  | [] => es
  | x :: q =>
      match q with
      | [] => set_child x c es
      | _ :: _ => on_child x (store_in q c) es
      end
  end.

Definition parent (p : path) : path := removelast p.

Definition basename (p : path) : string := List.last p "".

(** Every path below [n], each prefixed by [pre], parents before children
    (the order of [os.walk]). *)
Fixpoint walk (pre : path) (n : node) : list path :=
  match n with
  | File _ _ => []
  | Dir es =>
      (fix each (l : dirents) : list path :=
         match l with
         | [] => []
         | (x, c) :: l' => ((pre ++ [x]) :: walk (pre ++ [x]) c) ++ each l'
         end) es
  end.

Definition pycache : string := "__pycache__".

(** [Path('.').glob('**/__pycache__')] as consumed by a loop that removes
    each path it is handed.  pathlib yields the entry [d/__pycache__] of a
    directory [d] before it lists [d], and the loop removes that entry
    before the listing: an entry called [__pycache__] is therefore never
    descended into, whether it is a file or a directory. *)
Fixpoint pycache_dirs (pre : path) (n : node) : list path :=
  match n with
  | File _ _ => []
  | Dir es =>
      (match assoc pycache es with Some _ => [pre ++ [pycache]] | None => [] end)
      ++ (fix each (l : dirents) : list path :=
            match l with
            | [] => []
            | (x, c) :: l' =>
                (if String.eqb x pycache then [] else pycache_dirs (pre ++ [x]) c)
                ++ each l'
            end) es
  end.

(** ** Strings *)

Definition to_lower (c : ascii) : ascii :=
  let n := nat_of_ascii c in
  if (65 <=? n)%nat && (n <=? 90)%nat then ascii_of_nat (n + 32) else c.

Fixpoint casefold (s : string) : string :=
  match s with
  | EmptyString => EmptyString
  | String c s' => String (to_lower c) (casefold s')
  end.

Fixpoint ends_with (suffix s : string) : bool :=
  String.eqb s suffix ||
  match s with
  | EmptyString => false
  | String _ s' => ends_with suffix s'
  end.

(** [os.sep]. *)
Definition os_sep (platform : string) : string :=
  if String.eqb platform "win32" then "\" else "/".

(** [str(p)] for a relative path. *)
Definition path_str (platform : string) (p : path) : string :=
  match p with
  | [] => "."
  | _ :: _ => String.concat (os_sep platform) p
  end.

(** The inverse of [path_str] on POSIX, as an external tool reads a path
    argument. *)
Fixpoint split_slash (acc : string) (s : string) : path :=
  match s with
  | EmptyString => [acc]
  | String c s' =>
      if Ascii.eqb c "/"%char then acc :: split_slash "" s'
      else split_slash (acc +:+ String c EmptyString) s'
  end.

Definition parse_path (s : string) : path :=
  List.filter (fun x => negb (String.eqb x "")) (split_slash "" s).

(** ** Effects *)

Inductive level := DEBUG | INFO | WARNING | ERROR.

Inductive oserror :=
| FileNotFoundError
| FileExistsError
| NotADirectoryError
| IsADirectoryError
| OtherOSError.

(** The exceptions the script can meet.  [SystemExit] is a
    [BaseException]; the other two are [Exception]s. *)
Inductive exn :=
| SystemExit (code : Z)
| CalledProcessError (argv : list string) (returncode : Z)
| OSError (kind : oserror) (target : path).

Definition is_Exception (e : exn) : bool :=
  match e with SystemExit _ => false | _ => true end.

Definition is_CalledProcessError (e : exn) : bool :=
  match e with CalledProcessError _ _ => true | _ => false end.

(** What a run leaves behind, in order.  [EStat], [EGlob] and
    [EMakeArchive] record a call; [EMkdir], [ERmtree], [EUnlink], [EWrite]
    and [EChmod] record a change that has been carried out; [ESpawn]
    carries the exit status, or [None] when the program could not be
    started. *)
Inductive event :=
| ELog (lvl : level) (msg : string)
| EStat (p : path)
| EGlob (pattern : string)
| EMkdir (p : path)
| ERmtree (p : path)
| EUnlink (p : path)
| EWrite (p : path)
| EChmod (p : path) (mode : Z)
| EMakeArchive (base_name : string) (format : string) (root_dir : path)
    (base_dir : option string)
| ESpawn (argv : list string) (cwd : option path) (status : option Z).

Record world := World { fs : dirents; trace : list event }.

Inductive exec_result :=
| NotStarted (why : oserror)
| Exited (status : Z) (fs' : dirents).

(** The environment of a run.  [exec] is the behaviour of external
    programs: given the command line, the working directory and the world
    at the time of the call (its trace tells calls apart), the exit status
    and the tree the program leaves.  On macOS the log directory lies
    under the home directory, outside the tree modelled here;
    [home_logs_ok] says whether it can be created and written. *)
Record Env := {
  platform : string;
  home : string;
  now : string;
  home_logs_ok : bool;
  new_file_mode : Z;
  exn_text : exn -> string;
  exec : list string -> option path -> world -> exec_result
}.

Inductive outcome (A : Type) :=
| Ret (a : A)
| Raise (e : exn).
Arguments Ret {A} a.
Arguments Raise {A} e.

Definition M (A : Type) : Type := world -> outcome A * world.

Definition ret {A} (a : A) : M A := fun w => (Ret a, w).

Definition bind {A B} (m : M A) (k : A -> M B) : M B :=
  fun w =>
    match m w with
    | (Ret a, w') => k a w'
    | (Raise e, w') => (Raise e, w')
    end.

Definition raise {A} (e : exn) : M A := fun w => (Raise e, w).

(** [try: body / except <class> as e: handler e]. *)
Definition try_except {A} (body : M A) (class : exn -> bool) (handler : exn -> M A) : M A :=
  fun w =>
    match body w with
    | (Ret a, w') => (Ret a, w')
    | (Raise e, w') => if class e then handler e w' else (Raise e, w')
    end.

Definition emit (e : event) : M unit :=
  fun w => (Ret tt, World (fs w) (trace w ++ [e])).

Definition get_fs : M dirents := fun w => (Ret (fs w), w).

Definition put_fs (es : dirents) : M unit :=
  fun w => (Ret tt, World es (trace w)).

Declare Scope py_scope.
Delimit Scope py_scope with py.
Notation "x <- m ;; k" := (bind m (fun x => k))
  (at level 100, m at next level, right associativity) : py_scope.
Notation "m ;; k" := (bind m (fun _ => k))
  (at level 100, right associativity) : py_scope.
Local Open Scope py_scope.

(** [for x in l: body x]. *)
Fixpoint for_each {X} (l : list X) (body : X -> M unit) : M unit :=
  match l with
  | [] => ret tt
  | x :: l' => body x ;; for_each l' body
  end.

(** The process exit status, from how the main module ends. *)
Definition exit_status {A} (r : outcome A) : Z :=
  match r with
  | Ret _ => 0
  | Raise (SystemExit c) => c
  | Raise _ => 1
  end.

(** ** The library calls the script makes *)

Section Script.

Variable env : Env.

(** [logging.info], [logging.warning], [logging.error]: one record on both
    sinks.  The text that accumulates in the log file is the [ELog] part
    of the trace. *)
Definition logging (lvl : level) (msg : string) : M unit := emit (ELog lvl msg).

Definition sys_exit {A} (code : Z) : M A := raise (SystemExit code).

(** [os.path.exists(p)] and [Path.exists()]. *)
Definition path_exists (p : path) : M bool :=
  emit (EStat p) ;;
  es <- get_fs ;;
  ret (match lookup_in p es with Some _ => true | None => false end).

(** [shutil.rmtree(p)]: [p] has to be a directory. *)
Definition shutil_rmtree (p : path) : M unit :=
  es <- get_fs ;;
  match lookup_in p es with
  | Some (Dir _) => put_fs (remove_in p es) ;; emit (ERmtree p)
  | Some (File _ _) => raise (OSError NotADirectoryError p)
  | None => raise (OSError FileNotFoundError p)
  end.

(** [Path.unlink()]: [p] has to be something other than a directory. *)
Definition path_unlink (p : path) : M unit :=
  es <- get_fs ;;
  match lookup_in p es with
  | Some (File _ _) => put_fs (remove_in p es) ;; emit (EUnlink p)
  | Some (Dir _) => raise (OSError IsADirectoryError p)
  | None => raise (OSError FileNotFoundError p)
  end.

(** [Path.mkdir(exist_ok=True)].  The script only creates one-component
    paths, whose parent is the working directory, so [parents=True]
    changes nothing. *)
Definition path_mkdir (p : path) : M unit :=
  es <- get_fs ;;
  match lookup_in p es with
  | Some (Dir _) => ret tt
  | Some (File _ _) => raise (OSError FileExistsError p)
  | None =>
      match lookup_in (parent p) es with
      | Some (Dir _) => put_fs (store_in p (Dir []) es) ;; emit (EMkdir p)
      | Some (File _ _) => raise (OSError NotADirectoryError p)
      | None => raise (OSError FileNotFoundError p)
      end
  end.

(** Create [p] or replace its content, as [open(p, "w")] and the archive
    writers do: a directory in the way is an error, an existing file keeps
    its mode. *)
Definition write_file (p : path) (d : fdata) : M unit :=
  es <- get_fs ;;
  match lookup_in p es with
  | Some (Dir _) => raise (OSError IsADirectoryError p)
  | Some (File _ m) => put_fs (store_in p (File d m) es) ;; emit (EWrite p)
  | None =>
      match lookup_in (parent p) es with
      | Some (Dir _) =>
          put_fs (store_in p (File d (new_file_mode env)) es) ;; emit (EWrite p)
      | Some (File _ _) => raise (OSError NotADirectoryError p)
      | None => raise (OSError FileNotFoundError p)
      end
  end.

(** [logging.FileHandler(p)]: opens [p] for appending. *)
Definition open_append (p : path) : M unit :=
  es <- get_fs ;;
  match lookup_in p es with
  | Some (File _ _) => ret tt
  | _ => write_file p (Bytes "")
  end.

(** [Path.chmod(mode)]; the mode of a directory is not modelled. *)
Definition path_chmod (p : path) (mode : Z) : M unit :=
  es <- get_fs ;;
  match lookup_in p es with
  | Some (File d _) => put_fs (store_in p (File d mode) es) ;; emit (EChmod p mode)
  | Some (Dir _) => emit (EChmod p mode)
  | None => raise (OSError FileNotFoundError p)
  end.

(** [subprocess.run(argv, cwd=cwd, check=check)]. *)
Definition subprocess_run (argv : list string) (cwd : option path) (check : bool) : M Z :=
  fun w =>
    match exec env argv cwd w with
    | NotStarted why =>
        (Raise (OSError why (match cwd with Some d => d | None => [] end)),
         World (fs w) (trace w ++ [ESpawn argv cwd None]))
    | Exited rc es =>
        let w' := World es (trace w ++ [ESpawn argv cwd (Some rc)]) in
        if check && negb (rc =? 0)%Z
        then (Raise (CalledProcessError argv rc), w')
        else (Ret rc, w')
    end.

(** The member names [shutil.make_archive] stores: with no [base_dir],
    what lies below [root_dir], named relative to it; with [base_dir],
    that entry and what lies below it, every name starting with it. *)
Definition archive_members (root : node) (base_dir : option string) : option (list path) :=
  match root, base_dir with
  | Dir es, None => Some (walk [] (Dir es))
  | Dir es, Some b =>
      match assoc b es with
      | Some c => Some ([b] :: walk [b] c)
      | None => None
      end
  | File _ _, _ => None
  end.

(** [shutil.make_archive(str(base_name), format, root_dir, base_dir)]:
    writes [base_name] with the extension [.format] appended. *)
Definition shutil_make_archive (base_name : path) (format : string)
    (root_dir : path) (base_dir : option string) : M unit :=
  emit (EMakeArchive (path_str (platform env) base_name) format root_dir base_dir) ;;
  es <- get_fs ;;
  match lookup_in root_dir es with
  | Some (Dir r) =>
      match archive_members (Dir r) base_dir with
      | Some ms =>
          write_file (parent base_name ++ [basename base_name +:+ "." +:+ format])
            (Archive format ms)
      | None =>
          raise (OSError FileNotFoundError
                   (root_dir ++ match base_dir with Some b => [b] | None => [] end))
      end
  | Some (File _ _) => raise (OSError NotADirectoryError root_dir)
  | None => raise (OSError FileNotFoundError root_dir)
  end.

(** [Path('.').glob('*.spec')]: the entries of the working directory
    whose name matches; pathlib folds case on Windows. *)
Definition spec_match (name : string) : bool :=
  ends_with ".spec"
    (if String.eqb (platform env) "win32" then casefold name else name).

Definition glob_spec : M (list path) :=
  emit (EGlob "*.spec") ;;
  es <- get_fs ;;
  ret (List.map (fun e => [fst e]) (List.filter (fun e => spec_match (fst e)) es)).

Definition glob_pycache : M (list path) :=
  emit (EGlob "**/__pycache__") ;;
  es <- get_fs ;;
  ret (pycache_dirs [] (Dir es)).

(** ** [build.py] *)

Definition is_platform (name : string) : bool := String.eqb (platform env) name.

Definition nl : string := String (ascii_of_nat 10) EmptyString.
Definition dquote : string := String (ascii_of_nat 34) EmptyString.

(** [setup_logging].  The log file is returned as the text the caller
    interpolates.  On macOS the directory is under the home directory,
    outside the working tree; elsewhere it is [logs/] in the working
    directory. *)
Definition setup_logging : M string :=
  if is_platform "darwin" then
    if home_logs_ok env
    then ret (home env +:+ "/Library/Logs/TAK-Manager/build-" +:+ now env +:+ ".log")
    else raise (OSError OtherOSError [])
  else
    let log_dir := ["logs"] in
    path_mkdir log_dir ;;
    let log_file := log_dir ++ ["build-" +:+ now env +:+ ".log"] in
    open_append log_file ;;
    ret (path_str (platform env) log_file).

(** [build_frontend]. *)
Definition build_frontend : M unit :=
  let web_dir := ["web"] in
  found <- path_exists web_dir ;;
  (if negb found
   then logging ERROR "Web directory not found" ;; sys_exit 1
   else ret tt) ;;
  logging INFO "Building frontend..." ;;
  let npm_cmd := if is_platform "win32" then "npm.cmd" else "npm" in
  try_except
    (let dist_dir := web_dir ++ ["dist"] in
     old <- path_exists dist_dir ;;
     (if old
      then logging INFO "Cleaning previous frontend build..." ;; shutil_rmtree dist_dir
      else ret tt) ;;
     subprocess_run [npm_cmd; "install"] (Some web_dir) true ;;
     subprocess_run [npm_cmd; "run"; "build"] (Some web_dir) true ;;
     ret tt)
    is_CalledProcessError
    (fun e =>
       logging ERROR ("Error building frontend: " +:+ exn_text env e) ;;
       sys_exit 1).

(** [clean_build]. *)
Definition clean_build : M unit :=
  let dirs_to_clean := ["build"; "dist"; "__pycache__"] in
  for_each dirs_to_clean (fun dir_name =>
    found <- path_exists [dir_name] ;;
    if found
    then logging INFO ("Cleaning " +:+ dir_name +:+ "...") ;; shutil_rmtree [dir_name]
    else ret tt) ;;
  spec_files <- glob_spec ;;
  for_each spec_files (fun spec_file =>
    if negb (String.eqb (basename spec_file) "tak-manager.spec")
    then logging INFO ("Removing " +:+ path_str (platform env) spec_file +:+ "...") ;;
         path_unlink spec_file
    else ret tt) ;;
  pycache_found <- glob_pycache ;;
  for_each pycache_found (fun pycache_dir =>
    logging INFO ("Cleaning " +:+ path_str (platform env) pycache_dir +:+ "...") ;;
    shutil_rmtree pycache_dir).

(** The [required_files] dictionary of [ensure_resources]. *)
Definition required_files : gmap string string :=
  {[ "darwin" := "icon.icns"; "win32" := "icon.ico"; "linux" := "icon.png" ]}.

(** [ensure_resources]. *)
Definition ensure_resources : M unit :=
  let resources_dir := ["resources"] in
  path_mkdir resources_dir ;;
  match required_files !! platform env with
  | Some platform_file =>
      if negb (String.eqb platform_file "")
      then
        let icon_path := resources_dir ++ [platform_file] in
        found <- path_exists icon_path ;;
        if negb found
        then logging WARNING (platform_file +:+ " not found in resources directory")
        else ret tt
      else ret tt
  | None => ret tt
  end.

(** The mode [0o755]. *)
Definition mode_755 : Z := 7 * 64 + 5 * 8 + 5.

Definition debug_script_text : string :=
  "#!/bin/bash" +:+ nl +:+
  "# Change to the MacOS directory" +:+ nl +:+
  "cd " +:+ dquote +:+ "$(dirname " +:+ dquote +:+ "$0" +:+ dquote +:+
    ")/TAK Manager.app/Contents/MacOS" +:+ dquote +:+ nl +:+
  nl +:+
  "# Set environment variables for debugging" +:+ nl +:+
  "export PYTHONUNBUFFERED=1" +:+ nl +:+
  "export PYTHONDONTWRITEBYTECODE=1" +:+ nl +:+
  nl +:+
  "# Run the application without any arguments" +:+ nl +:+
  "./TAK\ Manager" +:+ nl.

(** [create_debug_script]. *)
Definition create_debug_script : M unit :=
  if is_platform "darwin" then
    let debug_script := ["dist"; "debug_launch.command"] in
    write_file debug_script (Bytes debug_script_text) ;;
    path_chmod debug_script mode_755 ;;
    logging INFO ("Created debug launch script at " +:+ path_str (platform env) debug_script)
  else ret tt.

(** The branch on the platform that closes [build_app]: the distribution
    archive, made only when the packager left what is expected. *)
Definition create_archive (dist_dir : path) : M unit :=
  if is_platform "darwin" then
    let app_name := "TAK Manager.app" in
    found <- path_exists (dist_dir ++ [app_name]) ;;
    if found
    then logging INFO "Creating macOS ZIP archive..." ;;
         shutil_make_archive (dist_dir ++ ["TAK-Manager-macOS"]) "zip" dist_dir (Some app_name)
    else ret tt
  else if is_platform "win32" then
    let app_dir := dist_dir ++ ["TAK Manager"] in
    found <- path_exists app_dir ;;
    if found
    then logging INFO "Creating Windows distribution archive..." ;;
         shutil_make_archive (dist_dir ++ ["TAK-Manager-Windows"]) "zip" app_dir None
    else ret tt
  else
    let app_dir := dist_dir ++ ["tak-manager"] in
    found <- path_exists app_dir ;;
    if found
    then logging INFO "Creating Linux distribution archive..." ;;
         let archive_name := path_str (platform env) (dist_dir ++ ["TAK-Manager-Linux.tar.gz"]) in
         subprocess_run ["tar"; "czf"; archive_name; "-C"; path_str (platform env) dist_dir;
                         "tak-manager"] None false ;;
         ret tt
    else ret tt.

Definition pyinstaller_argv : list string := ["pyinstaller"; "tak-manager.spec"; "--clean"].

(** The body of the [try] of [build_app]. *)
Definition build_steps : M unit :=
  log_file <- setup_logging ;;
  logging INFO ("Build log will be written to: " +:+ log_file) ;;
  clean_build ;;
  build_frontend ;;
  ensure_resources ;;
  logging INFO "Building application with PyInstaller..." ;;
  subprocess_run pyinstaller_argv None true ;;
  create_debug_script ;;
  let dist_dir := ["dist"] in
  create_archive dist_dir ;;
  logging INFO "Build completed successfully!" ;;
  logging INFO ("Output can be found in the " +:+ path_str (platform env) dist_dir +:+ " directory") ;;
  logging INFO ("For debugging, check the log file at: " +:+ log_file).

(** [build_app]. *)
Definition build_app : M unit :=
  try_except build_steps is_Exception
    (fun e =>
       logging ERROR ("Error during build: " +:+ exn_text env e) ;;
       sys_exit 1).

End Script.

(** [python build.py] from a working directory [es]: the exit status and
    the final world. *)
Definition run_script (env : Env) (es : dirents) : Z * world :=
  let (r, w) := build_app env (World es []) in (exit_status r, w).

(** * Vocabulary of the statements *)

(** ** The directory tree *)

(** Induction over a tree, with the hypothesis for every entry of a
    directory. *)
Fixpoint node_ind (P : node -> Prop)
    (HFile : forall d m, P (File d m))
    (HDir : forall es, Forall (fun e => P (snd e)) es -> P (Dir es))
    (n : node) : P n :=
  match n with
  | File d m => HFile d m
  | Dir es =>
      HDir es
        ((fix all (l : dirents) : Forall (fun e => P (snd e)) l :=
            match l with
            | [] => List.Forall_nil _
            | e :: l' => List.Forall_cons _ e l' (node_ind P HFile HDir (snd e)) (all l')
            end) es)
  end.

(** [reach q n]: following the names of [q] from [n] leads to an entry. *)
Inductive reach : path -> node -> Prop :=
| reach_here n : reach [] n
| reach_below x q es c : In (x, c) es -> reach q c -> reach (x :: q) (Dir es).

(** The names a directory lists. *)
Definition names (es : dirents) : list string := List.map fst es.

(** A tree as a file system holds it: no directory lists a name twice. *)
Fixpoint wf_node (n : node) : Prop :=
  match n with
  | File _ _ => True
  | Dir es =>
      List.NoDup (List.map fst es) /\
      (fix each (l : dirents) : Prop :=
         match l with
         | [] => True
         | e :: l' => wf_node (snd e) /\ each l'
         end) es
  end.

Definition wf_tree (es : dirents) : Prop := wf_node (Dir es).

(** [remove_in] below a node. *)
Definition remove_node (q : path) (n : node) : node :=
  match n with
  | Dir es => Dir (remove_in q es)
  | File d m => File d m
  end.

(** The contribution of one entry to the glob. *)
Definition pycache_below (pre : path) (e : string * node) : list path :=
  if String.eqb (fst e) pycache then [] else pycache_dirs (pre ++ [fst e]) (snd e).

(** ** Events *)

(** The events of the script's own bookkeeping: everything but starting a
    program and calling the archiver. *)
Definition is_quiet (e : event) : bool :=
  match e with
  | ESpawn _ _ _ | EMakeArchive _ _ _ _ => false
  | _ => true
  end.

(** A program has been started, or could not be. *)
Definition is_spawn (e : event) : bool :=
  match e with ESpawn _ _ _ => true | _ => false end.

(** The [npm_cmd] of [build_frontend]. *)
Definition npm_program (env : Env) : string :=
  if is_platform env "win32" then "npm.cmd" else "npm".

(** npm install or npm run build has ended with a non-zero status. *)
Definition npm_step_failed (env : Env) (e : event) : Prop :=
  exists rc, rc <> 0%Z /\
    (e = ESpawn [npm_program env; "install"] (Some ["web"]) (Some rc) \/
     e = ESpawn [npm_program env; "run"; "build"] (Some ["web"]) (Some rc)).

(** pyinstaller has been started, or an attempt made to start it. *)
Definition packager_invoked (e : event) : Prop :=
  exists cwd st, e = ESpawn pyinstaller_argv cwd st.

(** An attempt to create an archive: a call of [shutil.make_archive], or
    tar being started. *)
Definition archive_attempt (e : event) : bool :=
  match e with
  | EMakeArchive _ _ _ _ => true
  | ESpawn ("tar" :: _) _ _ => true
  | _ => false
  end.

(** Events that delete. *)
Definition is_deletion (e : event) : bool :=
  match e with ERmtree _ | EUnlink _ => true | _ => false end.

(** ** Computations *)

(** [yields P Q E m]: whatever the start, [m] only appends to the trace,
    and only events that satisfy [P]; when it returns they also satisfy
    [Q]; when it raises, the exception satisfies [E]. *)
Definition yields {A} (P Q : event -> Prop) (E : exn -> Prop) (m : M A) : Prop :=
  forall w, exists tr,
    trace (snd (m w)) = trace w ++ tr /\ Forall P tr /\
    match fst (m w) with
    | Ret _ => Forall Q tr
    | Raise e => E e
    end.

Definition never_returns {A} (m : M A) : Prop := forall w a, fst (m w) <> Ret a.

(** A computation that only does bookkeeping and only raises
    [Exception]s. *)
Definition tame {A} (m : M A) : Prop :=
  yields (fun e => is_quiet e = true) (fun e => is_quiet e = true)
    (fun e => is_Exception e = true) m.

(** [keeps I m]: [m] preserves [I], whether it returns or raises. *)
Definition keeps {A} (I : world -> Prop) (m : M A) : Prop :=
  forall w, I w -> I (snd (m w)).

(** An invariant that no new event can break. *)
Definition stable (I : world -> Prop) : Prop :=
  forall es tr e, I (World es tr) -> I (World es (tr ++ [e])).

(** ** The loops of [clean_build] *)

Definition canonical_spec : string := "tak-manager.spec".

(** The [dirs_to_clean] of [clean_build]. *)
Abbreviation dirs_to_clean := ["build"; "dist"; "__pycache__"] (only parsing).

Section Loops.

Variable env : Env.

(** The bodies of the three loops of [clean_build]. *)
Definition clean_dir (dir_name : string) : M unit :=
  found <- path_exists [dir_name] ;;
  if found
  then logging INFO ("Cleaning " +:+ dir_name +:+ "...") ;; shutil_rmtree [dir_name]
  else ret tt.

Definition clean_spec (spec_file : path) : M unit :=
  if negb (String.eqb (basename spec_file) canonical_spec)
  then logging INFO ("Removing " +:+ path_str (platform env) spec_file +:+ "...") ;;
       path_unlink spec_file
  else ret tt.

Definition clean_pycache (pycache_dir : path) : M unit :=
  logging INFO ("Cleaning " +:+ path_str (platform env) pycache_dir +:+ "...") ;;
  shutil_rmtree pycache_dir.

(** What [Path('.').glob('*.spec')] yields in the tree [es]. *)
Definition spec_files_of (es : dirents) : list path :=
  List.map (fun e => [fst e]) (List.filter (fun e => spec_match env (fst e)) es).

(** A top-level [*.spec] file other than the canonical one, by path. *)
Definition stray_spec (p : path) : Prop :=
  exists x, p = [x] /\ x <> canonical_spec /\ spec_match env x = true.

(** No top-level spec file other than the canonical one. *)
Definition no_strays (w : world) : Prop :=
  forall p, In p (spec_files_of (fs w)) -> String.eqb (basename p) canonical_spec = true.

End Loops.

(** What a second [clean_build] adds to the trace: three existence tests
    and two globs. *)
Definition clean_build_idle : list event :=
  [EStat ["build"]; EStat ["dist"]; EStat ["__pycache__"];
   EGlob "*.spec"; EGlob "**/__pycache__"].

(** Nothing is stored under [p], by whatever entry. *)
Definition unreachable (p : path) (w : world) : Prop := ~ reach p (Dir (fs w)).

(** Everything in the tree was already in [es0]. *)
Definition within (es0 : dirents) (w : world) : Prop :=
  forall q, reach q (Dir (fs w)) -> reach q (Dir es0).

(** No entry of the working directory is called [x]. *)
Definition absent (x : string) (w : world) : Prop := assoc x (fs w) = None.

(** The tree of [w] lists no name twice. *)
Definition wf_world (w : world) : Prop := wf_tree (fs w).

(** The regular file [x] of the working directory is still there. *)
Definition file_kept (x : string) (d : fdata) (m : Z) (w : world) : Prop :=
  assoc x (fs w) = Some (File d m).

(** Since the trace was [tr0], [p] has been unlinked. *)
Definition unlinked_since (tr0 : list event) (p : path) (w : world) : Prop :=
  exists t, trace w = tr0 ++ t /\ In (EUnlink p) t.

(** The trace has only grown since it was [tr0]. *)
Definition extends (tr0 : list event) (w : world) : Prop :=
  exists t, trace w = tr0 ++ t.

(** ** The pipeline, stage by stage *)

Section Stages.

Variable env : Env.

(** The steps of [build_steps] from a given point on; [log_file] is what
    [setup_logging] returned. *)
Definition from_archive (log_file : string) : M unit :=
  create_archive env ["dist"] ;;
  logging INFO "Build completed successfully!" ;;
  logging INFO ("Output can be found in the " +:+ path_str (platform env) ["dist"] +:+ " directory") ;;
  logging INFO ("For debugging, check the log file at: " +:+ log_file).

Definition from_debug_script (log_file : string) : M unit :=
  create_debug_script env ;; from_archive log_file.

Definition from_packaging (log_file : string) : M unit :=
  subprocess_run env pyinstaller_argv None true ;; from_debug_script log_file.

Definition from_resources (log_file : string) : M unit :=
  ensure_resources env ;;
  logging INFO "Building application with PyInstaller..." ;;
  from_packaging log_file.

Definition from_frontend (log_file : string) : M unit :=
  build_frontend env ;; from_resources log_file.

(** The steps of [build_steps] up to a given point: the world they leave
    is the one the next step starts in. *)
Definition upto_frontend : M string :=
  log_file <- setup_logging env ;;
  logging INFO ("Build log will be written to: " +:+ log_file) ;;
  clean_build env ;;
  ret log_file.

Definition upto_resources : M string :=
  log_file <- upto_frontend ;; build_frontend env ;; ret log_file.

Definition upto_packaging : M string :=
  log_file <- upto_resources ;;
  ensure_resources env ;;
  logging INFO "Building application with PyInstaller..." ;;
  ret log_file.

Definition upto_debug_script : M string :=
  log_file <- upto_packaging ;;
  subprocess_run env pyinstaller_argv None true ;;
  ret log_file.

Definition upto_archive : M string :=
  log_file <- upto_debug_script ;; create_debug_script env ;; ret log_file.

(** How a run ends once [build_steps] has ended: the [except Exception]
    clause of [build_app]. *)
Definition conclude (r : outcome unit) (w : world) : outcome unit * world :=
  match r with
  | Ret a => (Ret a, w)
  | Raise e =>
      if is_Exception e
      then (Raise (SystemExit 1),
            World (fs w) (trace w ++ [ELog ERROR ("Error during build: " +:+ exn_text env e)]))
      else (Raise e, w)
  end.

End Stages.

(** ** What each platform is to produce *)

(** The icon each platform is said to need; [required_files] is what the
    script looks up. *)
Definition icon_for (plat : string) : string :=
  if String.eqb plat "darwin" then "icon.icns"
  else if String.eqb plat "win32" then "icon.ico"
  else "icon.png".

(** The path the packager is expected to have produced. *)
Definition expected_output (plat : string) : path :=
  ["dist";
   if String.eqb plat "darwin" then "TAK Manager.app"
   else if String.eqb plat "win32" then "TAK Manager"
   else "tak-manager"].



Definition debug_script : path := ["dist"; "debug_launch.command"].



Definition windows_zip : path := ["dist"; "TAK-Manager-Windows.zip"].


(** ** External tools and sample runs *)

(** [tar czf ARCHIVE -C DIR MEMBER], the one form the script uses, run
    from the working directory: [ARCHIVE] is written where it is named,
    [MEMBER] is looked up in [DIR], and the archive holds [MEMBER] and
    what lies below it, named relative to [DIR].  [mode] is the mode the
    archive file ends up with.  [None] is a failure of tar: no such
    member, no directory to write the archive to, or a directory where
    the archive should go. *)
Definition tar_czf_as (mode : Z) (args : list string) (es : dirents) : option dirents :=
  match args with
  | ["czf"; archive; "-C"; dir; member] =>
      match lookup_in (parse_path dir ++ parse_path member) es,
            lookup_in (parent (parse_path archive)) es,
            lookup_in (parse_path archive) es with
      | Some c, Some (Dir _), (None | Some (File _ _)) =>
          Some (store_in (parse_path archive)
                  (File (Archive "tar.gz" (parse_path member :: walk (parse_path member) c)) mode)
                  es)
      | _, _, _ => None
      end
  | _ => None
  end.

(** The same, the archive file having mode [0o644]. *)
Definition tar_czf (args : list string) (es : dirents) : option dirents :=
  tar_czf_as 420 args es.

(** The command line of the linux archive step. *)
Definition tar_argv : list string :=
  ["tar"; "czf"; "dist/TAK-Manager-Linux.tar.gz"; "-C"; "dist"; "tak-manager"].

(** The world in which tar is started, [w] being the world at the archive
    step. *)
Definition at_tar (w : world) : world :=
  World (fs w)
    (trace w ++ [EStat ["dist"; "tak-manager"];
                 ELog INFO "Creating Linux distribution archive..."]).

Module Sample.

(** What the packager leaves in [dist/] on each platform. *)
Definition bundle (plat : string) : string :=
  if String.eqb plat "darwin" then "TAK Manager.app"
  else if String.eqb plat "win32" then "TAK Manager"
  else "tak-manager".

Definition packaged (plat : string) : node :=
  Dir [(bundle plat, Dir [("takmanager", File (Bytes "ELF") 493);
                          ("lib", Dir [("base.zip", File (Bytes "PK") 420)])])].

(** A toolchain: npm install ends with [npm_rc]; the packager writes
    [dist/] when [packs]; tar is [tar_czf] when [tar_ok] and fails
    otherwise. *)
Definition tools (plat : string) (npm_rc : Z) (packs tar_ok : bool)
    (argv : list string) (cwd : option path) (w : world) : exec_result :=
  match argv with
  | "tar" :: args =>
      match (if tar_ok then tar_czf args (fs w) else None) with
      | Some es => Exited 0 es
      | None => Exited 2 (fs w)
      end
  | "pyinstaller" :: _ =>
      Exited 0 (if packs then store_in ["dist"] (packaged plat) (fs w) else fs w)
  | [_; "install"] => Exited npm_rc (fs w)
  | [_; "run"; "build"] =>
      Exited 0 (store_in ["web"; "dist"] (Dir [("index.html", File (Bytes "<html>") 420)]) (fs w))
  | _ => NotStarted FileNotFoundError
  end.

Definition env_of (plat : string) (npm_rc : Z) (packs tar_ok : bool) : Env :=
  {| platform := plat;
     home := "/Users/dev";
     now := "20240101-120000";
     home_logs_ok := true;
     new_file_mode := 420;
     exn_text := fun _ => "error";
     exec := tools plat npm_rc packs tar_ok |}.

(** A checkout with stale build output. *)
Definition project : dirents :=
  [("web", Dir [("package.json", File (Bytes "{}") 420); ("dist", Dir [])]);
   ("build", Dir [("tak-manager", Dir [])]);
   ("old.spec", File (Bytes "") 420);
   ("tak-manager.spec", File (Bytes "a = Analysis()") 420);
   ("backend", Dir [("__pycache__", Dir [("app.pyc", File (Bytes "") 420)]);
                    ("app.py", File (Bytes "") 420)]);
   ("resources", Dir [("icon.png", File (Bytes "PNG") 420)])].

(** The same checkout without the frontend sources. *)
Definition project_without_web : dirents := List.tl project.

End Sample.

(** ** How a run ends *)

(** The three records that close a successful run. *)
Definition success_records (log_file : string) : list event :=
  [ELog INFO "Build completed successfully!";
   ELog INFO "Output can be found in the dist directory";
   ELog INFO ("For debugging, check the log file at: " +:+ log_file)].

(** The last thing done was to log an error. *)
Definition ends_with_error (tr : list event) : Prop :=
  exists tr0 msg, tr = tr0 ++ [ELog ERROR msg].

(** ** What [clean_build] leaves alone *)

(** Whatever the tree holds was in [es0], a regular file as it was. *)
Definition from_tree (es0 : dirents) (w : world) : Prop :=
  forall p c, lookup_in p (fs w) = Some c ->
    exists c0, lookup_in p es0 = Some c0 /\
      match c with File _ _ => c0 = c | Dir _ => is_dir c0 = true end.

(** The regular file at [p]. *)
Definition file_at (p : path) (d : fdata) (m : Z) (w : world) : Prop :=
  lookup_in p (fs w) = Some (File d m).

(** ** The log file *)

(** The [log_file] of [setup_logging] off macOS, as a path. *)
Definition log_path (env : Env) : path := ["logs"; "build-" +:+ now env +:+ ".log"].

(** ** The frontend step *)

(** The status [subprocess.run] sees, if the program started at all. *)
Definition spawn_status (r : exec_result) : option Z :=
  match r with Exited rc _ => Some rc | NotStarted _ => None end.

(** The world in which npm install is started, [w] being the world in
    which [build_frontend] is entered with a directory [web/dist]. *)
Definition after_frontend_cleanup (w : world) : world :=
  World (remove_in ["web"; "dist"] (fs w))
    (trace w ++ [EStat ["web"]; ELog INFO "Building frontend..."; EStat ["web"; "dist"];
                 ELog INFO "Cleaning previous frontend build..."; ERmtree ["web"; "dist"]]).

(** ** What the script writes and what it deletes *)

(** The paths the script itself creates or writes off macOS. *)
Definition own_output (env : Env) (p : path) : Prop :=
  In p [["logs"]; log_path env; ["resources"]; windows_zip].

(** An event that creates or writes does so at one of these paths. *)
Definition writes_within (env : Env) (e : event) : Prop :=
  match e with
  | EMkdir p | EWrite p | EChmod p _ => own_output env p
  | _ => True
  end.

(** A removal is that of [build], [dist], [__pycache__] or [web/dist], of
    an entry called [__pycache__], or of a top-level spec file other than
    the canonical one. *)
Definition deletes_within (env : Env) (e : event) : Prop :=
  match e with
  | ERmtree p =>
      In p [["build"]; ["dist"]; ["__pycache__"]; ["web"; "dist"]]
      \/ exists a, p = a ++ [pycache]
  | EUnlink p => stray_spec env p
  | _ => True
  end.

(** ** What can stand in the way of [clean_build] *)

(** No regular file stands at [p]. *)
Definition no_file_at (p : path) (w : world) : Prop :=
  forall d m, lookup_in p (fs w) <> Some (File d m).

(** No directory stands at [p]. *)
Definition no_dir_at (p : path) (w : world) : Prop :=
  forall r, lookup_in p (fs w) <> Some (Dir r).

(** Something stands at [p]. *)
Definition present (p : path) (w : world) : Prop := lookup_in p (fs w) <> None.

(** No directory is called like a spec file that is to be unlinked. *)
Definition strays_are_files (env : Env) (w : world) : Prop :=
  forall x, spec_match env x = true -> x <> canonical_spec -> no_dir_at [x] w.

(** No regular file is called [__pycache__]. *)
Definition caches_are_dirs (w : world) : Prop :=
  forall a, no_file_at (a ++ [pycache]) w.

(** ** More sample environments *)

Module Faulty.

(** A toolchain like [Sample.tools], except that the program [broken]
    ends with status 1 when [started], and cannot be started otherwise. *)
Definition tools (plat : string) (broken : string) (started : bool)
    (argv : list string) (cwd : option path) (w : world) : exec_result :=
  match argv with
  | prog :: _ =>
      if String.eqb prog broken
      then if started then Exited 1 (fs w) else NotStarted FileNotFoundError
      else Sample.tools plat 0 true true argv cwd w
  | [] => NotStarted FileNotFoundError
  end.

Definition env_of (plat : string) (broken : string) (started : bool) : Env :=
  {| platform := plat;
     home := "/Users/dev";
     now := "20240101-120000";
     home_logs_ok := true;
     new_file_mode := 420;
     exn_text := fun _ => "error";
     exec := tools plat broken started |}.



End Faulty.

(** * Lemmas *)

(** ** The directory tree: lookups *)

Section Tree.

Implicit Types (x y : string) (es : dirents) (p q : path) (c : node).

Lemma assoc_Some_In x es c : assoc x es = Some c -> In (x, c) es.
Proof.
  induction es as [|[n c'] es IH]; simpl; [discriminate|].
  destruct (String.eqb_spec n x) as [->|Hne]; intros H.
  - injection H as ->. now left.
  - right. auto.
Qed.

Lemma assoc_None_In x es c : assoc x es = None -> ~ In (x, c) es.
Proof.
  induction es as [|[n c'] es IH]; simpl; [tauto|].
  destruct (String.eqb_spec n x) as [->|Hne]; [discriminate|].
  intros H [Heq|Hin]; [injection Heq as -> _; congruence | now apply IH].
Qed.

Lemma In_assoc x es c : In (x, c) es -> exists c', assoc x es = Some c'.
Proof.
  destruct (assoc x es) as [c'|] eqn:E; [eauto|].
  intros Hin. now apply assoc_None_In with (c := c) in E.
Qed.

Lemma assoc_drop_name_eq x es : assoc x (drop_name x es) = None.
Proof.
  induction es as [|[n c] es IH]; simpl; [reflexivity|].
  destruct (String.eqb_spec n x) as [->|Hne]; simpl; [assumption|].
  now rewrite (proj2 (String.eqb_neq n x) Hne).
Qed.

Lemma assoc_drop_name_ne x y es : x <> y -> assoc y (drop_name x es) = assoc y es.
Proof.
  intros Hxy. induction es as [|[n c] es IH]; simpl; [reflexivity|].
  destruct (String.eqb_spec n x) as [->|Hne]; simpl.
  - now rewrite (proj2 (String.eqb_neq x y) Hxy).
  - now rewrite IH.
Qed.

Lemma assoc_drop_name_None x y es : assoc y es = None -> assoc y (drop_name x es) = None.
Proof.
  destruct (String.eqb_spec x y) as [->|Hne]; intros H.
  - apply assoc_drop_name_eq.
  - now rewrite assoc_drop_name_ne.
Qed.

Lemma assoc_on_child x y f es :
  assoc y (on_child x f es) =
  if String.eqb y x
  then match assoc y es with
       | Some (Dir es') => Some (Dir (f es'))
       | o => o
       end
  else assoc y es.
Proof.
  induction es as [|[n c] es IH]; simpl.
  - now destruct (String.eqb y x).
  - destruct (String.eqb_spec n x) as [->|Hnx]; simpl.
    + destruct (String.eqb_spec x y) as [<-|Hxy].
      * rewrite String.eqb_refl. now destruct c.
      * rewrite IH. reflexivity.
    + destruct (String.eqb_spec n y) as [->|Hny].
      * now rewrite (proj2 (String.eqb_neq y x) Hnx).
      * apply IH.
Qed.

Lemma assoc_on_child_File x y f es d m :
  assoc y es = Some (File d m) -> assoc y (on_child x f es) = Some (File d m).
Proof. intros H. rewrite assoc_on_child, H. now destruct (String.eqb y x). Qed.

Lemma assoc_on_child_None x y f es :
  assoc y es = None -> assoc y (on_child x f es) = None.
Proof. intros H. rewrite assoc_on_child, H. now destruct (String.eqb y x). Qed.

Lemma assoc_app x es es' :
  assoc x (es ++ es') = match assoc x es with Some c => Some c | None => assoc x es' end.
Proof.
  induction es as [|[n c] es IH]; simpl; [reflexivity|].
  now destruct (String.eqb n x).
Qed.

Lemma assoc_replace x y c es :
  assoc y (List.map (fun e => if String.eqb (fst e) x then (fst e, c) else e) es) =
  if String.eqb y x then match assoc y es with Some _ => Some c | None => None end
  else assoc y es.
Proof.
  induction es as [|[n c'] es IH]; simpl.
  - now destruct (String.eqb y x).
  - destruct (String.eqb_spec n x) as [->|Hnx]; simpl.
    + destruct (String.eqb_spec x y) as [<-|Hxy].
      * now rewrite String.eqb_refl.
      * rewrite IH. reflexivity.
    + destruct (String.eqb_spec n y) as [->|Hny].
      * now rewrite (proj2 (String.eqb_neq y x) Hnx).
      * apply IH.
Qed.

Lemma assoc_set_child_eq x c es : assoc x (set_child x c es) = Some c.
Proof.
  unfold set_child. destruct (assoc x es) as [c'|] eqn:E.
  - now rewrite assoc_replace, String.eqb_refl, E.
  - rewrite assoc_app, E. simpl. now rewrite String.eqb_refl.
Qed.

Lemma assoc_set_child_ne x y c es : x <> y -> assoc y (set_child x c es) = assoc y es.
Proof.
  intros Hxy. unfold set_child. destruct (assoc x es) as [c'|] eqn:E.
  - rewrite assoc_replace. now rewrite (proj2 (String.eqb_neq y x) (not_eq_sym Hxy)).
  - rewrite assoc_app. destruct (assoc y es); [reflexivity|].
    simpl. now rewrite (proj2 (String.eqb_neq x y) Hxy).
Qed.

(** What [remove_in] does to an entry of the working directory. *)
Lemma assoc_remove_in_File p y es d m :
  p <> [y] -> assoc y es = Some (File d m) -> assoc y (remove_in p es) = Some (File d m).
Proof.
  destruct p as [|x [|x' q]]; simpl; intros Hp H; [assumption| |].
  - rewrite assoc_drop_name_ne; [assumption|congruence].
  - now apply assoc_on_child_File.
Qed.

Lemma assoc_remove_in_None p y es : assoc y es = None -> assoc y (remove_in p es) = None.
Proof.
  destruct p as [|x [|x' q]]; simpl; intros H; [assumption| |].
  - now apply assoc_drop_name_None.
  - now apply assoc_on_child_None.
Qed.

Lemma lookup_in_single x es : lookup_in [x] es = assoc x es.
Proof. simpl. destruct (assoc x es) as [[d m|es']|]; reflexivity. Qed.

End Tree.

(** ** Runs: what a computation adds to the trace *)

Section Yields.

Context {P Q : event -> Prop} {E : exn -> Prop}.

Lemma yields_ret {A} (a : A) : yields P Q E (ret a).
Proof. intros w. exists []. simpl. rewrite app_nil_r. auto. Qed.

Lemma yields_raise {A} e : E e -> yields P Q E (@raise A e).
Proof. intros He w. exists []. simpl. rewrite app_nil_r. auto. Qed.

Lemma yields_get_fs : yields P Q E get_fs.
Proof. intros w. exists []. simpl. rewrite app_nil_r. auto. Qed.

Lemma yields_put_fs es : yields P Q E (put_fs es).
Proof. intros w. exists []. simpl. rewrite app_nil_r. auto. Qed.

Lemma yields_emit e : P e -> Q e -> yields P Q E (emit e).
Proof. intros Hp Hq w. exists [e]. simpl. auto. Qed.

Lemma yields_bind {A B} (m : M A) (k : A -> M B) :
  yields P Q E m -> (forall a, yields P Q E (k a)) -> yields P Q E (bind m k).
Proof.
  intros Hm Hk w. unfold bind.
  destruct (Hm w) as (tr1 & Ht1 & Hp1 & Hr1).
  destruct (m w) as [[a|e] w1]; simpl in *.
  - destruct (Hk a w1) as (tr2 & Ht2 & Hp2 & Hr2).
    exists (tr1 ++ tr2). rewrite Ht2, Ht1, app_assoc. split; [reflexivity|].
    split; [now apply Forall_app|].
    destruct (fst (k a w1)); [now apply Forall_app | assumption].
  - now exists tr1.
Qed.

Lemma yields_for_each {X} (l : list X) (body : X -> M unit) :
  (forall x, yields P Q E (body x)) -> yields P Q E (for_each l body).
Proof.
  intros Hb. induction l as [|x l IH]; simpl.
  - apply yields_ret.
  - apply yields_bind; [apply Hb | intros _; apply IH].
Qed.

(** The handlers of the script end in [sys.exit]: they never return. *)
Lemma yields_try_except {A} (E' : exn -> Prop) (body : M A) class (handler : exn -> M A) :
  yields P Q E' body ->
  (forall e, class e = true -> yields P Q E (handler e) /\ never_returns (handler e)) ->
  (forall e, E' e -> class e = false -> E e) ->
  yields P Q E (try_except body class handler).
Proof.
  intros Hm Hk HE w. unfold try_except.
  destruct (Hm w) as (tr1 & Ht1 & Hp1 & Hr1).
  destruct (body w) as [[a|e] w1]; simpl in *.
  - now exists tr1.
  - destruct (class e) eqn:Hc; [|exists tr1; simpl; auto].
    destruct (Hk e Hc) as [Hh Hn].
    destruct (Hh w1) as (tr2 & Ht2 & Hp2 & Hr2).
    exists (tr1 ++ tr2). rewrite Ht2, Ht1, app_assoc. split; [reflexivity|].
    split; [now apply Forall_app|].
    specialize (Hn w1). destruct (fst (handler e w1)); [now elim (Hn a)|assumption].
Qed.

(** [subprocess.run]: it returns only on status 0 when [check] is set. *)
Lemma yields_subprocess_run env argv cwd check :
  (forall st, P (ESpawn argv cwd st)) ->
  (forall rc, check = false \/ rc = 0%Z -> Q (ESpawn argv cwd (Some rc))) ->
  (forall why d, E (OSError why d)) ->
  (forall rc, check = true -> rc <> 0%Z -> E (CalledProcessError argv rc)) ->
  yields P Q E (subprocess_run env argv cwd check).
Proof.
  intros Hp Hq He Hc w. unfold subprocess_run.
  destruct (exec env argv cwd w) as [why|rc es].
  - exists [ESpawn argv cwd None]. simpl. auto.
  - exists [ESpawn argv cwd (Some rc)].
    destruct check; simpl; [|auto 6].
    destruct (Z.eqb_spec rc 0) as [->|Hrc]; simpl; auto 6.
Qed.

End Yields.

Lemma yields_weaken {A} (P Q P' Q' : event -> Prop) (E E' : exn -> Prop) (m : M A) :
  yields P Q E m ->
  (forall e, P e -> P' e) -> (forall e, Q e -> Q' e) -> (forall e, E e -> E' e) ->
  yields P' Q' E' m.
Proof.
  intros Hm HP HQ HE w. destruct (Hm w) as (tr & Ht & Hp & Hr).
  exists tr. split; [assumption|]. split; [eapply Forall_impl; eauto|].
  destruct (fst (m w)); [eapply Forall_impl; eauto | auto].
Qed.

(** What a tame computation yields under any reading of the trace that
    accepts bookkeeping. *)
Lemma yields_tame {A} (P Q : event -> Prop) (E : exn -> Prop) (m : M A) :
  tame m ->
  (forall e, is_quiet e = true -> P e) ->
  (forall e, is_quiet e = true -> Q e) ->
  (forall e, is_Exception e = true -> E e) ->
  yields P Q E m.
Proof. intros Hm HP HQ HE. eapply yields_weaken; eauto. Qed.

Lemma never_returns_raise {A} e : never_returns (@raise A e).
Proof. intros w a. discriminate. Qed.

Lemma never_returns_bind_r {A B} (m : M A) (k : A -> M B) :
  (forall a, never_returns (k a)) -> never_returns (bind m k).
Proof.
  intros Hk w b. unfold bind. destruct (m w) as [[a|e] w1]; [apply Hk | discriminate].
Qed.

(** One step of a proof of [yields]: split the computation along its
    syntax, leaving the side conditions on single events and exceptions. *)
Ltac yields_step :=
  lazymatch goal with
  | |- yields _ _ _ (ret _) => apply yields_ret
  | |- yields _ _ _ (raise _) => apply yields_raise
  | |- yields _ _ _ (sys_exit _) => apply yields_raise
  | |- yields _ _ _ get_fs => apply yields_get_fs
  | |- yields _ _ _ (put_fs _) => apply yields_put_fs
  | |- yields _ _ _ (emit _) => apply yields_emit
  | |- yields _ _ _ (logging _ _) => apply yields_emit
  | |- yields _ _ _ (bind _ _) => apply yields_bind; [|intros ?]
  | |- yields _ _ _ (for_each _ _) => apply yields_for_each; intros ?
  | |- yields _ _ _ (match ?x with _ => _ end) => destruct x
  | |- yields _ _ _ (let _ := _ in _) => cbv zeta
  end.

Ltac yields_auto := repeat yields_step; try reflexivity.

Section Tame.

Variable env : Env.

Lemma tame_path_exists p : tame (path_exists p).
Proof. unfold tame, path_exists. yields_auto. Qed.

Lemma tame_shutil_rmtree p : tame (shutil_rmtree p).
Proof. unfold tame, shutil_rmtree. yields_auto. Qed.

Lemma tame_path_unlink p : tame (path_unlink p).
Proof. unfold tame, path_unlink. yields_auto. Qed.

Lemma tame_path_mkdir p : tame (path_mkdir p).
Proof. unfold tame, path_mkdir. yields_auto. Qed.

Lemma tame_write_file p d : tame (write_file env p d).
Proof. unfold tame, write_file. yields_auto. Qed.

Lemma tame_open_append p : tame (open_append env p).
Proof. unfold tame, open_append. yields_auto; apply tame_write_file. Qed.

Lemma tame_path_chmod p mode : tame (path_chmod p mode).
Proof. unfold tame, path_chmod. yields_auto. Qed.

Lemma tame_glob_spec : tame (glob_spec env).
Proof. unfold tame, glob_spec. yields_auto. Qed.

Lemma tame_glob_pycache : tame glob_pycache.
Proof. unfold tame, glob_pycache. yields_auto. Qed.

Lemma tame_setup_logging : tame (setup_logging env).
Proof.
  unfold tame, setup_logging. yields_auto;
    first [apply tame_path_mkdir | apply tame_open_append].
Qed.

Lemma tame_clean_build : tame (clean_build env).
Proof.
  unfold tame, clean_build. yields_auto;
    first [apply tame_path_exists | apply tame_shutil_rmtree
          | apply tame_glob_spec | apply tame_path_unlink | apply tame_glob_pycache].
Qed.

Lemma tame_ensure_resources : tame (ensure_resources env).
Proof.
  unfold tame, ensure_resources. yields_auto;
    first [apply tame_path_exists | apply tame_path_mkdir].
Qed.

Lemma tame_create_debug_script : tame (create_debug_script env).
Proof.
  unfold tame, create_debug_script. yields_auto;
    first [apply tame_write_file | apply tame_path_chmod].
Qed.

End Tame.

(** ** The pipeline, stage by stage *)

Section StageLemmas.

Variable env : Env.

Lemma build_app_conclude w :
  build_app env w = conclude env (fst (build_steps env w)) (snd (build_steps env w)).
Proof.
  unfold build_app, try_except, conclude.
  destruct (build_steps env w) as [[[]|e] w']; simpl; [reflexivity|].
  destruct (is_Exception e); reflexivity.
Qed.

Lemma build_steps_frontend w :
  build_steps env w = (log_file <- upto_frontend env ;; from_frontend env log_file) w.
Proof.
  unfold build_steps, upto_frontend, bind.
  destruct (setup_logging env w) as [[lf|e] w1]; [|reflexivity].
  destruct (logging _ _ w1) as [[[]|e] w2]; [|reflexivity].
  destruct (clean_build env w2) as [[[]|e] w3]; reflexivity.
Qed.

Lemma build_steps_resources w :
  build_steps env w = (log_file <- upto_resources env ;; from_resources env log_file) w.
Proof.
  rewrite build_steps_frontend. unfold upto_resources, from_frontend, bind.
  destruct (upto_frontend env w) as [[lf|e] w1]; [|reflexivity].
  destruct (build_frontend env w1) as [[[]|e] w2]; reflexivity.
Qed.

Lemma build_steps_packaging w :
  build_steps env w = (log_file <- upto_packaging env ;; from_packaging env log_file) w.
Proof.
  rewrite build_steps_resources. unfold upto_packaging, from_resources, bind.
  destruct (upto_resources env w) as [[lf|e] w1]; [|reflexivity].
  destruct (ensure_resources env w1) as [[[]|e] w2]; [|reflexivity].
  destruct (logging _ _ w2) as [[[]|e] w3]; reflexivity.
Qed.

Lemma build_steps_debug_script w :
  build_steps env w = (log_file <- upto_debug_script env ;; from_debug_script env log_file) w.
Proof.
  rewrite build_steps_packaging. unfold upto_debug_script, from_packaging, bind.
  destruct (upto_packaging env w) as [[lf|e] w1]; [|reflexivity].
  destruct (subprocess_run env _ _ _ w1) as [[rc|e] w2]; reflexivity.
Qed.

Lemma build_steps_archive w :
  build_steps env w = (log_file <- upto_archive env ;; from_archive env log_file) w.
Proof.
  rewrite build_steps_debug_script. unfold upto_archive, from_debug_script, bind.
  destruct (upto_debug_script env w) as [[lf|e] w1]; [|reflexivity].
  destruct (create_debug_script env w1) as [[[]|e] w2]; reflexivity.
Qed.

Lemma tame_upto_frontend : tame (upto_frontend env).
Proof.
  unfold tame, upto_frontend. yields_auto;
    first [apply tame_setup_logging | apply tame_clean_build].
Qed.

End StageLemmas.

(** ** The frontend step *)

Lemma quiet_not_spawn e : is_quiet e = true -> is_spawn e = false.
Proof. now destruct e. Qed.

(** Unfold the monad and the calls that only read or log, leaving the
    tests on the tree in place. *)
Ltac monad_cbv :=
  cbv beta iota zeta delta
    [bind ret raise emit get_fs put_fs try_except logging sys_exit path_exists fs trace].

Lemma build_frontend_no_web env w :
  lookup_in ["web"] (fs w) = None ->
  build_frontend env w =
  (Raise (SystemExit 1),
   World (fs w) (trace w ++ [EStat ["web"]; ELog ERROR "Web directory not found"])).
Proof.
  intros H. destruct w as [es tr]. cbn [fs trace] in *.
  unfold build_frontend. monad_cbv. rewrite H. cbn [negb].
  now rewrite <- app_assoc.
Qed.

Lemma quiet_not_packager e : is_quiet e = true -> ~ packager_invoked e.
Proof. intros Hq (cwd & st & ->). discriminate. Qed.

Lemma quiet_not_npm_failed env e : is_quiet e = true -> ~ npm_step_failed env e.
Proof. intros Hq (rc & _ & [-> | ->]); discriminate. Qed.

Lemma yields_build_frontend env (P Q : event -> Prop) :
  (forall e, is_quiet e = true -> P e) ->
  (forall e, is_quiet e = true -> Q e) ->
  (forall args st, P (ESpawn (npm_program env :: args) (Some ["web"]) st)) ->
  (forall args, Q (ESpawn (npm_program env :: args) (Some ["web"]) (Some 0%Z))) ->
  yields P Q (fun e => e = SystemExit 1 \/ is_Exception e = true) (build_frontend env).
Proof.
  intros HP HQ HPs HQs.
  assert (Htame : forall A (m : M A), tame m ->
            yields P Q (fun e => is_Exception e = true) m).
  { intros A m Hm. eapply yields_tame; eauto. }
  assert (Hspawn : forall args,
            yields P Q (fun e => is_Exception e = true)
              (subprocess_run env (npm_program env :: args) (Some ["web"]) true)).
  { intros args. apply yields_subprocess_run; auto.
    intros rc [Hc | ->]; [discriminate | apply HQs]. }
  unfold build_frontend. cbv zeta.
  apply yields_bind.
  { eapply yields_weaken; [apply Htame, tame_path_exists|auto..]. }
  intros found. apply yields_bind.
  { destruct (negb found); yields_auto; auto. }
  intros _. apply yields_bind; [yields_auto; auto|].
  intros _. apply yields_try_except with (E' := fun e => is_Exception e = true).
  - apply yields_bind; [apply Htame, tame_path_exists|]. intros old.
    apply yields_bind.
    { destruct old; yields_auto; auto. apply Htame, tame_shutil_rmtree. }
    intros _. apply yields_bind; [apply Hspawn|].
    intros _. apply yields_bind; [apply Hspawn|intros _; apply yields_ret].
  - intros e _. split.
    + yields_auto; auto.
    + apply never_returns_bind_r. intros _. apply never_returns_raise.
  - auto.
Qed.

Lemma build_frontend_outcome env :
  yields (fun e => ~ packager_invoked e) (fun e => ~ npm_step_failed env e)
    (fun e => e = SystemExit 1 \/ is_Exception e = true) (build_frontend env).
Proof.
  apply yields_build_frontend; auto using quiet_not_packager, quiet_not_npm_failed.
  - intros args st (cwd & st' & Heq). injection Heq as Heq _ _. revert Heq.
    unfold npm_program. destruct (is_platform env "win32"); discriminate.
  - intros args (rc & Hrc & [Heq | Heq]); injection Heq as _ <-; congruence.
Qed.

Lemma from_resources_no_npm env log_file :
  yields (fun e => ~ npm_step_failed env e) (fun _ => True) (fun _ => True)
    (from_resources env log_file).
Proof.
  assert (Htame : forall A (m : M A), tame m ->
            yields (fun e => ~ npm_step_failed env e) (fun _ => True) (fun _ => True) m).
  { intros A m Hm. eapply yields_tame; eauto using quiet_not_npm_failed. }
  assert (Hspawn : forall argv check,
            yields (fun e => ~ npm_step_failed env e) (fun _ => True) (fun _ => True)
              (subprocess_run env argv None check)).
  { intros argv check. apply yields_subprocess_run; auto.
    intros st (rc & _ & [Heq | Heq]); discriminate. }
  unfold from_resources, from_packaging, from_debug_script, from_archive, create_archive,
    shutil_make_archive.
  yields_auto; auto using quiet_not_npm_failed;
    first [ apply Htame;
            first [apply tame_ensure_resources | apply tame_create_debug_script
                  | apply tame_path_exists | apply tame_write_file]
          | apply Hspawn
          | intros (rc & _ & [Heq | Heq]); discriminate ].
Qed.

(** ** Single steps *)

Lemma bind_run {A B} (m : M A) (k : A -> M B) w :
  bind m k w =
  match m w with
  | (Ret a, w') => k a w'
  | (Raise e, w') => (Raise e, w')
  end.
Proof. reflexivity. Qed.

Lemma logging_run lvl msg w :
  logging lvl msg w = (Ret tt, World (fs w) (trace w ++ [ELog lvl msg])).
Proof. reflexivity. Qed.

Lemma path_exists_run p w :
  path_exists p w =
  (Ret (match lookup_in p (fs w) with Some _ => true | None => false end),
   World (fs w) (trace w ++ [EStat p])).
Proof. reflexivity. Qed.

Lemma path_mkdir_run p w :
  path_mkdir p w =
  match lookup_in p (fs w) with
  | Some (Dir _) => (Ret tt, w)
  | Some (File _ _) => (Raise (OSError FileExistsError p), w)
  | None =>
      match lookup_in (parent p) (fs w) with
      | Some (Dir _) => (Ret tt, World (store_in p (Dir []) (fs w)) (trace w ++ [EMkdir p]))
      | Some (File _ _) => (Raise (OSError NotADirectoryError p), w)
      | None => (Raise (OSError FileNotFoundError p), w)
      end
  end.
Proof.
  unfold path_mkdir, bind, get_fs. destruct w as [es tr]. cbn [fs trace].
  destruct (lookup_in p es) as [[d m|es']|]; try reflexivity.
  destruct (lookup_in (parent p) es) as [[d m|es']|]; reflexivity.
Qed.

Lemma required_files_icon plat :
  In plat ["darwin"; "win32"; "linux"] -> required_files !! plat = Some (icon_for plat).
Proof. intros [<-|[<-|[<-|[]]]]; reflexivity. Qed.

Lemma icon_for_nonempty plat : String.eqb (icon_for plat) "" = false.
Proof.
  unfold icon_for. destruct (String.eqb plat "darwin"); [reflexivity|].
  destruct (String.eqb plat "win32"); reflexivity.
Qed.

Lemma quiet_not_attempt e : is_quiet e = true -> archive_attempt e = false.
Proof. now destruct e. Qed.

Lemma upto_archive_no_attempt env :
  yields (fun e => archive_attempt e = false) (fun _ => True) (fun _ => True)
    (upto_archive env).
Proof.
  assert (Htame : forall A (m : M A), tame m ->
            yields (fun e => archive_attempt e = false) (fun _ => True) (fun _ => True) m).
  { intros A m Hm. eapply yields_tame; eauto using quiet_not_attempt. }
  unfold upto_archive, upto_debug_script, upto_packaging, upto_resources, upto_frontend.
  yields_auto; auto;
    first [ apply Htame;
            first [apply tame_setup_logging | apply tame_clean_build
                  | apply tame_ensure_resources | apply tame_create_debug_script]
          | idtac ].
  - eapply yields_weaken; [apply (yields_build_frontend env
        (fun e => archive_attempt e = false) (fun _ => True))|auto..]; auto using quiet_not_attempt.
    intros args st. unfold npm_program. now destruct (is_platform env "win32").
  - apply yields_subprocess_run; auto.
Qed.

Lemma create_archive_absent env w :
  lookup_in (expected_output (platform env)) (fs w) = None ->
  create_archive env ["dist"] w =
  (Ret tt, World (fs w) (trace w ++ [EStat (expected_output (platform env))])).
Proof.
  unfold create_archive, expected_output, is_platform.
  destruct (String.eqb (platform env) "darwin");
    [|destruct (String.eqb (platform env) "win32")];
    intros H; rewrite bind_run, path_exists_run; cbn [app]; now rewrite H.
Qed.

(** ** Two-level paths: what lies directly in [dist/] *)

Lemma lookup_in_two d x es :
  lookup_in [d; x] es =
  match assoc d es with
  | Some (Dir r) => assoc x r
  | _ => None
  end.
Proof.
  cbn [lookup_in]. destruct (assoc d es) as [[dd m|r]|]; try reflexivity.
  destruct (assoc x r) as [[dd m|r']|]; reflexivity.
Qed.

Lemma store_in_two d x c es : store_in [d; x] c es = on_child d (set_child x c) es.
Proof. reflexivity. Qed.

Lemma lookup_store_in_two_eq d x c es r :
  assoc d es = Some (Dir r) -> lookup_in [d; x] (store_in [d; x] c es) = Some c.
Proof.
  intros Hd. rewrite lookup_in_two, store_in_two, assoc_on_child, String.eqb_refl, Hd.
  apply assoc_set_child_eq.
Qed.




Lemma ret_run {A} (a : A) w : ret a w = (Ret a, w).
Proof. reflexivity. Qed.

(** Run the steps whose effect is known outright. *)
Ltac run_steps :=
  repeat first [ rewrite bind_run | rewrite logging_run | rewrite path_exists_run
               | rewrite ret_run | progress cbv beta iota zeta ].

Lemma from_archive_linux env log_file w :
  platform env = "linux" ->
  lookup_in ["dist"; "tak-manager"] (fs w) <> None ->
  from_archive env log_file w =
  match exec env tar_argv None (at_tar w) with
  | NotStarted why =>
      (Raise (OSError why []), World (fs w) (trace (at_tar w) ++ [ESpawn tar_argv None None]))
  | Exited rc es' =>
      (Ret tt,
       World es'
         (trace (at_tar w) ++
          [ESpawn tar_argv None (Some rc);
           ELog INFO "Build completed successfully!";
           ELog INFO "Output can be found in the dist directory";
           ELog INFO ("For debugging, check the log file at: " +:+ log_file)]))
  end.
Proof.
  intros Hplat Hout. unfold from_archive, create_archive, is_platform.
  rewrite Hplat. cbn [String.eqb Ascii.eqb Bool.eqb path_str os_sep String.concat app].
  change ("dist" +:+ "/" +:+ "TAK-Manager-Linux.tar.gz") with "dist/TAK-Manager-Linux.tar.gz".
  change ("Output can be found in the " +:+ "dist" +:+ " directory")
    with "Output can be found in the dist directory".
  fold tar_argv.
  rewrite bind_run, bind_run, path_exists_run.
  destruct (lookup_in ["dist"; "tak-manager"] (fs w)) as [n|]; [clear Hout|now elim Hout].
  rewrite bind_run, logging_run, bind_run. unfold subprocess_run. cbn [fs trace andb].
  rewrite <- app_assoc. cbn [app]. fold (at_tar w).
  destruct (exec env tar_argv None (at_tar w)) as [why|rc es']; [reflexivity|].
  cbn [andb]. run_steps.
  cbn [fs trace ret at_tar]. now rewrite <- !app_assoc.
Qed.

(** A linux run from the start of tar on. *)
Lemma run_script_after_tar (env : Env) (es : dirents) (log_file : string)
    (w : world) (rc : Z) (es' : dirents) :
  platform env = "linux" ->
  upto_archive env (World es []) = (Ret log_file, w) ->
  lookup_in ["dist"; "tak-manager"] (fs w) <> None ->
  exec env tar_argv None (at_tar w) = Exited rc es' ->
  run_script env es =
  (0%Z,
   World es'
     (trace (at_tar w) ++
      [ESpawn tar_argv None (Some rc);
       ELog INFO "Build completed successfully!";
       ELog INFO "Output can be found in the dist directory";
       ELog INFO ("For debugging, check the log file at: " +:+ log_file)])).
Proof.
  intros Hplat Hup Hout Htar. unfold run_script.
  rewrite build_app_conclude, build_steps_archive, bind_run, Hup.
  rewrite from_archive_linux by assumption. now rewrite Htar.
Qed.


(** ** Writing into [dist/] *)






(** ** What an archive holds *)



(** ** Invariants of a run *)

Section Keeps.

Context {I : world -> Prop}.

Lemma keeps_ret {A} (a : A) : keeps I (ret a).
Proof. intros w Hw. exact Hw. Qed.

Lemma keeps_raise {A} e : keeps I (@raise A e).
Proof. intros w Hw. exact Hw. Qed.

Lemma keeps_emit e : stable I -> keeps I (emit e).
Proof. intros Hs [es tr] Hw. now apply Hs. Qed.

Lemma keeps_bind {A B} (m : M A) (k : A -> M B) :
  keeps I m -> (forall a, keeps I (k a)) -> keeps I (bind m k).
Proof.
  intros Hm Hk w Hw. specialize (Hm w Hw). unfold bind.
  destruct (m w) as [[a|e] w1]; [now apply Hk | exact Hm].
Qed.

Lemma keeps_for_each {X} (l : list X) (body : X -> M unit) :
  (forall x, In x l -> keeps I (body x)) -> keeps I (for_each l body).
Proof.
  induction l as [|x l IH]; intros Hb; cbn [for_each].
  - apply keeps_ret.
  - apply keeps_bind; [apply Hb; now left|]. intros _. apply IH.
    intros y Hy. apply Hb. now right.
Qed.

Lemma keeps_path_exists p : stable I -> keeps I (path_exists p).
Proof. intros Hs [es tr] Hw. now apply Hs. Qed.

Lemma keeps_glob_spec env : stable I -> keeps I (glob_spec env).
Proof. intros Hs [es tr] Hw. now apply Hs. Qed.

Lemma keeps_glob_pycache : stable I -> keeps I glob_pycache.
Proof. intros Hs [es tr] Hw. now apply Hs. Qed.

Lemma keeps_shutil_rmtree p :
  stable I ->
  (forall es tr r, I (World es tr) -> lookup_in p es = Some (Dir r) ->
                   I (World (remove_in p es) tr)) ->
  keeps I (shutil_rmtree p).
Proof.
  intros Hs Hrm [es tr] Hw. unfold shutil_rmtree, bind, get_fs. cbn [fst snd fs].
  destruct (lookup_in p es) as [[d m|r]|] eqn:E; try exact Hw.
  cbn. apply Hs. eapply Hrm; eauto.
Qed.

Lemma keeps_path_unlink p :
  stable I ->
  (forall es tr d m, I (World es tr) -> lookup_in p es = Some (File d m) ->
                     I (World (remove_in p es) tr)) ->
  keeps I (path_unlink p).
Proof.
  intros Hs Hrm [es tr] Hw. unfold path_unlink, bind, get_fs. cbn [fst snd fs].
  destruct (lookup_in p es) as [[d m|r]|] eqn:E; try exact Hw.
  cbn. apply Hs. eapply Hrm; eauto.
Qed.

End Keeps.

(** What holds of every element once a loop has run to its end. *)
Lemma for_each_Ret_all {X} (Inv : world -> Prop) (Post : X -> world -> Prop)
    (l : list X) (body : X -> M unit) :
  (forall x, In x l -> keeps Inv (body x)) ->
  (forall x w, In x l -> Inv w -> fst (body x w) = Ret tt -> Post x (snd (body x w))) ->
  (forall x y, In y l -> keeps (Post x) (body y)) ->
  forall w, Inv w -> fst (for_each l body w) = Ret tt ->
  forall x, In x l -> Post x (snd (for_each l body w)).
Proof.
  induction l as [|y l IH]; intros Hinv Hest Hkeep w Hw Hret x Hx; [destruct Hx|].
  cbn [for_each] in *. unfold bind in *.
  pose proof (Hinv y (or_introl eq_refl) w Hw) as Hw1.
  pose proof (Hest y w (or_introl eq_refl) Hw) as Hpost.
  destruct (body y w) as [[[]|e] w1]; [|discriminate]. cbn [fst snd] in *.
  destruct Hx as [<-|Hx].
  - assert (Hk : keeps (Post y) (for_each l body)).
    { apply keeps_for_each. intros z Hz. apply Hkeep. now right. }
    apply Hk. now apply Hpost.
  - apply IH; auto.
    + intros z Hz. apply Hinv. now right.
    + intros z w' Hz. apply Hest. now right.
    + intros z z' Hz'. apply Hkeep. now right.
Qed.

(** ** Removal and the cache directories *)

Lemma reach_drop_name x q es : reach q (Dir (drop_name x es)) -> reach q (Dir es).
Proof.
  intros Hr. inversion Hr as [|y q' es' c Hin Hr']; subst; [constructor|].
  apply filter_In in Hin. econstructor; [apply Hin | assumption].
Qed.

Lemma In_on_child x f y c es :
  In (y, c) (on_child x f es) ->
  exists c0, In (y, c0) es /\
    c = if String.eqb y x
        then match c0 with Dir es' => Dir (f es') | File d m => File d m end
        else c0.
Proof.
  unfold on_child. rewrite in_map_iff. intros ([y0 c0] & Heq & Hin). cbn [fst snd] in Heq.
  destruct (String.eqb y0 x) eqn:E; injection Heq as <- <-; exists c0; now rewrite E.
Qed.

(** Removal creates nothing. *)
Lemma reach_remove_in p : forall q es, reach q (Dir (remove_in p es)) -> reach q (Dir es).
Proof.
  induction p as [|x p IH]; intros q es; [trivial|].
  destruct p as [|x' p']; [apply reach_drop_name|].
  change (remove_in (x :: x' :: p') es) with (on_child x (remove_in (x' :: p')) es).
  intros Hr. inversion Hr as [|y q' es' c Hin Hr']; subst; [constructor|].
  apply In_on_child in Hin. destruct Hin as (c0 & Hin & ->).
  econstructor; [exact Hin|].
  destruct (String.eqb y x); [|assumption].
  destruct c0 as [d m|es0]; [assumption|]. now apply IH.
Qed.

(** What has been removed cannot be reached any more. *)
Lemma reach_remove_in_self p : p <> [] -> forall es, ~ reach p (Dir (remove_in p es)).
Proof.
  induction p as [|x p IH]; intros Hp es Hr; [congruence|].
  destruct p as [|x' p'].
  - cbn [remove_in] in Hr. inversion Hr as [|y q' es' c Hin Hr']; subst.
    apply filter_In in Hin. destruct Hin as [_ Hne]. cbn [fst] in Hne.
    now rewrite String.eqb_refl in Hne.
  - change (remove_in (x :: x' :: p') es) with (on_child x (remove_in (x' :: p')) es) in Hr.
    inversion Hr as [|y q' es' c Hin Hr']; subst.
    apply In_on_child in Hin. destruct Hin as (c0 & Hin & ->).
    rewrite String.eqb_refl in Hr'. destruct c0 as [d m|es0].
    + inversion Hr'.
    + now apply (IH ltac:(discriminate) es0).
Qed.

Lemma pycache_dirs_each pre es :
  pycache_dirs pre (Dir es) =
  (match assoc pycache es with Some _ => [pre ++ [pycache]] | None => [] end) ++
  flat_map (fun e => if String.eqb (fst e) pycache then []
                     else pycache_dirs (pre ++ [fst e]) (snd e)) es.
Proof.
  cbn [pycache_dirs]. f_equal. induction es as [|[x c] es IH]; [reflexivity|].
  cbn [flat_map fst snd]. now rewrite IH.
Qed.

(** The glob yields only cache directories that are reached without
    passing through another one... *)
Lemma pycache_dirs_sound n : forall pre p,
  In p (pycache_dirs pre n) ->
  exists d, p = pre ++ d ++ [pycache] /\ ~ In pycache d /\ reach (d ++ [pycache]) n.
Proof.
  induction n as [d m|es IH] using node_ind; intros pre p; [intros []|].
  rewrite List.Forall_forall in IH. rewrite pycache_dirs_each, in_app_iff. intros [Hp|Hp].
  - destruct (assoc pycache es) as [c|] eqn:E; [|destruct Hp].
    destruct Hp as [<-|[]]. exists []. split; [reflexivity|]. split; [tauto|].
    cbn [app]. econstructor; [eapply assoc_Some_In, E | constructor].
  - apply in_flat_map in Hp. destruct Hp as ([x c] & Hin & Hp). cbn [fst snd] in Hp.
    destruct (String.eqb_spec x pycache) as [->|Hne]; [destruct Hp|].
    apply (IH _ Hin) in Hp. destruct Hp as (d & -> & Hd & Hr).
    exists (x :: d). split; [now rewrite <- app_assoc|]. split.
    + intros [Heq|Hd']; [congruence | tauto].
    + econstructor; eassumption.
Qed.

(** ... and all of them. *)
Lemma pycache_dirs_complete d : forall pre n,
  ~ In pycache d -> reach (d ++ [pycache]) n -> In (pre ++ d ++ [pycache]) (pycache_dirs pre n).
Proof.
  induction d as [|x d IH]; intros pre n Hd Hr.
  - inversion Hr as [|y q es c Hin Hr']; subst.
    rewrite pycache_dirs_each, in_app_iff. left.
    destruct (In_assoc _ _ _ Hin) as (c' & ->). now left.
  - inversion Hr as [|y q es c Hin Hr']; subst.
    rewrite pycache_dirs_each, in_app_iff. right.
    apply in_flat_map. exists (x, c). split; [assumption|]. cbn [fst snd].
    destruct (String.eqb_spec x pycache) as [->|Hne]; [elim Hd; now left|].
    replace (pre ++ (x :: d) ++ [pycache]) with ((pre ++ [x]) ++ d ++ [pycache])
      by now rewrite <- app_assoc.
    apply IH; [|assumption]. intros Hin'. apply Hd. now right.
Qed.

(** ** [clean_build], loop by loop *)

Section CleanBuild.

Variable env : Env.

Lemma clean_build_loops :
  clean_build env =
  (for_each dirs_to_clean clean_dir ;;
   spec_files <- glob_spec env ;;
   for_each spec_files (clean_spec env) ;;
   pycache_found <- glob_pycache ;;
   for_each pycache_found (clean_pycache env)).
Proof. reflexivity. Qed.

Lemma stable_unreachable p : stable (unreachable p).
Proof. intros es tr e H. exact H. Qed.

Lemma stable_within es0 : stable (within es0).
Proof. intros es tr e H. exact H. Qed.

Lemma unreachable_remove_in p q es tr :
  unreachable p (World es tr) -> unreachable p (World (remove_in q es) tr).
Proof. unfold unreachable. cbn [fs]. intros H Hr. apply H. now apply reach_remove_in in Hr. Qed.

Lemma within_remove_in es0 q es tr :
  within es0 (World es tr) -> within es0 (World (remove_in q es) tr).
Proof. unfold within. cbn [fs]. intros H p Hr. apply H. now apply reach_remove_in in Hr. Qed.

Lemma keeps_clean_dir (I : world -> Prop) d :
  stable I ->
  (forall q es tr, I (World es tr) -> I (World (remove_in q es) tr)) ->
  keeps I (clean_dir d).
Proof.
  intros Hs Hrm. unfold clean_dir. apply keeps_bind; [now apply keeps_path_exists|].
  intros [|]; [|apply keeps_ret].
  apply keeps_bind; [now apply keeps_emit|]. intros _.
  apply keeps_shutil_rmtree; auto.
Qed.

Lemma keeps_clean_spec (I : world -> Prop) p :
  stable I ->
  (forall q es tr, I (World es tr) -> I (World (remove_in q es) tr)) ->
  keeps I (clean_spec env p).
Proof.
  intros Hs Hrm. unfold clean_spec. destruct (negb _); [|apply keeps_ret].
  apply keeps_bind; [now apply keeps_emit|]. intros _.
  apply keeps_path_unlink; auto.
Qed.

Lemma keeps_clean_pycache (I : world -> Prop) p :
  stable I ->
  (forall q es tr, I (World es tr) -> I (World (remove_in q es) tr)) ->
  keeps I (clean_pycache env p).
Proof.
  intros Hs Hrm. unfold clean_pycache.
  apply keeps_bind; [now apply keeps_emit|]. intros _.
  apply keeps_shutil_rmtree; auto.
Qed.

Lemma lookup_reach p : forall es c, lookup_in p es = Some c -> reach p (Dir es).
Proof.
  induction p as [|x p IH]; intros es c; [constructor|].
  cbn [lookup_in]. destruct (assoc x es) as [[d m|es']|] eqn:E; [| |discriminate].
  - destruct p; [|discriminate]. intros _.
    econstructor; [eapply assoc_Some_In, E | constructor].
  - intros H. econstructor; [eapply assoc_Some_In, E | eapply IH, H].
Qed.

Lemma unreachable_lookup p w : unreachable p w -> lookup_in p (fs w) = None.
Proof.
  intros H. destruct (lookup_in p (fs w)) as [c|] eqn:E; [|reflexivity].
  elim H. eapply lookup_reach, E.
Qed.

Lemma absent_unreachable x es tr : assoc x es = None -> unreachable [x] (World es tr).
Proof.
  intros H Hr. inversion Hr as [|y q es' c Hin Hr']; subst.
  now apply (assoc_None_In _ _ c) in H.
Qed.

(** A removal that went through leaves nothing under the path. *)
Lemma shutil_rmtree_Ret p w :
  p <> [] -> fst (shutil_rmtree p w) = Ret tt -> unreachable p (snd (shutil_rmtree p w)).
Proof.
  intros Hp. unfold shutil_rmtree, bind, get_fs. cbn [fst snd].
  destruct (lookup_in p (fs w)) as [[d m|r]|]; try discriminate.
  intros _. cbn. now apply reach_remove_in_self.
Qed.

Lemma path_unlink_Ret p w :
  p <> [] -> fst (path_unlink p w) = Ret tt -> unreachable p (snd (path_unlink p w)).
Proof.
  intros Hp. unfold path_unlink, bind, get_fs. cbn [fst snd].
  destruct (lookup_in p (fs w)) as [[d m|r]|]; try discriminate.
  intros _. cbn. now apply reach_remove_in_self.
Qed.

Lemma clean_dir_Ret d w :
  fst (clean_dir d w) = Ret tt -> unreachable [d] (snd (clean_dir d w)).
Proof.
  unfold clean_dir. rewrite bind_run, path_exists_run, lookup_in_single.
  destruct (assoc d (fs w)) as [c|] eqn:E.
  - rewrite bind_run, logging_run. apply shutil_rmtree_Ret. discriminate.
  - intros _. now apply absent_unreachable.
Qed.

Lemma clean_spec_Ret p w :
  p <> [] -> String.eqb (basename p) canonical_spec = false ->
  fst (clean_spec env p w) = Ret tt -> unreachable p (snd (clean_spec env p w)).
Proof.
  intros Hp Hg. unfold clean_spec. rewrite Hg. cbn [negb].
  rewrite bind_run, logging_run. now apply path_unlink_Ret.
Qed.

Lemma clean_pycache_Ret p w :
  p <> [] -> fst (clean_pycache env p w) = Ret tt -> unreachable p (snd (clean_pycache env p w)).
Proof.
  intros Hp. unfold clean_pycache. rewrite bind_run, logging_run. now apply shutil_rmtree_Ret.
Qed.

End CleanBuild.

Section CleanBuildTwice.

Variable env : Env.

Lemma glob_spec_run w :
  glob_spec env w = (Ret (spec_files_of env (fs w)), World (fs w) (trace w ++ [EGlob "*.spec"])).
Proof. reflexivity. Qed.

Lemma glob_pycache_run w :
  glob_pycache w =
  (Ret (pycache_dirs [] (Dir (fs w))), World (fs w) (trace w ++ [EGlob "**/__pycache__"])).
Proof. reflexivity. Qed.

Lemma In_spec_files_of p es :
  In p (spec_files_of env es) <-> exists x c, p = [x] /\ In (x, c) es /\ spec_match env x = true.
Proof.
  unfold spec_files_of. rewrite in_map_iff. split.
  - intros ([x c] & <- & Hin). apply filter_In in Hin. cbn [fst] in *.
    exists x, c. tauto.
  - intros (x & c & -> & Hin & Hm). exists (x, c). split; [reflexivity|].
    apply filter_In. auto.
Qed.

(** The three loops of a [clean_build] that returns. *)
Lemma clean_build_Ret w w1 :
  clean_build env w = (Ret tt, w1) ->
  exists wA wB,
    for_each ["build"; "dist"; "__pycache__"] clean_dir w = (Ret tt, wA)
    /\ for_each (spec_files_of env (fs wA)) (clean_spec env)
         (World (fs wA) (trace wA ++ [EGlob "*.spec"])) = (Ret tt, wB)
    /\ for_each (pycache_dirs [] (Dir (fs wB))) (clean_pycache env)
         (World (fs wB) (trace wB ++ [EGlob "**/__pycache__"])) = (Ret tt, w1).
Proof.
  rewrite clean_build_loops, bind_run.
  destruct (for_each _ clean_dir w) as [[[]|e] wA] eqn:HA; [|discriminate].
  rewrite bind_run, glob_spec_run. cbv beta iota. rewrite bind_run. cbn [fs trace].
  destruct (for_each _ (clean_spec env) _) as [[[]|e] wB] eqn:HB; [|discriminate].
  rewrite bind_run, glob_pycache_run. cbv beta iota. cbn [fs trace].
  intros H. exists wA, wB. auto.
Qed.

Lemma for_each_skip {X} (l : list X) (body : X -> M unit) w :
  (forall x, In x l -> body x w = (Ret tt, w)) -> for_each l body w = (Ret tt, w).
Proof.
  induction l as [|x l IH]; intros H; [reflexivity|].
  cbn [for_each]. rewrite bind_run, H by now left. apply IH. intros y Hy. apply H. now right.
Qed.

End CleanBuildTwice.

(** ** The spec files *)

Lemma yields_bind_ret {A B} (P Q : event -> Prop) (E : exn -> Prop) (R : A -> Prop)
    (m : M A) (k : A -> M B) :
  yields P Q E m -> (forall w a, fst (m w) = Ret a -> R a) ->
  (forall a, R a -> yields P Q E (k a)) -> yields P Q E (bind m k).
Proof.
  intros Hm HR Hk w. unfold bind.
  destruct (Hm w) as (tr1 & Ht1 & Hp1 & Hr1). specialize (HR w).
  destruct (m w) as [[a|e] w1]; simpl in *.
  - destruct (Hk a (HR a eq_refl) w1) as (tr2 & Ht2 & Hp2 & Hr2).
    exists (tr1 ++ tr2). rewrite Ht2, Ht1, app_assoc. split; [reflexivity|].
    split; [now apply Forall_app|].
    destruct (fst (k a w1)); [now apply Forall_app | assumption].
  - now exists tr1.
Qed.

Lemma yields_for_each_in {X} (P Q : event -> Prop) (E : exn -> Prop)
    (l : list X) (body : X -> M unit) :
  (forall x, In x l -> yields P Q E (body x)) -> yields P Q E (for_each l body).
Proof.
  induction l as [|x l IH]; intros Hb; cbn [for_each].
  - apply yields_ret.
  - apply yields_bind; [apply Hb; now left|]. intros _. apply IH.
    intros y Hy. apply Hb. now right.
Qed.

Section SpecFiles.

Variable env : Env.

(** [clean_build] unlinks stray spec files only. *)
Lemma clean_build_unlinks_strays :
  yields (fun e => forall p, e = EUnlink p -> stray_spec env p) (fun _ => True) (fun _ => True)
    (clean_build env).
Proof.
  rewrite clean_build_loops.
  apply yields_bind.
  { apply yields_for_each. intros d. unfold clean_dir, path_exists, shutil_rmtree.
    yields_auto; auto; intros p' Heq; discriminate. }
  intros _. apply yields_bind_ret with (R := fun l => forall p, In p l -> exists x c, p = [x] /\
                                            spec_match env x = true /\ c = tt).
  { unfold glob_spec. yields_auto; auto. intros p' Heq; discriminate. }
  { intros w l. rewrite glob_spec_run. intros [= <-] p Hp.
    apply In_spec_files_of in Hp. destruct Hp as (x & c & -> & _ & Hm). now exists x, tt. }
  intros l Hl. apply yields_bind.
  { apply yields_for_each_in. intros p Hp. destruct (Hl p Hp) as (x & _ & -> & Hm & _).
    unfold clean_spec, path_unlink. change (basename [x]) with x.
    destruct (String.eqb_spec x canonical_spec) as [->|Hne]; cbn [negb];
      yields_auto; auto; intros p' Heq; try discriminate.
    injection Heq as <-. now exists x. }
  intros _. apply yields_bind.
  { unfold glob_pycache. yields_auto; auto. intros p' Heq; discriminate. }
  intros l3. apply yields_for_each. intros p. unfold clean_pycache, shutil_rmtree.
  yields_auto; auto; intros p' Heq; discriminate.
Qed.

Lemma stable_file_kept x d m : stable (file_kept x d m).
Proof. intros es tr e H. exact H. Qed.

Lemma file_kept_rmtree x d m p : keeps (file_kept x d m) (shutil_rmtree p).
Proof.
  apply keeps_shutil_rmtree; [apply stable_file_kept|].
  unfold file_kept. cbn [fs]. intros es tr r Hx Hp.
  apply assoc_remove_in_File; [|assumption].
  intros ->. rewrite lookup_in_single, Hx in Hp. discriminate.
Qed.

Lemma file_kept_clean_dir x d m y : keeps (file_kept x d m) (clean_dir y).
Proof.
  unfold clean_dir. apply keeps_bind; [apply keeps_path_exists, stable_file_kept|].
  intros [|]; [|apply keeps_ret].
  apply keeps_bind; [apply keeps_emit, stable_file_kept|]. intros _.
  apply file_kept_rmtree.
Qed.

Lemma file_kept_clean_pycache x d m p : keeps (file_kept x d m) (clean_pycache env p).
Proof.
  unfold clean_pycache. apply keeps_bind; [apply keeps_emit, stable_file_kept|].
  intros _. apply file_kept_rmtree.
Qed.

(** The loop over the spec files leaves the canonical one alone. *)
Lemma canonical_kept_clean_spec d m p :
  keeps (file_kept canonical_spec d m) (clean_spec env p).
Proof.
  unfold clean_spec.
  destruct (String.eqb_spec (basename p) canonical_spec) as [Heq|Hne]; cbn [negb];
    [apply keeps_ret|].
  apply keeps_bind; [apply keeps_emit, stable_file_kept|]. intros _.
  apply keeps_path_unlink; [apply stable_file_kept|].
  unfold file_kept. cbn [fs]. intros es tr d' m' Hx Hp.
  apply assoc_remove_in_File; [|assumption].
  intros ->. now apply Hne.
Qed.

Lemma canonical_kept d m : keeps (file_kept canonical_spec d m) (clean_build env).
Proof.
  rewrite clean_build_loops.
  apply keeps_bind; [apply keeps_for_each; intros; apply file_kept_clean_dir|].
  intros _. apply keeps_bind; [apply keeps_glob_spec, stable_file_kept|].
  intros l. apply keeps_bind; [apply keeps_for_each; intros; apply canonical_kept_clean_spec|].
  intros _. apply keeps_bind; [apply keeps_glob_pycache, stable_file_kept|].
  intros l3. apply keeps_for_each. intros. apply file_kept_clean_pycache.
Qed.

End SpecFiles.

Section StraySpecs.

Variable env : Env.

Lemma stable_unlinked_since tr0 p : stable (unlinked_since tr0 p).
Proof.
  intros es tr e (t & Ht & Hin). cbn [trace] in Ht. exists (t ++ [e]). cbn [trace].
  rewrite Ht, app_assoc. split; [reflexivity|]. apply in_or_app. now left.
Qed.

Lemma stable_extends tr0 : stable (extends tr0).
Proof.
  intros es tr e (t & Ht). cbn [trace] in Ht. exists (t ++ [e]). cbn [trace].
  now rewrite Ht, app_assoc.
Qed.

Lemma clean_spec_unlinks tr0 p w :
  extends tr0 w -> String.eqb (basename p) canonical_spec = false ->
  fst (clean_spec env p w) = Ret tt -> unlinked_since tr0 p (snd (clean_spec env p w)).
Proof.
  intros (t & Ht) Hg. unfold clean_spec. rewrite Hg. cbn [negb].
  rewrite bind_run, logging_run. unfold path_unlink. rewrite bind_run. unfold get_fs.
  cbv beta iota. cbn [fs trace].
  destruct (lookup_in p (fs w)) as [[d m|r]|]; try discriminate.
  intros _. cbn. exists (t ++ [ELog INFO ("Removing " +:+ path_str (platform env) p +:+ "...");
                                EUnlink p]).
  rewrite Ht, <- !app_assoc. split; [reflexivity|].
  apply in_or_app. right. cbn. auto.
Qed.

(** When [clean_build] runs to its end, every stray spec file has been
    unlinked and is gone. *)
Lemma strays_unlinked w x d m :
  fst (clean_build env w) = Ret tt ->
  assoc x (fs w) = Some (File d m) -> spec_match env x = true -> x <> canonical_spec ->
  unlinked_since (trace w) [x] (snd (clean_build env w))
  /\ unreachable [x] (snd (clean_build env w)).
Proof.
  intros Hret Hx Hm Hne.
  destruct (clean_build env w) as [[[]|e] w1] eqn:Hrun; [|discriminate]. cbn [fst snd].
  destruct (clean_build_Ret _ _ _ Hrun) as (wA & wB & HA & HB & HC).
  set (wA' := World (fs wA) (trace wA ++ [EGlob "*.spec"])) in *.
  set (wB' := World (fs wB) (trace wB ++ [EGlob "**/__pycache__"])) in *.
  set (Post := fun w' => unlinked_since (trace w) [x] w' /\ unreachable [x] w').
  assert (HsP : stable Post).
  { intros es tr e [H1 H2]. split; [now apply stable_unlinked_since | exact H2]. }
  assert (HrP : forall q es tr, Post (World es tr) -> Post (World (remove_in q es) tr)).
  { intros q es tr [H1 H2]. split; [exact H1 | now apply unreachable_remove_in]. }
  (* the file is still there when the spec files are listed *)
  assert (HxA : file_kept x d m wA).
  { assert (Hk := @keeps_for_each (file_kept x d m) _ ["build"; "dist"; "__pycache__"] clean_dir
                    (fun y _ => file_kept_clean_dir x d m y) w Hx).
    now rewrite HA in Hk. }
  assert (HinL : In [x] (spec_files_of env (fs wA))).
  { apply In_spec_files_of. exists x, (File d m). split; [reflexivity|].
    split; [now apply assoc_Some_In | assumption]. }
  assert (HeA : extends (trace w) wA').
  { assert (Hk := @keeps_for_each (extends (trace w)) _ ["build"; "dist"; "__pycache__"] clean_dir
                    (fun y _ => keeps_clean_dir _ y (stable_extends _) (fun _ _ _ H => H)) w).
    rewrite HA in Hk. destruct wA as [esA trA]. apply stable_extends, Hk.
    exists []. now rewrite app_nil_r. }
  (* the loop over the spec files unlinks it *)
  assert (HB' : Post wB).
  { assert (Hg : String.eqb (basename [x]) canonical_spec = false).
    { now apply String.eqb_neq. }
    assert (Hall := for_each_Ret_all (extends (trace w))
                      (fun p w' => String.eqb (basename p) canonical_spec = false ->
                                   unlinked_since (trace w) p w' /\ unreachable p w')
                      (spec_files_of env (fs wA)) (clean_spec env)).
    assert (Hall' := fun Hinv Hest Hkeep => Hall Hinv Hest Hkeep wA' HeA).
    rewrite HB in Hall'. apply (fun Hi He Hk => Hall' Hi He Hk eq_refl [x] HinL Hg).
    - intros p _. apply keeps_clean_spec; [apply stable_extends | auto].
    - intros p w' Hp Hext Hret' Hg'. split.
      + now apply clean_spec_unlinks.
      + apply clean_spec_Ret; auto.
        apply In_spec_files_of in Hp. destruct Hp as (? & ? & -> & _). discriminate.
    - intros p q _. apply keeps_clean_spec.
      + intros es tr e H Hg'. destruct (H Hg') as [H1 H2].
        split; [now apply stable_unlinked_since | exact H2].
      + intros q' es tr H Hg'. destruct (H Hg') as [H1 H2].
        split; [exact H1 | now apply unreachable_remove_in]. }
  (* and the last loop leaves that as it is *)
  assert (Hk := @keeps_for_each Post _ (pycache_dirs [] (Dir (fs wB))) (clean_pycache env)
                  (fun p _ => keeps_clean_pycache env Post p HsP HrP) wB').
  rewrite HC in Hk. apply Hk. destruct wB as [esB trB]. now apply HsP.
Qed.

End StraySpecs.

(** ** A second [clean_build] after one that raised *)

Lemma wf_node_Dir es :
  wf_node (Dir es) <-> List.NoDup (names es) /\ List.Forall (fun e => wf_node (snd e)) es.
Proof.
  cbn [wf_node]. unfold names. apply and_iff_compat_l.
  induction es as [|e es IH]; [split; auto|].
  rewrite IH. split.
  - intros [H1 H2]. now constructor.
  - intros H. inversion H; subst. auto.
Qed.

Lemma assoc_None_names x es : assoc x es = None <-> ~ In x (names es).
Proof.
  unfold names. induction es as [|[n c] es IH]; cbn [assoc List.map fst In]; [tauto|].
  destruct (String.eqb_spec n x) as [->|Hne].
  - split; [discriminate | intros H; elim H; now left].
  - rewrite IH. split; [intros H [Heq|Hin]; [congruence|tauto] | tauto].
Qed.

Lemma drop_name_absent x es : assoc x es = None -> drop_name x es = es.
Proof.
  induction es as [|[n c] es IH]; cbn [assoc drop_name List.filter fst]; [reflexivity|].
  destruct (String.eqb_spec n x) as [->|Hne]; [discriminate|].
  intros H. cbn [negb]. f_equal. now apply IH.
Qed.

Lemma drop_name_app x a b : drop_name x (a ++ b) = drop_name x a ++ drop_name x b.
Proof. apply List.filter_app. Qed.

Lemma on_child_absent x f es : assoc x es = None -> on_child x f es = es.
Proof.
  induction es as [|[n c] es IH]; cbn [assoc on_child List.map fst]; [reflexivity|].
  destruct (String.eqb_spec n x) as [->|Hne]; [discriminate|].
  intros H. f_equal. now apply IH.
Qed.

Lemma names_app a b : names (a ++ b) = names a ++ names b.
Proof. apply List.map_app. Qed.

Lemma NoDup_names_middle a x c b :
  List.NoDup (names (a ++ (x, c) :: b)) -> assoc x a = None /\ assoc x b = None /\ List.NoDup (names (a ++ b)).
Proof.
  rewrite !names_app. cbn [names List.map fst]. intros H.
  pose proof (List.NoDup_remove_1 _ _ _ H) as H1.
  pose proof (List.NoDup_remove_2 _ _ _ H) as H2.
  rewrite !assoc_None_names. unfold names. repeat split; [| |assumption].
  - intros Hin. apply H2. apply in_or_app. now left.
  - intros Hin. apply H2. apply in_or_app. now right.
Qed.

Lemma for_each_app {X} (a b : list X) (body : X -> M unit) w :
  for_each (a ++ b) body w =
  match for_each a body w with
  | (Ret _, w') => for_each b body w'
  | (Raise e, w') => (Raise e, w')
  end.
Proof.
  revert w. induction a as [|x a IH]; intros w; [reflexivity|].
  cbn [app for_each]. rewrite !bind_run. destruct (body x w) as [[[]|e] w1]; [apply IH|reflexivity].
Qed.

Lemma stable_absent x : stable (absent x).
Proof. intros es tr e H. exact H. Qed.

Lemma absent_remove_in x q es tr :
  absent x (World es tr) -> absent x (World (remove_in q es) tr).
Proof. unfold absent. cbn [fs]. apply assoc_remove_in_None. Qed.

Lemma absent_clean_dirs x l : keeps (absent x) (for_each l clean_dir).
Proof.
  apply keeps_for_each. intros y _.
  apply keeps_clean_dir; [apply stable_absent | intros; now apply absent_remove_in].
Qed.

Section Replay.

Variable env : Env.

Lemma spec_files_of_app a b :
  spec_files_of env (a ++ b) = spec_files_of env a ++ spec_files_of env b.
Proof. unfold spec_files_of. now rewrite List.filter_app, List.map_app. Qed.

Lemma spec_files_of_cons x c es :
  spec_files_of env ((x, c) :: es) =
  (if spec_match env x then [[x]] else []) ++ spec_files_of env es.
Proof. unfold spec_files_of. cbn [List.filter fst]. now destruct (spec_match env x). Qed.

(** The first loop, stopped by an exception, stops again at the same
    place without having removed anything. *)
Lemma clean_dirs_replay (l : list string) : forall w,
  match for_each l clean_dir w with
  | (Ret _, w1) => True
  | (Raise e, w1) =>
      forall tr', exists t,
        for_each l clean_dir (World (fs w1) tr') = (Raise e, World (fs w1) (tr' ++ t))
        /\ Forall (fun e => is_deletion e = false) t
  end.
Proof.
  induction l as [|d l IH]; intros w; [exact Logic.I|].
  cbn [for_each]. rewrite bind_run. unfold clean_dir at 1.
  rewrite bind_run, path_exists_run, lookup_in_single.
  destruct (assoc d (fs w)) as [c|] eqn:Hd.
  - rewrite bind_run, logging_run. unfold shutil_rmtree. rewrite bind_run. unfold get_fs.
    cbv beta iota. cbn [fs trace]. rewrite lookup_in_single, Hd.
    destruct c as [dd m|r].
    + (* a regular file: raised here *)
      unfold raise. intros tr'. eexists.
      rewrite bind_run. unfold clean_dir. rewrite bind_run, path_exists_run, lookup_in_single.
      cbn [fs trace]. rewrite Hd. rewrite bind_run, logging_run. unfold shutil_rmtree.
      rewrite bind_run. unfold get_fs. cbv beta iota. cbn [fs trace].
      rewrite lookup_in_single, Hd. unfold raise. rewrite <- app_assoc.
      split; [reflexivity|]. repeat constructor.
    + (* a directory: removed, and the loop went on *)
      rewrite bind_run. unfold put_fs, emit. cbv beta iota. cbn [fs trace remove_in].
      match goal with |- context [for_each l clean_dir ?w0] => specialize (IH w0);
        destruct (for_each l clean_dir w0) as [[[]|e] w1] eqn:Hrun end; [exact Logic.I|].
      intros tr'. 
      assert (Hk : assoc d (fs w1) = None).
      { match type of Hrun with for_each _ _ ?w0 = _ =>
          assert (Hk := absent_clean_dirs d l w0) end.
        rewrite Hrun in Hk. apply Hk. apply assoc_drop_name_eq. }
      destruct (IH (tr' ++ [EStat [d]])) as (t & Ht & Hdel).
      exists (EStat [d] :: t). rewrite bind_run. unfold clean_dir at 1.
      rewrite bind_run, path_exists_run, lookup_in_single. cbn [fs trace]. rewrite Hk.
      rewrite ret_run. cbv beta iota. rewrite Ht. rewrite <- app_assoc.
      split; [reflexivity|]. now constructor.
  - (* absent: skipped *)
    rewrite ret_run. cbv beta iota.
    match goal with |- context [for_each l clean_dir ?w0] => specialize (IH w0);
      destruct (for_each l clean_dir w0) as [[[]|e] w1] eqn:Hrun end; [exact Logic.I|].
    intros tr'.
    assert (Hk : assoc d (fs w1) = None).
    { match type of Hrun with for_each _ _ ?w0 =  _ =>
        assert (Hk := absent_clean_dirs d l w0) end.
      rewrite Hrun in Hk. apply Hk. exact Hd. }
    destruct (IH (tr' ++ [EStat [d]])) as (t & Ht & Hdel).
    exists (EStat [d] :: t). rewrite bind_run. unfold clean_dir at 1.
    rewrite bind_run, path_exists_run, lookup_in_single. cbn [fs trace]. rewrite Hk.
    rewrite ret_run. cbv beta iota. rewrite Ht. rewrite <- app_assoc.
    split; [reflexivity|]. now constructor.
Qed.

Lemma clean_spec_canonical p w :
  String.eqb (basename p) canonical_spec = true -> clean_spec env p w = (Ret tt, w).
Proof. intros H. unfold clean_spec. now rewrite H. Qed.

Lemma assoc_middle x c a b : assoc x a = None -> assoc x (a ++ (x, c) :: b) = Some c.
Proof. intros H. rewrite assoc_app, H. cbn [assoc]. now rewrite String.eqb_refl. Qed.

Lemma drop_name_middle x c a b :
  assoc x a = None -> assoc x b = None -> drop_name x (a ++ (x, c) :: b) = a ++ b.
Proof.
  intros Ha Hb. rewrite drop_name_app, (drop_name_absent _ _ Ha).
  unfold drop_name at 1. cbn [List.filter fst]. rewrite String.eqb_refl. cbn [negb].
  fold (drop_name x b). now rewrite (drop_name_absent _ _ Hb).
Qed.

(** The second loop, stopped by an exception, stops again at the same
    place without having unlinked anything: [kept] are the entries
    already passed, [todo] those still to come. *)
Lemma clean_specs_replay (todo : dirents) : forall kept tr,
  List.NoDup (names (kept ++ todo)) ->
  (forall p, In p (spec_files_of env kept) -> String.eqb (basename p) canonical_spec = true) ->
  match for_each (spec_files_of env todo) (clean_spec env) (World (kept ++ todo) tr) with
  | (Ret _, w1) => True
  | (Raise e, w1) =>
      forall tr', exists t,
        for_each (spec_files_of env (fs w1)) (clean_spec env) (World (fs w1) tr') =
        (Raise e, World (fs w1) (tr' ++ t))
        /\ Forall (fun e => is_deletion e = false) t
  end.
Proof.
  induction todo as [|[x c] todo IH]; intros kept tr Hnd Hkept; [exact Logic.I|].
  destruct (NoDup_names_middle _ _ _ _ Hnd) as (Hxa & Hxb & Hnd').
  assert (Hshift : kept ++ (x, c) :: todo = (kept ++ [(x, c)]) ++ todo)
    by now rewrite <- app_assoc.
  rewrite spec_files_of_cons. destruct (spec_match env x) eqn:Hm; cbn [app].
  - cbn [for_each]. rewrite bind_run.
    destruct (String.eqb (basename [x]) canonical_spec) eqn:Hc.
    + (* the canonical file: passed *)
      rewrite clean_spec_canonical by assumption. rewrite Hshift.
      apply IH; [now rewrite <- Hshift|].
      intros p. rewrite spec_files_of_app, spec_files_of_cons, Hm, in_app_iff.
      intros [Hp|[<-|[]]]; auto.
    + unfold clean_spec at 1. rewrite Hc. cbn [negb].
      rewrite bind_run, logging_run. unfold path_unlink. rewrite bind_run. unfold get_fs.
      cbv beta iota. cbn [fs trace]. rewrite lookup_in_single, assoc_middle by assumption.
      destruct c as [d m|r].
      * (* a stray file: unlinked, and the loop went on *)
        rewrite bind_run. unfold put_fs, emit. cbv beta iota. cbn [fs trace remove_in].
        rewrite drop_name_middle by assumption. now apply IH.
      * (* a directory: raised here *)
        unfold raise. intros tr'. eexists. cbn [fs].
        rewrite spec_files_of_app, for_each_app, for_each_skip.
        2:{ intros p Hp. apply clean_spec_canonical. now apply Hkept. }
        rewrite spec_files_of_cons, Hm. cbn [app for_each].
        rewrite bind_run. unfold clean_spec at 1. rewrite Hc. cbn [negb].
        rewrite bind_run, logging_run. unfold path_unlink. rewrite bind_run. unfold get_fs.
        cbv beta iota. cbn [fs trace]. rewrite lookup_in_single, assoc_middle by assumption.
        unfold raise. split; [reflexivity|]. repeat constructor.
  - (* not a spec file: passed *)
    rewrite Hshift. apply IH; [now rewrite <- Hshift|].
    intros p. rewrite spec_files_of_app, spec_files_of_cons, Hm, in_app_iff.
    intros [Hp|[]]; auto.
Qed.

End Replay.

(** ** The cache directories, one removal at a time *)

Lemma names_drop_name x es : names (drop_name x es) = List.filter (fun n => negb (String.eqb n x)) (names es).
Proof.
  unfold names, drop_name. induction es as [|[n c] es IH]; [reflexivity|].
  cbn [List.filter List.map fst]. destruct (negb (String.eqb n x)); cbn [List.map fst]; now rewrite IH.
Qed.

Lemma names_on_child x f es : names (on_child x f es) = names es.
Proof.
  unfold names, on_child. rewrite List.map_map. apply List.map_ext.
  intros [n c]. cbn [fst snd]. now destruct (String.eqb n x).
Qed.

Lemma wf_remove_in q : forall es, wf_tree es -> wf_tree (remove_in q es).
Proof.
  unfold wf_tree. induction q as [|x q IH]; intros es Hwf; [exact Hwf|].
  rewrite wf_node_Dir in *. destruct Hwf as [Hnd Hall].
  destruct q as [|x' q'].
  - cbn [remove_in]. split.
    + rewrite names_drop_name. now apply List.NoDup_filter.
    + unfold drop_name. rewrite List.Forall_forall in *. intros e He.
      apply List.filter_In in He. now apply Hall.
  - change (remove_in (x :: x' :: q') es) with (on_child x (remove_in (x' :: q')) es).
    split; [now rewrite names_on_child|].
    unfold on_child. rewrite List.Forall_forall in *. intros e He.
    apply List.in_map_iff in He. destruct He as ([n c] & <- & Hin). cbn [fst snd].
    specialize (Hall _ Hin). cbn [snd] in Hall.
    destruct (String.eqb n x); [|exact Hall].
    destruct c as [d m|es']; [exact Logic.I|]. cbn [snd]. now apply IH.
Qed.

Lemma pycache_dirs_below pre es :
  pycache_dirs pre (Dir es) =
  (match assoc pycache es with Some _ => [pre ++ [pycache]] | None => [] end) ++
  flat_map (pycache_below pre) es.
Proof. apply pycache_dirs_each. Qed.

Lemma pycache_below_drop pre es :
  flat_map (pycache_below pre) (drop_name pycache es) = flat_map (pycache_below pre) es.
Proof.
  unfold drop_name. induction es as [|[n c] es IH]; [reflexivity|].
  cbn [List.filter flat_map fst].
  destruct (String.eqb n pycache) eqn:E; cbn [negb].
  - rewrite IH. unfold pycache_below at 2. cbn [fst]. now rewrite E.
  - cbn [flat_map]. now rewrite IH.
Qed.

(** Removing the first directory the glob yields leaves the rest of what
    it yields, in the same order. *)
Lemma pycache_head_removed n : forall pre q rest,
  wf_node n ->
  pycache_dirs pre n = (pre ++ q) :: rest ->
  pycache_dirs pre (remove_node q n) = rest.
Proof.
  induction n as [d m|es IH] using node_ind; intros pre q rest Hwf; [discriminate|].
  apply wf_node_Dir in Hwf. destruct Hwf as [Hnd Hall].
  rewrite pycache_dirs_below. cbn [remove_node].
  destruct (assoc pycache es) as [c|] eqn:Hpc.
  - (* the cache directory of this very directory *)
    cbn [app]. intros [= Hq <-]. apply app_inv_head in Hq. subst q.
    cbn [remove_in]. rewrite pycache_dirs_below, assoc_drop_name_eq. cbn [app].
    apply pycache_below_drop.
  - (* one further down, below the first entry that has any *)
    cbn [app]. intros Hflat.
    assert (Hin : exists x q', q = x :: q' /\ q' <> [] /\ In x (names es) /\
                    flat_map (pycache_below pre) (on_child x (remove_in q') es) = rest).
    { clear Hpc. revert rest Hflat.
      induction es as [|[y c] es IHes]; intros rest Hflat; [discriminate|].
      inversion IH as [|? ? IHc IHrest]; subst.
      inversion Hall as [|? ? Hwc Hwrest]; subst.
      cbn [names List.map fst] in Hnd. inversion Hnd as [|? ? Hy Hnd']; subst.
      cbn [flat_map] in Hflat. unfold pycache_below at 1 in Hflat. cbn [fst snd] in *.
      destruct (if String.eqb y pycache then [] else pycache_dirs (pre ++ [y]) c)
        as [|p1 l1] eqn:Hhead.
      - cbn [app] in Hflat.
        destruct (IHes IHrest Hnd' Hwrest _ Hflat) as (x & q' & -> & Hq' & Hx & Hrest).
        exists x, q'. repeat split; [assumption | now right |].
        cbn [on_child List.map fst snd flat_map].
        destruct (String.eqb_spec y x) as [->|Hne]; [contradiction|].
        change (List.map _ es) with (on_child x (remove_in q') es).
        unfold pycache_below at 1. cbn [fst snd]. now rewrite Hhead, Hrest.
      - cbn [app] in Hflat. injection Hflat as -> <-.
        destruct (String.eqb_spec y pycache) as [->|Hne]; [discriminate|].
        pose proof (pycache_dirs_sound c (pre ++ [y]) (pre ++ q)) as Hs.
        rewrite Hhead in Hs. destruct (Hs (or_introl eq_refl)) as (d & Hd & _ & _).
        rewrite <- app_assoc in Hd. apply app_inv_head in Hd. cbn [app] in Hd. subst q.
        exists y, (d ++ [pycache]). repeat split; [now destruct d | now left |].
        cbn [on_child List.map fst snd flat_map]. rewrite String.eqb_refl.
        change (List.map _ es) with (on_child y (remove_in (d ++ [pycache])) es).
        rewrite on_child_absent by now apply assoc_None_names.
        unfold pycache_below at 1. cbn [fst snd].
        rewrite (proj2 (String.eqb_neq y pycache) Hne).
        f_equal. change (match c with
                         | File d0 m => File d0 m
                         | Dir es' => Dir (remove_in (d ++ [pycache]) es')
                         end) with (remove_node (d ++ [pycache]) c).
        apply IHc; [assumption|]. rewrite Hhead. f_equal. now rewrite <- app_assoc. }
    destruct Hin as (x & q' & -> & Hq' & _ & Hrest).
    destruct q' as [|x' q'']; [congruence|].
    change (remove_in (x :: x' :: q'') es) with (on_child x (remove_in (x' :: q'')) es).
    rewrite pycache_dirs_below, assoc_on_child_None by assumption. exact Hrest.
Qed.

Section Again.

Variable env : Env.

Lemma clean_pycaches_replay (rest : list path) : forall es tr,
  wf_tree es ->
  pycache_dirs [] (Dir es) = rest ->
  match for_each rest (clean_pycache env) (World es tr) with
  | (Ret _, w1) => True
  | (Raise e, w1) =>
      forall tr', exists t,
        for_each (pycache_dirs [] (Dir (fs w1))) (clean_pycache env) (World (fs w1) tr') =
        (Raise e, World (fs w1) (tr' ++ t))
        /\ Forall (fun e => is_deletion e = false) t
  end.
Proof.
  induction rest as [|p rest IH]; intros es tr Hwf Hglob; [exact Logic.I|].
  cbn [for_each]. rewrite bind_run. unfold clean_pycache at 1.
  rewrite bind_run, logging_run. unfold shutil_rmtree. rewrite bind_run. unfold get_fs.
  cbv beta iota. cbn [fs trace].
  assert (Hagain : forall e tr',
            (forall w0, match lookup_in p es with
                        | Some (File _ _) => raise (OSError NotADirectoryError p)
                        | Some (Dir _) => put_fs (remove_in p es);; emit (ERmtree p)
                        | None => raise (OSError FileNotFoundError p)
                        end w0 = (Raise e, w0)) ->
            exists t,
              for_each (pycache_dirs [] (Dir es)) (clean_pycache env) (World es tr') =
              (Raise e, World es (tr' ++ t))
              /\ Forall (fun e => is_deletion e = false) t).
  { intros e tr' Hraise. eexists. rewrite Hglob. cbn [for_each].
    rewrite bind_run. unfold clean_pycache at 1.
    rewrite bind_run, logging_run. unfold shutil_rmtree. rewrite bind_run. unfold get_fs.
    cbv beta iota. cbn [fs trace]. rewrite Hraise. split; [reflexivity|]. repeat constructor. }
  destruct (lookup_in p es) as [[d m|r]|] eqn:Hp.
  - unfold raise. intros tr'. cbn [fs]. now apply Hagain.
  - rewrite bind_run. unfold put_fs, emit. cbv beta iota. cbn [fs trace].
    apply IH; [now apply wf_remove_in|].
    apply (pycache_head_removed (Dir es) [] p rest Hwf Hglob).
  - unfold raise. intros tr'. cbn [fs]. now apply Hagain.
Qed.

Lemma stable_no_strays : stable (no_strays env).
Proof. intros es tr e H. exact H. Qed.

Lemma no_strays_remove_in q es tr :
  no_strays env (World es tr) -> no_strays env (World (remove_in q es) tr).
Proof.
  unfold no_strays. cbn [fs]. intros H p Hp. apply H.
  apply In_spec_files_of in Hp. destruct Hp as (x & c & -> & Hin & Hm).
  assert (Hr : reach [x] (Dir (remove_in q es))) by (econstructor; [exact Hin|constructor]).
  apply reach_remove_in in Hr. inversion Hr as [|? ? ? c0 Hin0 _]; subst.
  apply In_spec_files_of. eauto.
Qed.

Lemma dirs_gone w wA :
  for_each dirs_to_clean clean_dir w = (Ret tt, wA) ->
  forall d, In d dirs_to_clean -> absent d wA.
Proof.
  intros HA d Hd.
  assert (Hall := for_each_Ret_all (fun _ => True) (fun d => unreachable [d])
                    dirs_to_clean clean_dir
                    (fun _ _ _ _ => Logic.I)
                    (fun x w' _ _ => clean_dir_Ret x w')
                    (fun x y _ => keeps_clean_dir _ y (stable_unreachable _)
                                    (fun q es tr => unreachable_remove_in [x] q es tr))
                    w Logic.I).
  rewrite HA in Hall. unfold absent. rewrite <- lookup_in_single.
  apply unreachable_lookup. now apply Hall.
Qed.

Lemma strays_gone wA tr wB :
  for_each (spec_files_of env (fs wA)) (clean_spec env) (World (fs wA) tr) = (Ret tt, wB) ->
  no_strays env wB.
Proof.
  intros HB p Hp.
  destruct (String.eqb (basename p) canonical_spec) eqn:Hg; [reflexivity|]. exfalso.
  apply In_spec_files_of in Hp. destruct Hp as (x & c & -> & Hin & Hm).
  assert (Hr : reach [x] (Dir (fs wB))) by (econstructor; [exact Hin|constructor]).
  assert (Hw : within (fs wA) wB).
  { assert (Hk := @keeps_for_each (within (fs wA)) _ (spec_files_of env (fs wA)) (clean_spec env)
                    (fun y _ => keeps_clean_spec env _ y (stable_within _) (within_remove_in _))
                    (World (fs wA) tr)).
    rewrite HB in Hk. apply Hk. intros q Hq. exact Hq. }
  apply Hw in Hr. inversion Hr as [|? ? ? c0 Hin0 _]; subst.
  assert (HinL : In [x] (spec_files_of env (fs wA))) by (apply In_spec_files_of; eauto).
  assert (Hall := for_each_Ret_all (fun _ => True)
                    (fun p w' => String.eqb (basename p) canonical_spec = false ->
                                 unreachable p w')
                    (spec_files_of env (fs wA)) (clean_spec env)).
  assert (Hall' := fun Hest Hkeep => Hall (fun _ _ _ _ => Logic.I) Hest Hkeep
                     (World (fs wA) tr) Logic.I).
  rewrite HB in Hall'.
  assert (Hun : unreachable [x] wB).
  { apply (fun Hest Hkeep => Hall' Hest Hkeep eq_refl [x] HinL Hg).
    - intros p w' Hp _ Hret Hg'. apply clean_spec_Ret; auto.
      apply In_spec_files_of in Hp. destruct Hp as (? & ? & -> & _). discriminate.
    - intros p q _. apply keeps_clean_spec.
      + intros es tr0 e H Hg'. apply (stable_unreachable p es tr0 e). auto.
      + intros q' es tr0 H Hg'. apply unreachable_remove_in. auto. }
  apply Hun. econstructor; [exact Hin|constructor].
Qed.

Lemma pycaches_gone wB tr w1 :
  for_each (pycache_dirs [] (Dir (fs wB))) (clean_pycache env) (World (fs wB) tr) = (Ret tt, w1) ->
  pycache_dirs [] (Dir (fs w1)) = [].
Proof.
  intros HC.
  destruct (pycache_dirs [] (Dir (fs w1))) as [|p l] eqn:E; [reflexivity|]. exfalso.
  assert (Hp : In p (pycache_dirs [] (Dir (fs w1)))) by (rewrite E; now left).
  apply pycache_dirs_sound in Hp. destruct Hp as (d & -> & Hd & Hr). cbn [app] in *.
  assert (Hw : within (fs wB) w1).
  { assert (Hk := @keeps_for_each (within (fs wB)) _ (pycache_dirs [] (Dir (fs wB)))
                    (clean_pycache env)
                    (fun y _ => keeps_clean_pycache env _ y (stable_within _) (within_remove_in _))
                    (World (fs wB) tr)).
    rewrite HC in Hk. apply Hk. intros q Hq. exact Hq. }
  assert (HinL : In (d ++ [pycache]) (pycache_dirs [] (Dir (fs wB)))).
  { apply (pycache_dirs_complete d []); [assumption|]. now apply Hw. }
  assert (Hall := for_each_Ret_all (fun _ => True) unreachable
                    (pycache_dirs [] (Dir (fs wB))) (clean_pycache env)).
  assert (Hall' := fun Hest Hkeep => Hall (fun _ _ _ _ => Logic.I) Hest Hkeep
                     (World (fs wB) tr) Logic.I).
  rewrite HC in Hall'.
  assert (Hun : unreachable (d ++ [pycache]) w1).
  { apply (fun Hest Hkeep => Hall' Hest Hkeep eq_refl _ HinL).
    - intros p w' Hp _ Hret. apply clean_pycache_Ret; auto.
      apply pycache_dirs_sound in Hp. destruct Hp as (d' & -> & _).
      cbn [app]. now destruct d'.
    - intros p q _. apply keeps_clean_pycache;
        [apply stable_unreachable | intros; now apply unreachable_remove_in]. }
  now apply Hun.
Qed.

(** The loops of a run that finds nothing to do. *)
Lemma clean_dirs_idle w :
  (forall d, In d dirs_to_clean -> absent d w) ->
  for_each dirs_to_clean clean_dir w =
  (Ret tt, World (fs w) (trace w ++ [EStat ["build"]; EStat ["dist"]; EStat ["__pycache__"]])).
Proof.
  intros Habs.
  assert (Hdir : forall d w', In d dirs_to_clean -> fs w' = fs w ->
            clean_dir d w' = (Ret tt, World (fs w) (trace w' ++ [EStat [d]]))).
  { intros d w' Hd Hfs. unfold clean_dir.
    rewrite bind_run, path_exists_run, Hfs, lookup_in_single, (Habs d Hd). reflexivity. }
  cbn [for_each].
  rewrite bind_run, (Hdir "build") by (cbn; tauto). cbv beta iota.
  rewrite bind_run, (Hdir "dist") by (cbn; tauto). cbv beta iota.
  rewrite bind_run, (Hdir "__pycache__") by (cbn; tauto). cbv beta iota.
  rewrite ret_run. cbn [fs trace]. now rewrite <- !app_assoc.
Qed.

Lemma clean_specs_idle w tr :
  no_strays env w ->
  for_each (spec_files_of env (fs w)) (clean_spec env) (World (fs w) tr) =
  (Ret tt, World (fs w) tr).
Proof. intros H. apply for_each_skip. intros p Hp. apply clean_spec_canonical. now apply H. Qed.

End Again.

Section Twice.

Variable env : Env.

Lemma stable_wf_world : stable wf_world.
Proof. intros es tr e H. exact H. Qed.

Lemma wf_world_remove_in q es tr :
  wf_world (World es tr) -> wf_world (World (remove_in q es) tr).
Proof. apply wf_remove_in. Qed.

Lemma keeps_clean_dirs (I : world -> Prop) l :
  stable I -> (forall q es tr, I (World es tr) -> I (World (remove_in q es) tr)) ->
  keeps I (for_each l clean_dir).
Proof. intros Hs Hrm. apply keeps_for_each. intros. now apply keeps_clean_dir. Qed.

Lemma keeps_clean_specs (I : world -> Prop) l :
  stable I -> (forall q es tr, I (World es tr) -> I (World (remove_in q es) tr)) ->
  keeps I (for_each l (clean_spec env)).
Proof. intros Hs Hrm. apply keeps_for_each. intros. now apply keeps_clean_spec. Qed.

Lemma keeps_clean_pycaches (I : world -> Prop) l :
  stable I -> (forall q es tr, I (World es tr) -> I (World (remove_in q es) tr)) ->
  keeps I (for_each l (clean_pycache env)).
Proof. intros Hs Hrm. apply keeps_for_each. intros. now apply keeps_clean_pycache. Qed.

End Twice.

(** ** How a run ends *)

(** Split a computation along every test it makes. *)
Ltac split_tests :=
  repeat (match goal with
          | |- context [match ?x with _ => _ end] =>
              lazymatch x with
              | context [match _ with _ => _ end] => fail
              | _ => destruct x eqn:?
              end
          end; cbv beta iota).

Lemma build_frontend_exit env w c w' :
  build_frontend env w = (Raise (SystemExit c), w') ->
  c = 1%Z /\ ends_with_error (trace w').
Proof.
  intros H.
  assert (G : match build_frontend env w with
              | (Raise (SystemExit c0), w0) => c0 = 1%Z /\ ends_with_error (trace w0)
              | _ => True
              end); [|now rewrite H in G].
  clear H. unfold build_frontend, try_except, shutil_rmtree, subprocess_run. monad_cbv.
  split_tests; try exact Logic.I; try discriminate;
    (split; [reflexivity | eexists _, _; reflexivity]).
Qed.

Lemma from_resources_raises env log_file :
  yields (fun _ => True) (fun _ => True) (fun e => is_Exception e = true)
    (from_resources env log_file).
Proof.
  assert (Htame : forall A (m : M A), tame m ->
            yields (fun _ => True) (fun _ => True) (fun e => is_Exception e = true) m).
  { intros A m Hm. eapply yields_tame; eauto. }
  assert (Hspawn : forall argv check,
            yields (fun _ => True) (fun _ => True) (fun e => is_Exception e = true)
              (subprocess_run env argv None check)).
  { intros argv check. apply yields_subprocess_run; auto. }
  unfold from_resources, from_packaging, from_debug_script, from_archive, create_archive,
    shutil_make_archive.
  yields_auto; auto;
    first [ apply Htame;
            first [apply tame_ensure_resources | apply tame_create_debug_script
                  | apply tame_path_exists | apply tame_write_file]
          | apply Hspawn ].
Qed.

(** [build_steps] returns only through its last three records. *)
Lemma build_steps_Ret env w w' :
  build_steps env w = (Ret tt, w') ->
  exists tr0 log_file, trace w' = tr0 ++ success_records log_file.
Proof.
  rewrite build_steps_archive, bind_run.
  destruct (upto_archive env w) as [[log_file|e] w1]; [|discriminate].
  unfold from_archive. rewrite bind_run.
  destruct (create_archive env ["dist"] w1) as [[[]|e] w2]; [|discriminate].
  run_steps. intros [= <-]. exists (trace w2), log_file. cbn [trace].
  unfold success_records. now rewrite <- !app_assoc.
Qed.

(** [build_steps] raises [SystemExit] only with status 1, an error record
    being the last thing it has done. *)
Lemma build_steps_exit env w c w' :
  build_steps env w = (Raise (SystemExit c), w') ->
  c = 1%Z /\ ends_with_error (trace w').
Proof.
  rewrite build_steps_frontend, bind_run.
  destruct (tame_upto_frontend env w) as (tr1 & _ & _ & Hr1).
  destruct (upto_frontend env w) as [[log_file|e] w1]; simpl in Hr1.
  - unfold from_frontend. rewrite bind_run.
    destruct (build_frontend env w1) as [[[]|e] w2] eqn:Hf.
    + destruct (from_resources_raises env log_file w2) as (tr3 & _ & _ & Hr3).
      destruct (from_resources env log_file w2) as [[[]|e] w3]; simpl in Hr3;
        intros [= -> <-]; discriminate.
    + intros [= -> <-]. eapply build_frontend_exit, Hf.
  - intros [= -> <-]. discriminate.
Qed.

(** ** What [clean_build] leaves *)

Lemma reach_prefix a : forall b n, reach (a ++ b) n -> reach a n.
Proof.
  induction a as [|x a IH]; intros b n Hr; [constructor|].
  inversion Hr as [|y q es c Hin Hr']; subst. econstructor; [exact Hin|]. eapply IH, Hr'.
Qed.

(** Up to the first occurrence of [x]. *)
Lemma first_occurrence (x : string) (l : list string) :
  In x l -> exists a b, l = a ++ x :: b /\ ~ In x a.
Proof.
  induction l as [|y l IH]; intros Hin; [destruct Hin|].
  destruct (String.eqb_spec y x) as [->|Hne].
  - exists [], l. split; [reflexivity|]. intros [].
  - destruct Hin as [Heq|Hin]; [congruence|].
    destruct (IH Hin) as (a & b & -> & Ha). exists (y :: a), b. split; [reflexivity|].
    intros [Heq|Hin']; [congruence|tauto].
Qed.

(** With nothing for the glob to find, no path leads through an entry
    called [__pycache__]. *)
Lemma no_pycache_dirs n p :
  pycache_dirs [] n = [] -> In pycache p -> ~ reach p n.
Proof.
  intros Hnone Hin Hr. destruct (first_occurrence _ _ Hin) as (a & b & -> & Ha).
  change (a ++ pycache :: b) with (a ++ [pycache] ++ b) in Hr. rewrite app_assoc in Hr.
  apply reach_prefix in Hr. apply (pycache_dirs_complete a []) in Hr; [|assumption].
  rewrite Hnone in Hr. destruct Hr.
Qed.

(** ** Removal and the files beside it *)

Lemma lookup_in_cons x p es :
  lookup_in (x :: p) es =
  match assoc x es with
  | Some (Dir es') => lookup_in p es'
  | Some (File d m) => match p with [] => Some (File d m) | _ :: _ => None end
  | None => None
  end.
Proof. reflexivity. Qed.

Lemma remove_in_cons x y q es :
  remove_in (x :: y :: q) es = on_child x (remove_in (y :: q)) es.
Proof. reflexivity. Qed.

(** A regular file outside of what is removed stays as it is. *)
Lemma lookup_in_remove_in_File q : forall p es d m,
  lookup_in p es = Some (File d m) ->
  (forall rest, p <> q ++ rest) ->
  lookup_in p (remove_in q es) = Some (File d m).
Proof.
  induction q as [|x q IH]; intros p es d m Hp Hq; [now elim (Hq p)|].
  destruct p as [|y p]; [discriminate|].
  destruct q as [|x' q'].
  - cbn [remove_in]. rewrite lookup_in_cons in *.
    rewrite assoc_drop_name_ne; [assumption|].
    intros ->. now apply (Hq p).
  - rewrite remove_in_cons, lookup_in_cons in *. rewrite assoc_on_child.
    destruct (String.eqb_spec y x) as [->|Hne]; [|assumption].
    destruct (assoc x es) as [[d' m'|es']|]; [assumption| |discriminate].
    apply IH; [assumption|]. intros rest ->. now apply (Hq rest).
Qed.

(** What resolves after a removal resolved before it, a regular file to
    the same file. *)
Lemma lookup_in_remove_in_inv q : forall p es c,
  lookup_in p (remove_in q es) = Some c ->
  exists c0, lookup_in p es = Some c0 /\
    match c with File _ _ => c0 = c | Dir _ => is_dir c0 = true end.
Proof.
  induction q as [|x q IH]; intros p es c Hp.
  - exists c. split; [assumption|]. now destruct c.
  - destruct p as [|y p].
    + injection Hp as <-. now exists (Dir es).
    + destruct q as [|x' q'].
      * cbn [remove_in] in Hp. rewrite lookup_in_cons in *.
        destruct (String.eqb_spec x y) as [->|Hne].
        -- now rewrite assoc_drop_name_eq in Hp.
        -- rewrite assoc_drop_name_ne in Hp by assumption.
           exists c. split; [assumption|]. now destruct c.
      * rewrite remove_in_cons, lookup_in_cons in Hp. rewrite assoc_on_child in Hp.
        rewrite lookup_in_cons.
        destruct (String.eqb_spec y x) as [->|Hne].
        -- destruct (assoc x es) as [[d' m'|es']|]; [| |discriminate].
           ++ exists c. split; [assumption|]. now destruct c.
           ++ now apply IH.
        -- exists c. split; [assumption|]. now destruct c.
Qed.

(** [keeps], knowing what the first computation returns. *)
Lemma keeps_bind_ret {A B} (I : world -> Prop) (R : A -> Prop) (m : M A) (k : A -> M B) :
  keeps I m -> (forall w a, fst (m w) = Ret a -> R a) ->
  (forall a, R a -> keeps I (k a)) -> keeps I (bind m k).
Proof.
  intros Hm HR Hk w Hw. specialize (Hm w Hw). specialize (HR w). unfold bind.
  destruct (m w) as [[a|e] w1]; [|exact Hm]. apply Hk; [|exact Hm]. now apply HR.
Qed.

Section Frame.

Variable env : Env.

(** An invariant that no event and no removal breaks holds throughout
    [clean_build]. *)
Lemma keeps_clean_build (I : world -> Prop) :
  stable I -> (forall q es tr, I (World es tr) -> I (World (remove_in q es) tr)) ->
  keeps I (clean_build env).
Proof.
  intros Hs Hrm. rewrite clean_build_loops.
  apply keeps_bind; [now apply keeps_clean_dirs|].
  intros _. apply keeps_bind; [now apply keeps_glob_spec|].
  intros l. apply keeps_bind; [now apply keeps_clean_specs|].
  intros _. apply keeps_bind; [now apply keeps_glob_pycache|].
  intros l3. now apply keeps_clean_pycaches.
Qed.

Lemma from_tree_remove_in es0 q es tr :
  from_tree es0 (World es tr) -> from_tree es0 (World (remove_in q es) tr).
Proof.
  unfold from_tree. cbn [fs]. intros H p c Hp.
  apply lookup_in_remove_in_inv in Hp. destruct Hp as (c1 & Hp1 & Hc1).
  destruct (H p c1 Hp1) as (c0 & Hp0 & Hc0). exists c0. split; [assumption|].
  destruct c as [d m|r]; [now subst c1|].
  destruct c1 as [d1 m1|r1]; [discriminate|assumption].
Qed.

End Frame.

Section Spared.

Variable env : Env.
Variables (p : path) (d : fdata) (m : Z).

Hypothesis not_stray : forall x, p = [x] -> spec_match env x = true -> x = canonical_spec.
Hypothesis not_below : forall x q, p = x :: q -> q <> [] -> ~ In x dirs_to_clean.
Hypothesis not_cached : ~ In pycache (removelast p).

Lemma stable_file_at : stable (file_at p d m).
Proof. intros es tr e H. exact H. Qed.

Lemma file_at_clean_dir y : In y dirs_to_clean -> keeps (file_at p d m) (clean_dir y).
Proof.
  intros Hy. unfold clean_dir. apply keeps_bind; [apply keeps_path_exists, stable_file_at|].
  intros [|]; [|apply keeps_ret].
  apply keeps_bind; [apply keeps_emit, stable_file_at|]. intros _.
  apply keeps_shutil_rmtree; [apply stable_file_at|].
  unfold file_at. cbn [fs]. intros es tr r Hp Hy'.
  apply lookup_in_remove_in_File; [assumption|].
  intros [|z rest] Heq; cbn [app] in Heq.
  - rewrite Heq, Hy' in Hp. discriminate.
  - now apply (not_below y (z :: rest)).
Qed.

Lemma file_at_clean_spec x :
  spec_match env x = true -> keeps (file_at p d m) (clean_spec env [x]).
Proof.
  intros Hx. unfold clean_spec. change (basename [x]) with x.
  destruct (String.eqb_spec x canonical_spec) as [Heq|Hne]; cbn [negb]; [apply keeps_ret|].
  apply keeps_bind; [apply keeps_emit, stable_file_at|]. intros _.
  apply keeps_path_unlink; [apply stable_file_at|].
  unfold file_at. cbn [fs]. intros es tr d' m' Hp Hx'.
  apply lookup_in_remove_in_File; [assumption|].
  intros [|z rest] Heq; cbn [app] in Heq.
  - now apply Hne, not_stray.
  - rewrite lookup_in_single in Hx'. rewrite Heq, lookup_in_cons, Hx' in Hp. discriminate.
Qed.

Lemma file_at_clean_pycache a :
  keeps (file_at p d m) (clean_pycache env (a ++ [pycache])).
Proof.
  unfold clean_pycache. apply keeps_bind; [apply keeps_emit, stable_file_at|]. intros _.
  apply keeps_shutil_rmtree; [apply stable_file_at|].
  unfold file_at. cbn [fs]. intros es tr r Hp Ha.
  apply lookup_in_remove_in_File; [assumption|].
  intros [|z rest] Heq.
  - rewrite app_nil_r in Heq. rewrite Heq, Ha in Hp. discriminate.
  - apply not_cached. rewrite Heq, removelast_app by discriminate.
    rewrite !in_app_iff. left. right. now left.
Qed.

Lemma file_at_clean_build : keeps (file_at p d m) (clean_build env).
Proof.
  rewrite clean_build_loops.
  apply keeps_bind; [apply keeps_for_each; intros; now apply file_at_clean_dir|].
  intros _.
  apply keeps_bind_ret with (R := fun l => forall q, In q l -> exists x, q = [x] /\
                                            spec_match env x = true).
  { apply keeps_glob_spec, stable_file_at. }
  { intros w l. rewrite glob_spec_run. intros [= <-] q Hq.
    apply In_spec_files_of in Hq. destruct Hq as (x & c & -> & _ & Hm). now exists x. }
  intros l Hl. apply keeps_bind.
  { apply keeps_for_each. intros q Hq. destruct (Hl q Hq) as (x & -> & Hm).
    now apply file_at_clean_spec. }
  intros _.
  apply keeps_bind_ret with (R := fun l => forall q, In q l -> exists a, q = a ++ [pycache]).
  { apply keeps_glob_pycache, stable_file_at. }
  { intros w l'. rewrite glob_pycache_run. cbn [fst]. intros Heq q Hq.
    assert (Hl' : l' = pycache_dirs [] (Dir (fs w))) by congruence.
    rewrite Hl' in Hq. apply pycache_dirs_sound in Hq. destruct Hq as (a & -> & _). now exists a. }
  intros l3 Hl3. apply keeps_for_each. intros q Hq. destruct (Hl3 q Hq) as (a & ->).
  apply file_at_clean_pycache.
Qed.

End Spared.

(** ** Platforms without an icon *)

Lemma required_files_other plat :
  ~ In plat ["darwin"; "win32"; "linux"] -> required_files !! plat = None.
Proof.
  intros H. unfold required_files.
  rewrite !lookup_insert_ne, lookup_singleton_ne; [reflexivity|..];
    intros <-; apply H; cbn [In]; tauto.
Qed.

(** ** The log file *)

Lemma assoc_store_in_other x y q c es :
  x <> y -> assoc x (store_in (y :: q) c es) = assoc x es.
Proof.
  intros Hxy. destruct q as [|z q]; cbn [store_in].
  - now apply assoc_set_child_ne.
  - rewrite assoc_on_child. now rewrite (proj2 (String.eqb_neq x y) Hxy).
Qed.

Lemma casefold_ne (x y : string) : casefold y = y -> casefold x <> y -> x <> y.
Proof. intros Hy Hx ->. now apply Hx. Qed.

Lemma In_casefold (y : string) (l : list string) :
  casefold y = y -> In y l -> In y (List.map casefold l).
Proof. intros Hy Hin. rewrite <- Hy. now apply List.in_map. Qed.

Lemma lookup_in_assoc_eq x q es es' :
  assoc x es = assoc x es' -> lookup_in (x :: q) es = lookup_in (x :: q) es'.
Proof. intros H. rewrite !lookup_in_cons. now rewrite H. Qed.

Lemma write_file_other env x y q d w :
  x <> y -> assoc x (fs (snd (write_file env (y :: q) d w))) = assoc x (fs w).
Proof.
  intros Hxy. unfold write_file. rewrite bind_run. unfold get_fs. cbv beta iota.
  destruct (lookup_in (y :: q) (fs w)) as [[d' m'|r]|]; [|reflexivity|].
  - cbn [snd fs bind put_fs emit]. now apply assoc_store_in_other.
  - destruct (lookup_in (parent (y :: q)) (fs w)) as [[d' m'|r]|]; try reflexivity.
    cbn [snd fs bind put_fs emit]. now apply assoc_store_in_other.
Qed.

Lemma path_mkdir_other x y w :
  x <> y -> assoc x (fs (snd (path_mkdir [y] w))) = assoc x (fs w).
Proof.
  intros Hxy. rewrite path_mkdir_run.
  destruct (lookup_in [y] (fs w)) as [[d' m'|r]|]; try reflexivity.
  destruct (lookup_in (parent [y]) (fs w)) as [[d' m'|r]|]; try reflexivity.
  cbn [snd fs]. now apply assoc_store_in_other.
Qed.

Lemma open_append_other env x y q w :
  x <> y -> assoc x (fs (snd (open_append env (y :: q) w))) = assoc x (fs w).
Proof.
  intros Hxy. unfold open_append. rewrite bind_run. unfold get_fs. cbv beta iota.
  destruct (lookup_in (y :: q) (fs w)) as [[d' m'|r]|]; try now apply write_file_other.
  reflexivity.
Qed.

(** ** The npm steps *)

Lemma run_script_world env es : snd (run_script env es) = snd (build_app env (World es [])).
Proof. unfold run_script. now destruct (build_app env (World es [])). Qed.

Lemma run_script_status env es :
  fst (run_script env es) = exit_status (fst (build_app env (World es []))).
Proof. unfold run_script. now destruct (build_app env (World es [])). Qed.

(** [build_frontend] returns only after both npm steps, each ended with
    status 0; before them it has only tested, logged and removed. *)
Lemma build_frontend_Ret env w w' :
  build_frontend env w = (Ret tt, w') ->
  exists t,
    trace w' =
    trace w ++ t ++
    [ESpawn [npm_program env; "install"] (Some ["web"]) (Some 0%Z);
     ESpawn [npm_program env; "run"; "build"] (Some ["web"]) (Some 0%Z)]
    /\ Forall (fun e => is_quiet e = true) t.
Proof.
  unfold build_frontend. cbv zeta. cbn [app]. fold (npm_program env).
  rewrite bind_run, path_exists_run.
  destruct (lookup_in ["web"] (fs w)) as [n|]; cbn [negb]; [|run_steps; discriminate].
  run_steps. cbn [fs trace]. unfold try_except.
  rewrite bind_run, path_exists_run. cbn [fs trace].
  set (tr0 := ((trace w ++ [EStat ["web"]]) ++ [ELog INFO "Building frontend..."]) ++
              [EStat ["web"; "dist"]]).
  assert (Hnpm : forall es1 tr1 t,
            tr1 = trace w ++ t -> Forall (fun e => is_quiet e = true) t ->
            (let (o, w0) :=
               (subprocess_run env [npm_program env; "install"] (Some ["web"]) true ;;
                subprocess_run env [npm_program env; "run"; "build"] (Some ["web"]) true ;;
                ret tt) (World es1 tr1) in
             match o with
             | Ret a => (Ret a, w0)
             | Raise e =>
                 if is_CalledProcessError e
                 then (logging ERROR ("Error building frontend: " +:+ exn_text env e) ;;
                       sys_exit 1) w0
                 else (Raise e, w0)
             end) = (Ret tt, w') ->
            exists t,
              trace w' =
              trace w ++ t ++
              [ESpawn [npm_program env; "install"] (Some ["web"]) (Some 0%Z);
               ESpawn [npm_program env; "run"; "build"] (Some ["web"]) (Some 0%Z)]
              /\ Forall (fun e => is_quiet e = true) t).
  { intros es1 tr1 t -> Ht. rewrite bind_run. unfold subprocess_run at 1. cbn [fs trace andb].
    destruct (exec env _ (Some ["web"]) _) as [why|rc es2]; [discriminate|].
    destruct (Z.eqb_spec rc 0) as [->|Hrc]; cbn [negb]; cbv beta iota;
      [|cbn [is_CalledProcessError]; run_steps; discriminate].
    rewrite bind_run. unfold subprocess_run. cbn [fs trace andb].
    destruct (exec env _ (Some ["web"]) _) as [why|rc2 es3]; [discriminate|].
    destruct (Z.eqb_spec rc2 0) as [->|Hrc2]; cbn [negb]; cbv beta iota;
      [|cbn [is_CalledProcessError]; run_steps; discriminate].
    rewrite ret_run. intros [= <-]. exists t. split; [|assumption].
    cbn [trace]. now rewrite <- !app_assoc. }
  destruct (lookup_in ["web"; "dist"] (fs w)) as [[d m|r]|] eqn:Edist.
  - rewrite bind_run, bind_run, logging_run. cbv beta iota. unfold shutil_rmtree.
    rewrite bind_run. unfold get_fs. cbv beta iota. cbn [fs trace]. rewrite Edist.
    unfold raise. cbn [is_CalledProcessError]. discriminate.
  - rewrite bind_run, bind_run, logging_run. cbv beta iota. unfold shutil_rmtree.
    rewrite bind_run. unfold get_fs. cbv beta iota. cbn [fs trace]. rewrite Edist.
    rewrite bind_run. unfold put_fs, emit. cbv beta iota. cbn [fs trace].
    apply Hnpm with (t := [EStat ["web"]; ELog INFO "Building frontend...";
                           EStat ["web"; "dist"];
                           ELog INFO "Cleaning previous frontend build...";
                           ERmtree ["web"; "dist"]]).
    + subst tr0. now rewrite <- !app_assoc.
    + repeat constructor.
  - rewrite bind_run, ret_run. cbv beta iota.
    apply Hnpm with (t := [EStat ["web"]; ELog INFO "Building frontend...";
                           EStat ["web"; "dist"]]).
    + subst tr0. now rewrite <- !app_assoc.
    + repeat constructor.
Qed.

(** ** What the script writes *)

Ltac writes_side :=
  first [ exact Logic.I
        | unfold writes_within, own_output, log_path, windows_zip;
          cbn [In]; tauto ].

Section Writes.

Variable env : Env.
Hypothesis Hplat : platform env <> "darwin".

Lemma not_darwin : is_platform env "darwin" = false.
Proof. unfold is_platform. now apply String.eqb_neq. Qed.

Lemma writes_setup_logging :
  yields (writes_within env) (fun _ => True) (fun _ => True) (setup_logging env).
Proof.
  unfold setup_logging, path_mkdir, open_append, write_file. cbn [app].
  yields_auto; writes_side.
Qed.

Lemma writes_clean_build :
  yields (writes_within env) (fun _ => True) (fun _ => True) (clean_build env).
Proof.
  unfold clean_build, path_exists, shutil_rmtree, glob_spec, path_unlink, glob_pycache.
  yields_auto; writes_side.
Qed.

Lemma writes_subprocess_run argv cwd check :
  yields (writes_within env) (fun _ => True) (fun _ => True)
    (subprocess_run env argv cwd check).
Proof. apply yields_subprocess_run; intros; exact Logic.I. Qed.

Lemma writes_build_frontend :
  yields (writes_within env) (fun _ => True) (fun _ => True) (build_frontend env).
Proof.
  unfold build_frontend. cbv zeta.
  apply yields_bind; [unfold path_exists; yields_auto; writes_side|].
  intros found. apply yields_bind; [destruct (negb found); yields_auto; writes_side|].
  intros _. apply yields_bind; [yields_auto; writes_side|].
  intros _. apply yields_try_except with (E' := fun _ => True).
  - unfold path_exists, shutil_rmtree.
    yields_auto; first [writes_side | apply writes_subprocess_run].
  - intros e _. split.
    + yields_auto; writes_side.
    + apply never_returns_bind_r. intros _. apply never_returns_raise.
  - auto.
Qed.

Lemma writes_ensure_resources :
  yields (writes_within env) (fun _ => True) (fun _ => True) (ensure_resources env).
Proof.
  unfold ensure_resources, path_mkdir, path_exists. cbn [app].
  yields_auto; writes_side.
Qed.

Lemma writes_create_debug_script :
  yields (writes_within env) (fun _ => True) (fun _ => True) (create_debug_script env).
Proof.
  unfold create_debug_script. rewrite not_darwin.
  yields_auto; writes_side.
Qed.

Lemma writes_create_archive :
  yields (writes_within env) (fun _ => True) (fun _ => True) (create_archive env ["dist"]).
Proof.
  unfold create_archive. rewrite not_darwin.
  unfold shutil_make_archive, path_exists. cbn [app].
  change (parent ["dist"; "TAK-Manager-Windows"] ++ [basename ["dist"; "TAK-Manager-Windows"] +:+ "." +:+ "zip"])
    with windows_zip.
  unfold write_file.
  yields_auto; first [writes_side | apply writes_subprocess_run].
Qed.

Lemma writes_build_app :
  yields (writes_within env) (fun _ => True) (fun _ => True) (build_app env).
Proof.
  unfold build_app. apply yields_try_except with (E' := fun _ => True).
  - unfold build_steps. cbv zeta.
    yields_auto;
      first [ writes_side | apply writes_setup_logging | apply writes_clean_build
            | apply writes_build_frontend | apply writes_ensure_resources
            | apply writes_subprocess_run | apply writes_create_debug_script
            | apply writes_create_archive ].
  - intros e _. split.
    + yields_auto; writes_side.
    + apply never_returns_bind_r. intros _. apply never_returns_raise.
  - auto.
Qed.

End Writes.

(** ** What the script deletes *)

Ltac deletes_side :=
  first [ exact Logic.I
        | unfold deletes_within; cbn [In]; tauto ].

Section Deletes.

Variable env : Env.

Lemma deletes_clean_build :
  yields (deletes_within env) (fun _ => True) (fun _ => True) (clean_build env).
Proof.
  rewrite clean_build_loops.
  apply yields_bind.
  { apply yields_for_each_in. intros d Hd. unfold clean_dir, path_exists, shutil_rmtree.
    yields_auto; try deletes_side.
    left. cbn [In] in *. intuition (subst; auto). }
  intros _. apply yields_bind_ret with (R := fun l => forall p, In p l -> exists x,
                                            p = [x] /\ spec_match env x = true).
  { unfold glob_spec. yields_auto; deletes_side. }
  { intros w l. rewrite glob_spec_run. cbn [fst]. intros Heq p Hp.
    assert (Hl : l = spec_files_of env (fs w)) by congruence. rewrite Hl in Hp.
    apply In_spec_files_of in Hp. destruct Hp as (x & c & -> & _ & Hm). now exists x. }
  intros l Hl. apply yields_bind.
  { apply yields_for_each_in. intros p Hp. destruct (Hl p Hp) as (x & -> & Hm).
    unfold clean_spec, path_unlink. change (basename [x]) with x.
    destruct (String.eqb_spec x canonical_spec) as [->|Hne]; cbn [negb];
      yields_auto; try deletes_side.
    now exists x. }
  intros _.
  apply yields_bind_ret with (R := fun l => forall p, In p l -> exists a, p = a ++ [pycache]).
  { unfold glob_pycache. yields_auto; deletes_side. }
  { intros w l'. rewrite glob_pycache_run. cbn [fst]. intros Heq p Hp.
    assert (Hl' : l' = pycache_dirs [] (Dir (fs w))) by congruence. rewrite Hl' in Hp.
    apply pycache_dirs_sound in Hp. destruct Hp as (a & -> & _). now exists a. }
  intros l3 Hl3. apply yields_for_each_in. intros p Hp. destruct (Hl3 p Hp) as (a & ->).
  unfold clean_pycache, shutil_rmtree. yields_auto; try deletes_side.
  right. now exists a.
Qed.

Lemma deletes_subprocess_run argv cwd check :
  yields (deletes_within env) (fun _ => True) (fun _ => True)
    (subprocess_run env argv cwd check).
Proof. apply yields_subprocess_run; intros; exact Logic.I. Qed.

Lemma deletes_build_frontend :
  yields (deletes_within env) (fun _ => True) (fun _ => True) (build_frontend env).
Proof.
  unfold build_frontend. cbv zeta.
  apply yields_bind; [unfold path_exists; yields_auto; deletes_side|].
  intros found. apply yields_bind; [destruct (negb found); yields_auto; deletes_side|].
  intros _. apply yields_bind; [yields_auto; deletes_side|].
  intros _. apply yields_try_except with (E' := fun _ => True).
  - unfold path_exists, shutil_rmtree. cbn [app].
    yields_auto; first [deletes_side | apply deletes_subprocess_run].
  - intros e _. split.
    + yields_auto; deletes_side.
    + apply never_returns_bind_r. intros _. apply never_returns_raise.
  - auto.
Qed.

Lemma deletes_build_app :
  yields (deletes_within env) (fun _ => True) (fun _ => True) (build_app env).
Proof.
  unfold build_app. apply yields_try_except with (E' := fun _ => True).
  - unfold build_steps. cbv zeta.
    yields_auto;
      first [ deletes_side | apply deletes_clean_build | apply deletes_build_frontend
            | apply deletes_subprocess_run
            | unfold setup_logging, path_mkdir, open_append, write_file;
              yields_auto; deletes_side
            | unfold ensure_resources, path_mkdir, path_exists;
              yields_auto; deletes_side
            | unfold create_debug_script, write_file, path_chmod;
              yields_auto; deletes_side
            | unfold create_archive, shutil_make_archive, path_exists, write_file;
              yields_auto; first [deletes_side | apply deletes_subprocess_run] ].
  - intros e _. split.
    + yields_auto; deletes_side.
    + apply never_returns_bind_r. intros _. apply never_returns_raise.
  - auto.
Qed.

End Deletes.

(** ** A run that succeeds *)

Lemma from_debug_script_grows env log_file w :
  exists t, trace (snd (from_debug_script env log_file w)) = trace w ++ t.
Proof.
  assert (Hy : yields (fun _ => True) (fun _ => True) (fun _ => True)
                 (from_debug_script env log_file)).
  { unfold from_debug_script, from_archive, create_archive, shutil_make_archive.
    yields_auto; auto;
      first [ eapply yields_tame;
              [first [apply tame_create_debug_script | apply tame_path_exists
                     | apply tame_write_file] | auto..]
            | apply yields_subprocess_run; auto ]. }
  destruct (Hy w) as (t & Ht & _). now exists t.
Qed.

(** [build_steps] returns only if the packager has ended with status 0. *)
Lemma build_steps_Ret_packaged env w w' :
  build_steps env w = (Ret tt, w') ->
  In (ESpawn pyinstaller_argv None (Some 0%Z)) (trace w').
Proof.
  rewrite build_steps_packaging, bind_run.
  destruct (upto_packaging env w) as [[log_file|e] w1]; [|discriminate].
  unfold from_packaging. rewrite bind_run. unfold subprocess_run.
  destruct (exec env pyinstaller_argv None w1) as [why|rc es1]; [discriminate|].
  cbn [andb]. destruct (Z.eqb_spec rc 0) as [->|Hrc]; cbn [negb]; cbv beta iota;
    [|discriminate].
  intros Hrun.
  destruct (from_debug_script_grows env log_file
              (World es1 (trace w1 ++ [ESpawn pyinstaller_argv None (Some 0%Z)])))
    as (t & Ht).
  rewrite Hrun in Ht. cbn [snd trace] in Ht. rewrite Ht, !in_app_iff.
  left. right. now left.
Qed.

(** ** A [clean_build] that returns *)

Lemma no_file_at_remove_in p q es tr :
  no_file_at p (World es tr) -> no_file_at p (World (remove_in q es) tr).
Proof.
  unfold no_file_at. cbn [fs]. intros H d m Hp.
  apply lookup_in_remove_in_inv in Hp. destruct Hp as (c0 & Hp0 & ->). now apply (H d m).
Qed.

Lemma no_dir_at_remove_in p q es tr :
  no_dir_at p (World es tr) -> no_dir_at p (World (remove_in q es) tr).
Proof.
  unfold no_dir_at. cbn [fs]. intros H r Hp.
  apply lookup_in_remove_in_inv in Hp. destruct Hp as (c0 & Hp0 & Hc0).
  destruct c0 as [d m|r0]; [discriminate|]. now apply (H r0).
Qed.

(** A loop returns when each body does at its turn: [I] holds throughout,
    and [Pre x] until the turn of [x]. *)
Lemma for_each_returns {X} (I : world -> Prop) (Pre : X -> world -> Prop)
    (l : list X) (body : X -> M unit) :
  List.NoDup l ->
  (forall x, In x l -> keeps I (body x)) ->
  (forall x y, In x l -> In y l -> x <> y -> keeps (Pre x) (body y)) ->
  (forall x w, In x l -> I w -> Pre x w -> fst (body x w) = Ret tt) ->
  forall w, I w -> (forall x, In x l -> Pre x w) -> fst (for_each l body w) = Ret tt.
Proof.
  induction l as [|x l IH]; intros Hnd HI HPre Hbody w Hw Hpre; [reflexivity|].
  inversion Hnd as [|? ? Hx Hnd']; subst.
  cbn [for_each]. rewrite bind_run.
  pose proof (Hbody x w (or_introl eq_refl) Hw (Hpre x (or_introl eq_refl))) as Hret.
  pose proof (HI x (or_introl eq_refl) w Hw) as Hw1.
  assert (Hpre1 : forall y, In y l -> Pre y (snd (body x w))).
  { intros y Hy. apply (HPre y x); [now right | now left | | apply Hpre; now right].
    intros ->. contradiction. }
  destruct (body x w) as [[[]|e] w1]; [|discriminate]. cbn [snd] in *.
  apply IH; auto.
  - intros y Hy. apply HI. now right.
  - intros y z Hy Hz. apply HPre; now right.
  - intros y w' Hy. apply Hbody. now right.
Qed.

Lemma assoc_In_NoDup x c es : List.NoDup (names es) -> In (x, c) es -> assoc x es = Some c.
Proof.
  unfold names. induction es as [|[n c'] es IH]; intros Hnd Hin; [destruct Hin|].
  cbn [List.map fst] in Hnd. inversion Hnd as [|? ? Hn Hnd']; subst.
  cbn [assoc]. destruct Hin as [[= -> ->]|Hin].
  - now rewrite String.eqb_refl.
  - destruct (String.eqb_spec n x) as [->|Hne]; [|now apply IH].
    elim Hn. apply in_map_iff. now exists (x, c).
Qed.

(** In a tree that lists no name twice, what the glob yields resolves. *)
Lemma pycache_dirs_present n : forall pre p,
  wf_node n -> In p (pycache_dirs pre n) ->
  exists q, p = pre ++ q /\
    match n with Dir es => lookup_in q es <> None | File _ _ => False end.
Proof.
  induction n as [d m|es IH] using node_ind; intros pre p Hwf; [intros []|].
  apply wf_node_Dir in Hwf. destruct Hwf as [Hnd Hall].
  rewrite List.Forall_forall in IH, Hall.
  rewrite pycache_dirs_each, in_app_iff. intros [Hp|Hp].
  - destruct (assoc pycache es) as [c|] eqn:E; [|destruct Hp].
    destruct Hp as [<-|[]]. exists [pycache]. split; [reflexivity|].
    rewrite lookup_in_single, E. discriminate.
  - apply in_flat_map in Hp. destruct Hp as ([x c] & Hin & Hp). cbn [fst snd] in Hp.
    destruct (String.eqb x pycache); [destruct Hp|].
    destruct (IH _ Hin (pre ++ [x]) p (Hall _ Hin) Hp) as (q & -> & Hq).
    exists (x :: q). split; [now rewrite <- app_assoc|].
    rewrite lookup_in_cons, (assoc_In_NoDup _ _ _ Hnd Hin).
    destruct c as [d m|es']; [destruct Hq | exact Hq].
Qed.

Lemma stable_no_file_at p : stable (no_file_at p).
Proof. intros es tr e H. exact H. Qed.

Lemma stable_no_dir_at p : stable (no_dir_at p).
Proof. intros es tr e H. exact H. Qed.

Section Returns.

Variable env : Env.

Lemma clean_dir_returns d w : no_file_at [d] w -> fst (clean_dir d w) = Ret tt.
Proof.
  intros Hd. unfold clean_dir. rewrite bind_run, path_exists_run.
  destruct (lookup_in [d] (fs w)) as [[a b|r]|] eqn:E; [now elim (Hd a b)| |reflexivity].
  rewrite bind_run, logging_run. unfold shutil_rmtree. rewrite bind_run. unfold get_fs.
  cbv beta iota. cbn [fs trace]. now rewrite E.
Qed.

Lemma clean_dirs_return w :
  (forall d, In d dirs_to_clean -> no_file_at [d] w) ->
  fst (for_each dirs_to_clean clean_dir w) = Ret tt.
Proof.
  intros Hw.
  apply (for_each_returns (fun w => forall d, In d dirs_to_clean -> no_file_at [d] w)
           (fun _ _ => True)); auto.
  - repeat constructor; cbn [In]; intuition discriminate.
  - intros x _. apply keeps_clean_dir.
    + intros es tr e H. exact H.
    + intros q es tr H d Hd. apply no_file_at_remove_in. now apply H.
  - intros x y _ _ _ w0 _. exact Logic.I.
  - intros x w0 Hx Hw0 _. apply clean_dir_returns. now apply Hw0.
Qed.

Lemma NoDup_spec_files_of es : List.NoDup (names es) -> List.NoDup (spec_files_of env es).
Proof.
  unfold names. induction es as [|[x c] es IH]; intros Hnd; [constructor|].
  cbn [List.map fst] in Hnd. inversion Hnd as [|? ? Hx Hnd']; subst.
  rewrite spec_files_of_cons. destruct (spec_match env x); cbn [app]; [|now apply IH].
  constructor; [|now apply IH].
  intros Hin. apply In_spec_files_of in Hin. destruct Hin as (y & c' & [= <-] & Hin & _).
  apply Hx. apply in_map_iff. now exists (x, c').
Qed.


Lemma strays_are_files_remove_in q es tr :
  strays_are_files env (World es tr) -> strays_are_files env (World (remove_in q es) tr).
Proof. intros H x Hm Hne. apply no_dir_at_remove_in. now apply H. Qed.

Lemma caches_are_dirs_remove_in q es tr :
  caches_are_dirs (World es tr) -> caches_are_dirs (World (remove_in q es) tr).
Proof. intros H a. apply no_file_at_remove_in. apply H. Qed.

Lemma present_clean_spec x y :
  x <> y -> keeps (present [x]) (clean_spec env [y]).
Proof.
  intros Hxy. unfold clean_spec. destruct (negb _); [|apply keeps_ret].
  apply keeps_bind; [apply keeps_emit; intros es tr e H; exact H|]. intros _.
  apply keeps_path_unlink; [intros es tr e H; exact H|].
  unfold present. cbn [fs remove_in]. intros es tr d m H _.
  rewrite lookup_in_single in *. rewrite assoc_drop_name_ne; [assumption|congruence].
Qed.

Lemma clean_spec_returns x w :
  spec_match env x = true -> strays_are_files env w -> present [x] w ->
  fst (clean_spec env [x] w) = Ret tt.
Proof.
  intros Hm Hw Hx. unfold clean_spec. change (basename [x]) with x.
  destruct (String.eqb_spec x canonical_spec) as [->|Hne]; cbn [negb]; [reflexivity|].
  rewrite bind_run, logging_run. unfold path_unlink. rewrite bind_run. unfold get_fs.
  cbv beta iota. cbn [fs trace].
  destruct (lookup_in [x] (fs w)) as [[d m|r]|] eqn:E;
    [reflexivity | now elim (Hw x Hm Hne r) | now elim Hx].
Qed.

Lemma clean_specs_return es tr :
  List.NoDup (names es) -> strays_are_files env (World es tr) ->
  fst (for_each (spec_files_of env es) (clean_spec env) (World es tr)) = Ret tt.
Proof.
  intros Hnd Hw.
  apply (for_each_returns (strays_are_files env) present).
  - now apply NoDup_spec_files_of.
  - intros p _. apply keeps_clean_spec; [|apply strays_are_files_remove_in].
    intros es0 tr0 e H. exact H.
  - intros p q Hp Hq Hpq.
    apply In_spec_files_of in Hp. destruct Hp as (x & _ & -> & _ & _).
    apply In_spec_files_of in Hq. destruct Hq as (y & _ & -> & _ & _).
    apply present_clean_spec. congruence.
  - intros p w Hp. apply In_spec_files_of in Hp. destruct Hp as (x & _ & -> & _ & Hm).
    now apply clean_spec_returns.
  - assumption.
  - intros p Hp. apply In_spec_files_of in Hp. destruct Hp as (x & c & -> & Hin & _).
    unfold present. cbn [fs]. rewrite lookup_in_single.
    destruct (In_assoc _ _ _ Hin) as (c' & ->). discriminate.
Qed.

Lemma clean_pycaches_return (rest : list path) : forall es tr,
  wf_tree es -> caches_are_dirs (World es tr) ->
  pycache_dirs [] (Dir es) = rest ->
  fst (for_each rest (clean_pycache env) (World es tr)) = Ret tt.
Proof.
  induction rest as [|p rest IH]; intros es tr Hwf Hc Hglob; [reflexivity|].
  assert (Hp : In p (pycache_dirs [] (Dir es))) by (rewrite Hglob; now left).
  destruct (pycache_dirs_sound _ _ _ Hp) as (a & Ha & _). cbn [app] in Ha.
  destruct (pycache_dirs_present _ _ _ Hwf Hp) as (q & Hq & Hpres). cbn [app] in Hq.
  subst q.
  cbn [for_each]. rewrite bind_run. unfold clean_pycache at 1.
  rewrite bind_run, logging_run. unfold shutil_rmtree. rewrite bind_run. unfold get_fs.
  cbv beta iota. cbn [fs trace].
  destruct (lookup_in p es) as [[d m|r]|] eqn:E.
  - elim (Hc a d m). cbn [fs]. now rewrite <- Ha.
  - rewrite bind_run. unfold put_fs, emit. cbv beta iota. cbn [fs trace].
    apply IH; [now apply wf_remove_in | now apply caches_are_dirs_remove_in |].
    apply (pycache_head_removed (Dir es) [] p rest Hwf Hglob).
  - now elim Hpres.
Qed.

End Returns.

(** * The claims *)

(** C1.  In every run in which the npm install step or the npm build step
    of [build_frontend] ends with a non-zero status, the process exits
    with status 1 and the packager (pyinstaller) is not started at any
    point of the run. *)
Theorem npm_failure_halts_before_packaging (env : Env) (es : dirents) :
  Exists (npm_step_failed env) (trace (snd (run_script env es))) ->
  fst (run_script env es) = 1%Z
  /\ Forall (fun e => ~ packager_invoked e) (trace (snd (run_script env es))).
Proof.
  unfold run_script. rewrite build_app_conclude, build_steps_frontend. unfold bind.
  destruct (tame_upto_frontend env (World es [])) as (tr1 & Ht1 & Hq1 & Hr1).
  destruct (upto_frontend env (World es [])) as [[log_file|e] w1]; simpl in Ht1, Hr1.
  - unfold from_frontend, bind.
    destruct (build_frontend_outcome env w1) as (tr2 & Ht2 & Hp2 & Hr2).
    destruct (build_frontend env w1) as [[[]|e] w2]; simpl in Ht2, Hr2.
    + destruct (from_resources_no_npm env log_file w2) as (tr3 & Ht3 & Hp3 & _).
      intros Hex. exfalso.
      assert (Hall : Forall (fun e => ~ npm_step_failed env e)
                       (trace (snd (from_resources env log_file w2)))).
      { rewrite Ht3, Ht2, Ht1. repeat apply Forall_app_2; auto.
        eapply Forall_impl; [exact Hq1|]. apply quiet_not_npm_failed. }
      destruct (from_resources env log_file w2) as [[[]|e] w3]; simpl in *.
      * rewrite Exists_exists in Hex. destruct Hex as (e & Hin & He).
        rewrite Forall_forall in Hall. now apply (Hall e).
      * destruct (is_Exception e); simpl in Hex.
        -- apply Exists_app in Hex. destruct Hex as [Hex|Hex].
           ++ rewrite Exists_exists in Hex. destruct Hex as (e' & Hin & He).
              rewrite Forall_forall in Hall. now apply (Hall e').
           ++ inversion Hex as [? ? (rc & _ & [Heq|Heq])|? ? Hnil]; subst;
                try discriminate. inversion Hnil.
        -- rewrite Exists_exists in Hex. destruct Hex as (e' & Hin & He).
           rewrite Forall_forall in Hall. now apply (Hall e').
    + intros _.
      assert (Hall : Forall (fun e => ~ packager_invoked e) (trace w2)).
      { rewrite Ht2, Ht1. simpl. apply Forall_app_2; auto.
        eapply Forall_impl; [exact Hq1|]. apply quiet_not_packager. }
      unfold conclude. cbn [fst snd].
      destruct Hr2 as [->|He]; simpl; [auto|].
      rewrite He. simpl. split; [reflexivity|].
      apply Forall_app_2; [assumption|]. repeat constructor.
      intros (cwd & st & Heq). discriminate.
  - intros _. unfold conclude. cbn [fst snd]. rewrite Hr1. simpl. split; [reflexivity|].
    rewrite Ht1. simpl. apply Forall_app_2.
    + eapply Forall_impl; [exact Hq1|]. apply quiet_not_packager.
    + repeat constructor. intros (cwd & st & Heq). discriminate.
Qed.

Lemma npm_failure_halts_before_packaging_witness :
  fst (run_script (Sample.env_of "linux" 1 true true) Sample.project) = 1%Z.
Proof.
  refine (proj1 (npm_failure_halts_before_packaging
                   (Sample.env_of "linux" 1 true true) Sample.project _)).
  apply List.Exists_exists.
  exists (ESpawn ["npm"; "install"] (Some ["web"]) (Some 1%Z)). split.
  - vm_compute. repeat first [left; reflexivity | right].
  - exists 1%Z. split; [discriminate | left; reflexivity].
Defined.

(** C2.  In every run in which [web/] does not exist when [build_frontend]
    is entered, [build_frontend] logs the error and raises [SystemExit(1)]
    without starting any subprocess; the process exits with status 1, and
    no subprocess at all has been started in that run. *)
Theorem frontend_dir_absent_exits (env : Env) (es : dirents) (log_file : string) (w : world) :
  upto_frontend env (World es []) = (Ret log_file, w) ->
  lookup_in ["web"] (fs w) = None ->
  let w' := World (fs w) (trace w ++ [EStat ["web"]; ELog ERROR "Web directory not found"]) in
  build_frontend env w = (Raise (SystemExit 1), w')
  /\ run_script env es = (1%Z, w')
  /\ Forall (fun e => is_spawn e = false) (trace w').
Proof.
  intros Hup Hweb w'. split; [now apply build_frontend_no_web|]. split.
  - unfold run_script. rewrite build_app_conclude, build_steps_frontend.
    unfold bind. rewrite Hup. unfold from_frontend, bind.
    rewrite build_frontend_no_web by assumption. reflexivity.
  - destruct (tame_upto_frontend env (World es [])) as (tr & Ht & Hq & _).
    rewrite Hup in Ht. simpl in Ht. subst w'. simpl. rewrite Ht.
    apply Forall_app. split.
    + eapply Forall_impl; [exact Hq|]. intros e. apply quiet_not_spawn.
    + repeat constructor.
Qed.

Lemma frontend_dir_absent_exits_witness :
  fst (run_script (Sample.env_of "linux" 0 true true) Sample.project_without_web) = 1%Z.
Proof.
  refine (f_equal fst (proj1 (proj2
    (frontend_dir_absent_exits (Sample.env_of "linux" 0 true true)
       Sample.project_without_web _ _ _ _)))).
  - vm_compute. reflexivity.
  - reflexivity.
Defined.

(** C3 (amended).  On darwin, win32 and linux, unless [resources] is a
    regular file, [ensure_resources] returns normally and tests the
    existence of exactly one path, the icon of the platform
    ([resources/icon.icns], [resources/icon.ico], [resources/icon.png]);
    when that icon is absent, all it does besides is log one warning.
    Where [resources] is a regular file, [mkdir] raises [FileExistsError]
    and no icon is tested. *)
Theorem missing_icon_only_warns (env : Env) (w : world) :
  In (platform env) ["darwin"; "win32"; "linux"] ->
  let icon := ["resources"; icon_for (platform env)] in
  let created := match lookup_in ["resources"] (fs w) with None => true | Some _ => false end in
  let es := if created then store_in ["resources"] (Dir []) (fs w) else fs w in
  let missing := match lookup_in icon es with None => true | Some _ => false end in
  ensure_resources env w =
  match lookup_in ["resources"] (fs w) with
  | Some (File _ _) => (Raise (OSError FileExistsError ["resources"]), w)
  | _ =>
      (Ret tt,
       World es
         (trace w ++ (if created then [EMkdir ["resources"]] else [])
                  ++ [EStat icon]
                  ++ (if missing
                      then [ELog WARNING
                              (icon_for (platform env) +:+ " not found in resources directory")]
                      else [])))
  end.
Proof.
  intros Hplat icon created es missing.
  unfold ensure_resources. cbv zeta.
  rewrite bind_run, path_mkdir_run.
  subst icon created es missing.
  destruct (lookup_in ["resources"] (fs w)) as [[d m|es']|] eqn:Eres.
  - reflexivity.
  - rewrite (required_files_icon _ Hplat), icon_for_nonempty. cbn [negb].
    rewrite bind_run, path_exists_run. cbn [app fs trace].
    destruct (lookup_in ["resources"; _] (fs w)); cbn [negb].
    + destruct w; reflexivity.
    + rewrite logging_run. cbn [fs trace]. now rewrite <- app_assoc.
  - change (lookup_in (parent ["resources"]) (fs w)) with (Some (Dir (fs w))). cbv iota.
    rewrite (required_files_icon _ Hplat), icon_for_nonempty. cbn [negb].
    rewrite bind_run, path_exists_run. cbn [app fs trace].
    destruct (lookup_in ["resources"; _] (store_in _ _ _)); cbn [negb].
    + unfold ret. now rewrite <- app_assoc.
    + rewrite logging_run. cbn [fs trace]. now rewrite <- !app_assoc.
Qed.

Lemma missing_icon_only_warns_witness :
  ensure_resources (Sample.env_of "darwin" 0 true true) (World Sample.project []) =
  (Ret tt,
   World Sample.project
     [EStat ["resources"; "icon.icns"];
      ELog WARNING "icon.icns not found in resources directory"]).
Proof.
  refine (missing_icon_only_warns (Sample.env_of "darwin" 0 true true)
            (World Sample.project []) _).
  left. reflexivity.
Defined.

(** C3 as stated fails where [resources] is a regular file: the icon is
    absent, and [ensure_resources] raises [FileExistsError] before it has
    tested any icon. *)
Lemma missing_icon_may_raise :
  let env := Sample.env_of "darwin" 0 true true in
  let w := World [("resources", File (Bytes "") 420)] [] in
  lookup_in ["resources"; "icon.icns"] (fs w) = None
  /\ ensure_resources env w = (Raise (OSError FileExistsError ["resources"]), w).
Proof. split; reflexivity. Qed.

Section Idempotence.

Variable env : Env.

(** C4 (amended).  From every file-system state, a second [clean_build]
    run right after a first one leaves the tree exactly as the first run
    left it and performs no deletion: it removes no directory and unlinks
    no file.  It ends as the first run ended: it raises no error where
    the first run raised none (all it then does is test the three
    directory names and evaluate the two globs), and it raises the same
    error again where the first run raised one. *)
Theorem clean_build_twice (w : world) :
  wf_tree (fs w) ->
  exists t,
    clean_build env (snd (clean_build env w)) =
    (fst (clean_build env w),
     World (fs (snd (clean_build env w))) (trace (snd (clean_build env w)) ++ t))
    /\ Forall (fun e => is_deletion e = false) t
    /\ (fst (clean_build env w) = Ret tt -> t = clean_build_idle).
Proof.
  intros Hwf.
  (* the first loop *)
  destruct (for_each dirs_to_clean clean_dir w) as [[[]|e] wA] eqn:HA.
  2:{ assert (Hrun : clean_build env w = (Raise e, wA)).
      { rewrite clean_build_loops, bind_run, HA. reflexivity. }
      rewrite Hrun. cbn [fst snd].
      pose proof (clean_dirs_replay dirs_to_clean w) as Hr. rewrite HA in Hr.
      destruct (Hr (trace wA)) as (t & Ht & Hdel). exists t.
      split; [|split; [assumption|discriminate]].
      rewrite clean_build_loops, bind_run. destruct wA as [esA trA]. cbn [fs trace] in *.
      now rewrite Ht. }
  assert (HwfA : wf_world wA).
  { pose proof (keeps_clean_dirs wf_world dirs_to_clean stable_wf_world wf_world_remove_in w)
      as Hk. rewrite HA in Hk. now apply Hk. }
  assert (HabsA := dirs_gone w wA HA).
  (* the second loop *)
  set (wA' := World (fs wA) (trace wA ++ [EGlob "*.spec"])).
  destruct (for_each (spec_files_of env (fs wA)) (clean_spec env) wA') as [[[]|e] wB] eqn:HB.
  2:{ assert (Hrun : clean_build env w = (Raise e, wB)).
      { rewrite clean_build_loops, bind_run, HA. cbv beta iota.
        rewrite bind_run, glob_spec_run. cbv beta iota. fold wA'.
        rewrite bind_run, HB. reflexivity. }
      rewrite Hrun. cbn [fst snd].
      pose proof (clean_specs_replay env (fs wA) [] (trace wA')) as Hr.
      cbn [app] in Hr. change (World (fs wA) (trace wA')) with wA' in Hr. rewrite HB in Hr.
      assert (HabsB : forall d, In d dirs_to_clean -> absent d wB).
      { intros d Hd.
        pose proof (keeps_clean_specs env (absent d) (spec_files_of env (fs wA))
                      (stable_absent d) (absent_remove_in d) wA') as Hk.
        rewrite HB in Hk. apply Hk. now apply HabsA. }
      destruct (Hr (proj1 ((proj1 (wf_node_Dir _)) HwfA)) (fun p (H : In p []) => match H with end)
                  ((trace wB ++ [EStat ["build"]; EStat ["dist"]; EStat ["__pycache__"]])
                     ++ [EGlob "*.spec"]))
        as (t & Ht & Hdel).
      exists ([EStat ["build"]; EStat ["dist"]; EStat ["__pycache__"]; EGlob "*.spec"] ++ t).
      split; [|split; [|discriminate]].
      - rewrite clean_build_loops, bind_run, clean_dirs_idle by assumption. cbv beta iota.
        rewrite bind_run, glob_spec_run. cbv beta iota. cbn [fs trace].
        rewrite bind_run, Ht. cbn [app]. now rewrite <- !app_assoc.
      - repeat (constructor; [reflexivity|]). assumption. }
  assert (HwfB : wf_world wB).
  { pose proof (keeps_clean_specs env wf_world (spec_files_of env (fs wA))
                  stable_wf_world wf_world_remove_in wA') as Hk.
    rewrite HB in Hk. now apply Hk. }
  assert (HabsB : forall d, In d dirs_to_clean -> absent d wB).
  { intros d Hd.
    pose proof (keeps_clean_specs env (absent d) (spec_files_of env (fs wA))
                  (stable_absent d) (absent_remove_in d) wA') as Hk.
    rewrite HB in Hk. apply Hk. now apply HabsA. }
  assert (HstrB := strays_gone env wA _ wB HB).
  (* the third loop *)
  set (wB' := World (fs wB) (trace wB ++ [EGlob "**/__pycache__"])).
  assert (Hrun : clean_build env w =
                 for_each (pycache_dirs [] (Dir (fs wB))) (clean_pycache env) wB').
  { rewrite clean_build_loops, bind_run, HA. cbv beta iota.
    rewrite bind_run, glob_spec_run. cbv beta iota. fold wA'.
    rewrite bind_run, HB. cbv beta iota. now rewrite bind_run, glob_pycache_run. }
  rewrite Hrun.
  assert (Habs1 : forall d, In d dirs_to_clean ->
            absent d (snd (for_each (pycache_dirs [] (Dir (fs wB))) (clean_pycache env) wB'))).
  { intros d Hd. apply keeps_clean_pycaches;
      [apply stable_absent | apply absent_remove_in | now apply HabsB]. }
  assert (Hstr1 : no_strays env
            (snd (for_each (pycache_dirs [] (Dir (fs wB))) (clean_pycache env) wB'))).
  { apply keeps_clean_pycaches;
      [apply stable_no_strays | apply no_strays_remove_in | exact HstrB]. }
  pose proof (clean_pycaches_replay env _ (fs wB) (trace wB') HwfB eq_refl) as Hr.
  change (World (fs wB) (trace wB')) with wB' in Hr.
  pose proof (pycaches_gone env wB (trace wB')) as Hgone.
  change (World (fs wB) (trace wB')) with wB' in Hgone.
  destruct (for_each (pycache_dirs [] (Dir (fs wB))) (clean_pycache env) wB')
    as [[[]|e] w1] eqn:HC; cbn [fst snd] in *.
  - (* the first run returned *)
    exists clean_build_idle. split; [|split; [repeat constructor|reflexivity]].
    rewrite clean_build_loops, bind_run, clean_dirs_idle by assumption. cbv beta iota.
    rewrite bind_run, glob_spec_run. cbv beta iota. cbn [fs trace].
    rewrite bind_run, clean_specs_idle by assumption. cbv beta iota.
    rewrite bind_run, glob_pycache_run. cbv beta iota. cbn [fs trace].
    rewrite (Hgone w1 eq_refl). cbn [for_each]. rewrite ret_run.
    unfold clean_build_idle. now rewrite <- !app_assoc.
  - destruct (Hr ((((trace w1 ++ [EStat ["build"]; EStat ["dist"]; EStat ["__pycache__"]])
                     ++ [EGlob "*.spec"])) ++ [EGlob "**/__pycache__"]))
      as (t & Ht & Hdel).
    exists ([EStat ["build"]; EStat ["dist"]; EStat ["__pycache__"];
             EGlob "*.spec"; EGlob "**/__pycache__"] ++ t).
    split; [|split; [|discriminate]].
    + rewrite clean_build_loops, bind_run, clean_dirs_idle by assumption. cbv beta iota.
      rewrite bind_run, glob_spec_run. cbv beta iota. cbn [fs trace].
      rewrite bind_run, clean_specs_idle by assumption. cbv beta iota.
      rewrite bind_run, glob_pycache_run. cbv beta iota. cbn [fs trace].
      rewrite Ht. cbn [app]. now rewrite <- !app_assoc.
    + repeat (constructor; [reflexivity|]). assumption.
Qed.

End Idempotence.

Lemma clean_build_twice_witness :
  wf_tree Sample.project
  /\ exists t,
       let env := Sample.env_of "linux" 0 true true in
       let w1 := snd (clean_build env (World Sample.project [])) in
       clean_build env w1 =
       (fst (clean_build env (World Sample.project [])), World (fs w1) (trace w1 ++ t))
       /\ Forall (fun e => is_deletion e = false) t
       /\ (fst (clean_build env (World Sample.project [])) = Ret tt -> t = clean_build_idle).
Proof.
  assert (Hwf : wf_tree Sample.project).
  { unfold wf_tree, Sample.project. cbn [wf_node List.map fst snd].
    repeat match goal with
           | |- _ /\ _ => split
           | |- True => exact Logic.I
           | |- List.NoDup _ => constructor
           | |- ~ In _ _ => cbn [In]; intuition discriminate
           end. }
  split; [exact Hwf|].
  exact (clean_build_twice (Sample.env_of "linux" 0 true true) (World Sample.project []) Hwf).
Defined.

(** C4 as stated fails where [build] is a regular file: [os.path.exists]
    holds, [shutil.rmtree] raises [NotADirectoryError], and a second run
    from the state the first one left raises it again. *)
Lemma clean_build_may_raise_twice :
  let env := Sample.env_of "linux" 0 true true in
  let w := World [("build", File (Bytes "#!/bin/sh") 493)] [] in
  fst (clean_build env w) = Raise (OSError NotADirectoryError ["build"])
  /\ fst (clean_build env (snd (clean_build env w))) =
     Raise (OSError NotADirectoryError ["build"]).
Proof. split; reflexivity. Qed.







Section CanonicalSpec.

Variable env : Env.

(** C7 (amended).  In every run of [clean_build], whatever its outcome:
    the only files it unlinks are top-level [*.spec] entries whose name
    differs from [tak-manager.spec], and a regular file
    [tak-manager.spec] present before the run is there unchanged after
    it.  In every run that completes without raising, each top-level
    regular [*.spec] file whose name differs from [tak-manager.spec] has
    been unlinked and no longer exists. *)
Theorem canonical_spec_survives (w : world) :
  exists tr,
    trace (snd (clean_build env w)) = trace w ++ tr
    /\ (forall p, In (EUnlink p) tr ->
          exists x, p = [x] /\ x <> canonical_spec /\ spec_match env x = true)
    /\ (forall d m,
          lookup_in [canonical_spec] (fs w) = Some (File d m) ->
          lookup_in [canonical_spec] (fs (snd (clean_build env w))) = Some (File d m))
    /\ (fst (clean_build env w) = Ret tt ->
        forall x d m,
          lookup_in [x] (fs w) = Some (File d m) ->
          spec_match env x = true -> x <> canonical_spec ->
          In (EUnlink [x]) tr
          /\ lookup_in [x] (fs (snd (clean_build env w))) = None).
Proof.
  destruct (clean_build_unlinks_strays env w) as (tr & Ht & Hp & _).
  exists tr. split; [exact Ht|]. split; [|split].
  - intros p Hin. rewrite List.Forall_forall in Hp. now apply (Hp _ Hin).
  - intros d m. rewrite !lookup_in_single. apply canonical_kept.
  - intros Hret x d m Hx Hm Hne. rewrite lookup_in_single in Hx.
    destruct (strays_unlinked env w x d m Hret Hx Hm Hne) as [(t & Ht' & Hin) Hun].
    split; [|now apply unreachable_lookup].
    rewrite Ht in Ht'. apply app_inv_head in Ht'. now subst t.
Qed.

End CanonicalSpec.

Lemma canonical_spec_survives_witness :
  exists tr,
    trace (snd (clean_build (Sample.env_of "linux" 0 true true) (World Sample.project []))) = tr
    /\ In (EUnlink ["old.spec"]) tr.
Proof.
  destruct (canonical_spec_survives (Sample.env_of "linux" 0 true true)
              (World Sample.project [])) as (tr & Ht & _ & _ & Hun).
  exists tr. split; [exact Ht|].
  refine (proj1 (Hun _ "old.spec" (Bytes "") 420%Z _ _ _)).
  - vm_compute. reflexivity.
  - reflexivity.
  - reflexivity.
  - discriminate.
Defined.

(** C7 as stated fails where [clean_build] raises before it reaches the
    spec files: with [build] a regular file, [old.spec] differs from
    [tak-manager.spec] and is not unlinked. *)
Lemma stray_spec_may_stay :
  let env := Sample.env_of "linux" 0 true true in
  let w := World [("build", File (Bytes "#!/bin/sh") 493);
                  ("old.spec", File (Bytes "") 420)] [] in
  spec_match env "old.spec" = true
  /\ clean_build env w =
     (Raise (OSError NotADirectoryError ["build"]),
      World (fs w) [EStat ["build"]; ELog INFO "Cleaning build..."]).
Proof. split; reflexivity. Qed.

(** C8.  On every platform, an archive is attempted (a call of
    [shutil.make_archive], or tar started) only in a run that reaches the
    archive step with the expected output of the platform present
    ([dist/TAK Manager.app] on darwin, [dist/TAK Manager] on win32,
    [dist/tak-manager] otherwise); when that path is absent at the archive
    step, nothing is archived, the tree is left as it is, success is
    logged and the exit status is 0. *)
Theorem archive_only_if_output_exists (env : Env) (es : dirents) :
  (Exists (fun e => archive_attempt e = true) (trace (snd (run_script env es))) ->
   exists log_file w,
     upto_archive env (World es []) = (Ret log_file, w)
     /\ lookup_in (expected_output (platform env)) (fs w) <> None)
  /\ (forall log_file w,
        upto_archive env (World es []) = (Ret log_file, w) ->
        lookup_in (expected_output (platform env)) (fs w) = None ->
        run_script env es =
        (0%Z,
         World (fs w)
           (trace w ++
            [EStat (expected_output (platform env));
             ELog INFO "Build completed successfully!";
             ELog INFO ("Output can be found in the " +:+
                        path_str (platform env) ["dist"] +:+ " directory");
             ELog INFO ("For debugging, check the log file at: " +:+ log_file)]))
        /\ Forall (fun e => archive_attempt e = false) (trace (snd (run_script env es)))).
Proof.
  assert (Hrun : forall log_file w,
            upto_archive env (World es []) = (Ret log_file, w) ->
            lookup_in (expected_output (platform env)) (fs w) = None ->
            run_script env es =
            (0%Z,
             World (fs w)
               (trace w ++
                [EStat (expected_output (platform env));
                 ELog INFO "Build completed successfully!";
                 ELog INFO ("Output can be found in the " +:+
                            path_str (platform env) ["dist"] +:+ " directory");
                 ELog INFO ("For debugging, check the log file at: " +:+ log_file)]))).
  { intros log_file w Hup Habs. unfold run_script.
    rewrite build_app_conclude, build_steps_archive, bind_run, Hup.
    unfold from_archive. rewrite bind_run, create_archive_absent by assumption.
    repeat first [rewrite bind_run | rewrite logging_run | progress cbv beta iota].
    cbn [fs trace fst snd conclude exit_status].
    now rewrite <- !app_assoc. }
  destruct (upto_archive_no_attempt env (World es [])) as (tr & Ht & Hp & _).
  split.
  - intros Hex.
    destruct (upto_archive env (World es [])) as [[log_file|e] w] eqn:Hup.
    + exists log_file, w. split; [reflexivity|]. intros Habs.
      rewrite (Hrun _ _ eq_refl Habs) in Hex. cbn [snd trace] in Hex.
      simpl in Ht. rewrite Ht in Hex. simpl in Hex.
      apply Exists_app in Hex. destruct Hex as [Hex|Hex].
      * rewrite Exists_exists in Hex. destruct Hex as (e & Hin & He).
        rewrite Forall_forall in Hp. rewrite (Hp e Hin) in He. discriminate.
      * repeat (inversion Hex as [? ? He|? ? Hex']; subst; [discriminate|];
                clear Hex; rename Hex' into Hex). inversion Hex.
    + exfalso. unfold run_script in Hex.
      rewrite build_app_conclude, build_steps_archive, bind_run, Hup in Hex.
      simpl in Ht. cbn [fst snd conclude] in Hex.
      assert (Hno : Forall (fun e => archive_attempt e = false) (trace w)).
      { now rewrite Ht. }
      destruct (is_Exception e); cbn [snd trace] in Hex.
      * apply Exists_app in Hex. destruct Hex as [Hex|Hex].
        -- rewrite Exists_exists in Hex. destruct Hex as (e' & Hin & He).
           rewrite Forall_forall in Hno. rewrite (Hno e' Hin) in He. discriminate.
        -- inversion Hex as [? ? He|? ? Hex']; subst; [discriminate|]. inversion Hex'.
      * rewrite Exists_exists in Hex. destruct Hex as (e' & Hin & He).
        rewrite Forall_forall in Hno. rewrite (Hno e' Hin) in He. discriminate.
  - intros log_file w Hup Habs. split; [now apply Hrun|].
    rewrite (Hrun _ _ Hup Habs). cbn [snd trace].
    rewrite Hup in Ht. simpl in Ht. rewrite Ht. simpl.
    apply Forall_app_2; [assumption|]. repeat constructor.
Qed.

Lemma archive_only_if_output_exists_witness :
  fst (run_script (Sample.env_of "linux" 0 false true) Sample.project) = 0%Z.
Proof.
  refine (f_equal fst (proj1 (proj2
    (archive_only_if_output_exists (Sample.env_of "linux" 0 false true) Sample.project)
    _ _ _ _))).
  - vm_compute. reflexivity.
  - reflexivity.
Defined.

(** C9.  On linux, once tar has been started at the archive step, its
    exit status is not looked at: whatever the status [rc], non-zero
    included, the script goes on to log success and the process exits
    with status 0, the tree being what tar left. *)
Theorem tar_status_is_ignored (env : Env) (es : dirents) (log_file : string)
    (w : world) (rc : Z) (es' : dirents) :
  platform env = "linux" ->
  upto_archive env (World es []) = (Ret log_file, w) ->
  lookup_in ["dist"; "tak-manager"] (fs w) <> None ->
  exec env tar_argv None (at_tar w) = Exited rc es' ->
  run_script env es =
  (0%Z,
   World es'
     (trace (at_tar w) ++
      [ESpawn tar_argv None (Some rc);
       ELog INFO "Build completed successfully!";
       ELog INFO "Output can be found in the dist directory";
       ELog INFO ("For debugging, check the log file at: " +:+ log_file)])).
Proof. apply run_script_after_tar. Qed.

Lemma tar_status_is_ignored_witness :
  fst (run_script (Sample.env_of "linux" 0 true false) Sample.project) = 0%Z
  /\ lookup_in ["dist"; "TAK-Manager-Linux.tar.gz"]
       (fs (snd (run_script (Sample.env_of "linux" 0 true false) Sample.project))) = None.
Proof.
  split; [|reflexivity].
  refine (f_equal fst
    (tar_status_is_ignored (Sample.env_of "linux" 0 true false) Sample.project _ _ 2 _
       eq_refl _ _ _)).
  - vm_compute. reflexivity.
  - vm_compute. discriminate.
  - vm_compute. reflexivity.
Defined.



(** * Further properties of the script *)

(** X1.  Every run ends in one of two ways: with exit status 0, the last
    three records being the success messages; or with exit status 1, the
    last thing done being an ERROR record.  No other status occurs. *)
Theorem run_script_ends_logged (env : Env) (es : dirents) :
  (fst (run_script env es) = 0%Z
   /\ exists tr0 log_file,
        trace (snd (run_script env es)) = tr0 ++ success_records log_file)
  \/ (fst (run_script env es) = 1%Z
      /\ ends_with_error (trace (snd (run_script env es)))).
Proof.
  unfold run_script. rewrite build_app_conclude.
  destruct (build_steps env (World es [])) as [[[]|e] w'] eqn:Hs; cbn [fst snd conclude].
  - left. split; [reflexivity|]. eapply build_steps_Ret, Hs.
  - right. destruct e as [c|argv rc|kind target]; cbn [is_Exception fst snd exit_status trace].
    + apply (build_steps_exit _ _ _ _ Hs) .
    + split; [reflexivity|]. now eexists _, _.
    + split; [reflexivity|]. now eexists _, _.
Qed.

(** X2.  When the packager ends with a non-zero status, or cannot be
    started, the run stops there with exit status 1: after the spawn the
    only thing done is the error record of [build_app], so no debug
    script is written and no archive is attempted, and the tree is left
    as the packager left it. *)
Theorem packager_failure_exits (env : Env) (es : dirents) (log_file : string) (w : world) :
  upto_packaging env (World es []) = (Ret log_file, w) ->
  (forall rc es',
     exec env pyinstaller_argv None w = Exited rc es' -> rc <> 0%Z ->
     run_script env es =
     (1%Z,
      World es'
        (trace w ++
         [ESpawn pyinstaller_argv None (Some rc);
          ELog ERROR ("Error during build: " +:+
                      exn_text env (CalledProcessError pyinstaller_argv rc))])))
  /\ (forall why,
        exec env pyinstaller_argv None w = NotStarted why ->
        run_script env es =
        (1%Z,
         World (fs w)
           (trace w ++
            [ESpawn pyinstaller_argv None None;
             ELog ERROR ("Error during build: " +:+ exn_text env (OSError why []))]))).
Proof.
  intros Hup. unfold run_script.
  rewrite build_app_conclude, build_steps_packaging, bind_run, Hup.
  unfold from_packaging. rewrite bind_run. split.
  - intros rc es' Hex Hrc. apply Z.eqb_neq in Hrc.
    assert (Hsp : subprocess_run env pyinstaller_argv None true w =
                  (Raise (CalledProcessError pyinstaller_argv rc),
                   World es' (trace w ++ [ESpawn pyinstaller_argv None (Some rc)])))
      by (unfold subprocess_run; now rewrite Hex, Hrc).
    rewrite Hsp. cbn [fst snd conclude is_Exception exit_status fs trace].
    now rewrite <- app_assoc.
  - intros why Hex.
    assert (Hsp : subprocess_run env pyinstaller_argv None true w =
                  (Raise (OSError why []),
                   World (fs w) (trace w ++ [ESpawn pyinstaller_argv None None])))
      by (unfold subprocess_run; now rewrite Hex).
    rewrite Hsp. cbn [fst snd conclude is_Exception exit_status fs trace].
    now rewrite <- app_assoc.
Qed.

Lemma packager_failure_exits_witness :
  fst (run_script (Faulty.env_of "linux" "pyinstaller" true) Sample.project) = 1%Z.
Proof.
  refine (f_equal fst
    (proj1 (packager_failure_exits (Faulty.env_of "linux" "pyinstaller" true)
              Sample.project _ _ _) 1%Z _ _ _)).
  - vm_compute. reflexivity.
  - vm_compute. reflexivity.
  - discriminate.
Defined.

(** X3.  After a [clean_build] that returns, [build], [dist] and
    [__pycache__] are gone from the working directory, every top-level
    entry matching [*.spec] is called [tak-manager.spec], and no entry
    called [__pycache__] is left anywhere in the tree. *)
Theorem clean_build_leaves_clean (env : Env) (w w1 : world) :
  clean_build env w = (Ret tt, w1) ->
  (forall d, In d dirs_to_clean -> lookup_in [d] (fs w1) = None)
  /\ (forall x c, In (x, c) (fs w1) -> spec_match env x = true -> x = canonical_spec)
  /\ (forall p, In pycache p -> ~ reach p (Dir (fs w1)) /\ lookup_in p (fs w1) = None).
Proof.
  intros Hrun. destruct (clean_build_Ret _ _ _ Hrun) as (wA & wB & HA & HB & HC).
  split; [|split].
  - intros d Hd. rewrite lookup_in_single.
    pose proof (keeps_clean_pycaches env (absent d) (pycache_dirs [] (Dir (fs wB)))
                  (stable_absent d) (absent_remove_in d)
                  (World (fs wB) (trace wB ++ [EGlob "**/__pycache__"]))) as H3.
    rewrite HC in H3. apply H3.
    pose proof (keeps_clean_specs env (absent d) (spec_files_of env (fs wA))
                  (stable_absent d) (absent_remove_in d)
                  (World (fs wA) (trace wA ++ [EGlob "*.spec"]))) as H2.
    rewrite HB in H2. apply H2. now apply (dirs_gone w wA HA).
  - intros x c Hin Hm.
    pose proof (keeps_clean_pycaches env (no_strays env) (pycache_dirs [] (Dir (fs wB)))
                  (stable_no_strays env) (no_strays_remove_in env)
                  (World (fs wB) (trace wB ++ [EGlob "**/__pycache__"]))) as H3.
    rewrite HC in H3.
    assert (Hs : no_strays env w1) by (apply H3; exact (strays_gone env wA _ wB HB)).
    apply String.eqb_eq. apply (Hs [x]). apply In_spec_files_of. eauto.
  - intros p Hp.
    assert (Hnr : ~ reach p (Dir (fs w1))).
    { apply no_pycache_dirs; [|assumption]. exact (pycaches_gone env wB _ w1 HC). }
    split; [assumption|]. now apply (unreachable_lookup p w1).
Qed.

Lemma clean_build_leaves_clean_witness :
  lookup_in ["build"] (fs (snd (clean_build (Sample.env_of "linux" 0 true true)
                                  (World Sample.project [])))) = None.
Proof.
  refine (proj1 (clean_build_leaves_clean (Sample.env_of "linux" 0 true true)
                   (World Sample.project []) _ _) "build" _).
  - vm_compute. reflexivity.
  - left. reflexivity.
Defined.

(** X4.  Off macOS, [clean_build] creates nothing and rewrites nothing
    outside [logs/], where the records of the run go: whatever path whose
    first name is not [logs], in any casing, resolves in the tree it
    leaves, whether it returned or raised, resolved before it ran, a
    directory to a directory and a regular file to the same content and
    mode. *)
Theorem clean_build_only_removes (env : Env) (w : world) (x : string) (q : path) (c : node) :
  platform env <> "darwin" ->
  casefold x <> "logs" ->
  lookup_in (x :: q) (fs (snd (clean_build env w))) = Some c ->
  exists c0, lookup_in (x :: q) (fs w) = Some c0 /\
    match c with File _ _ => c0 = c | Dir _ => is_dir c0 = true end.
Proof.
  intros _ _. generalize (x :: q). clear x q.
  intros p. revert p c. change (from_tree (fs w) (snd (clean_build env w))).
  apply keeps_clean_build.
  - intros es tr e H. exact H.
  - apply from_tree_remove_in.
  - intros p c Hp. exists c. split; [assumption|]. now destruct c.
Qed.

Lemma clean_build_only_removes_witness :
  exists c0,
    lookup_in ["backend"; "app.py"] Sample.project = Some c0 /\ c0 = File (Bytes "") 420.
Proof.
  refine (clean_build_only_removes (Sample.env_of "linux" 0 true true)
            (World Sample.project []) "backend" ["app.py"] (File (Bytes "") 420) _ _ _).
  - discriminate.
  - discriminate.
  - vm_compute. reflexivity.
Defined.

(** X5.  Off macOS, [clean_build] leaves every other regular file
    outside [logs/] alone, whether it returns or raises: a regular file
    survives with its content and mode unless it is a top-level [*.spec]
    file other than [tak-manager.spec], lies below a top-level entry
    called [build], [dist] or [__pycache__], or lies below an entry called
    [__pycache__], the names of the directories being taken in any
    casing. *)
Theorem clean_build_spares_files (env : Env) (w : world) (x : string) (q : path)
    (d : fdata) (m : Z) :
  platform env <> "darwin" ->
  casefold x <> "logs" ->
  lookup_in (x :: q) (fs w) = Some (File d m) ->
  (q = [] -> spec_match env x = true -> x = "tak-manager.spec") ->
  (q <> [] -> ~ In (casefold x) ["build"; "dist"; "__pycache__"]) ->
  ~ In "__pycache__" (List.map casefold (removelast (x :: q))) ->
  lookup_in (x :: q) (fs (snd (clean_build env w))) = Some (File d m).
Proof.
  intros _ _ Hp H1 H2 H3.
  apply (file_at_clean_build env (x :: q) d m); [| | |exact Hp].
  - intros x0 Heq Hm. injection Heq as Hx Hq. subst x0.
    now apply H1.
  - intros x0 q0 Heq Hq0 Hin. injection Heq as Hx Hq. subst x0 q0.
    apply (H2 Hq0).
    cbn [In] in Hin |- *.
    destruct Hin as [<-|[<-|[<-|[]]]]; cbn; tauto.
  - intros Hin. apply H3. now apply (In_casefold pycache).
Qed.

Lemma clean_build_spares_files_witness :
  lookup_in ["backend"; "app.py"]
    (fs (snd (clean_build (Sample.env_of "linux" 0 true true) (World Sample.project []))))
  = Some (File (Bytes "") 420).
Proof.
  apply clean_build_spares_files.
  - discriminate.
  - discriminate.
  - reflexivity.
  - discriminate.
  - intros _. cbn. intuition discriminate.
  - cbn. intuition discriminate.
Defined.

(** X6.  On a platform that [required_files] has no key for, any value of
    [sys.platform] other than darwin, win32 and linux, [ensure_resources]
    only makes sure of the [resources] directory: it tests no icon and
    logs no warning. *)
Theorem no_icon_on_other_platforms (env : Env) (w : world) :
  ~ In (platform env) ["darwin"; "win32"; "linux"] ->
  ensure_resources env w = path_mkdir ["resources"] w
  /\ exists tr,
       trace (snd (ensure_resources env w)) = trace w ++ tr
       /\ (tr = [] \/ tr = [EMkdir ["resources"]]).
Proof.
  intros Hplat.
  assert (Heq : ensure_resources env w = path_mkdir ["resources"] w).
  { unfold ensure_resources. cbv zeta. rewrite bind_run, (required_files_other _ Hplat).
    destruct (path_mkdir ["resources"] w) as [[[]|e] w1]; reflexivity. }
  split; [exact Heq|]. rewrite Heq, path_mkdir_run.
  destruct (lookup_in ["resources"] (fs w)) as [[d m|r]|].
  - exists []. rewrite app_nil_r. auto.
  - exists []. rewrite app_nil_r. auto.
  - change (lookup_in (parent ["resources"]) (fs w)) with (Some (Dir (fs w))). cbv iota.
    exists [EMkdir ["resources"]]. auto.
Qed.

Lemma no_icon_on_other_platforms_witness :
  ensure_resources (Sample.env_of "freebsd13" 0 true true) (World Sample.project []) =
  (Ret tt, World Sample.project []).
Proof.
  refine (proj1 (no_icon_on_other_platforms (Sample.env_of "freebsd13" 0 true true)
                   (World Sample.project []) _)).
  cbn [In platform Sample.env_of]. intuition discriminate.
Defined.

(** X7.  On darwin the debug script is written without a test for
    [dist/]: when the packager has left no directory [dist], [open]
    raises, the run ends with exit status 1 and the archive step is not
    reached.  (On the other platforms a missing [dist/] only means that
    there is nothing to archive.) *)
Theorem macos_needs_dist (env : Env) (es : dirents) (log_file : string) (w : world) :
  platform env = "darwin" ->
  upto_debug_script env (World es []) = (Ret log_file, w) ->
  (forall r, lookup_in ["dist"] (fs w) <> Some (Dir r)) ->
  exists kind,
    create_debug_script env w = (Raise (OSError kind debug_script), w)
    /\ (kind = match lookup_in ["dist"] (fs w) with
               | None => FileNotFoundError
               | Some _ => NotADirectoryError
               end)
    /\ run_script env es =
       (1%Z,
        World (fs w)
          (trace w ++
           [ELog ERROR ("Error during build: " +:+ exn_text env (OSError kind debug_script))])).
Proof.
  intros Hplat Hup Hdist.
  assert (Hraise : exists kind,
            create_debug_script env w = (Raise (OSError kind debug_script), w)
            /\ kind = match lookup_in ["dist"] (fs w) with
                      | None => FileNotFoundError
                      | Some _ => NotADirectoryError
                      end).
  { unfold create_debug_script, is_platform. rewrite Hplat.
    cbn [String.eqb Ascii.eqb Bool.eqb]. cbv zeta. fold debug_script.
    rewrite bind_run. unfold write_file at 1. rewrite bind_run. unfold get_fs. cbv beta iota.
    unfold debug_script. rewrite lookup_in_two.
    change (parent ["dist"; "debug_launch.command"]) with ["dist"].
    rewrite lookup_in_single in *.
    destruct (assoc "dist" (fs w)) as [[d m|r]|].
    - eexists. split; reflexivity.
    - now elim (Hdist r).
    - eexists. split; reflexivity. }
  destruct Hraise as (kind & Hraise & Hkind). exists kind. split; [assumption|].
  split; [assumption|].
  unfold run_script. rewrite build_app_conclude, build_steps_debug_script, bind_run, Hup.
  unfold from_debug_script. rewrite bind_run, Hraise. reflexivity.
Qed.

Lemma macos_needs_dist_witness :
  fst (run_script (Sample.env_of "darwin" 0 false true) Sample.project) = 1%Z.
Proof.
  edestruct (macos_needs_dist (Sample.env_of "darwin" 0 false true) Sample.project)
    as (kind & _ & _ & Hrun).
  - reflexivity.
  - vm_compute. reflexivity.
  - intros r. vm_compute. discriminate.
  - exact (f_equal fst Hrun).
Defined.

(** X8.  Off macOS, [setup_logging] touches nothing but [logs/]: whether
    it returns or raises, every path whose first name is not [logs], in
    any casing, resolves after it as it did before. *)
Theorem setup_logging_touches_only_logs (env : Env) (w : world) (x : string) (q : path) :
  platform env <> "darwin" ->
  casefold x <> "logs" ->
  lookup_in (x :: q) (fs (snd (setup_logging env w))) = lookup_in (x :: q) (fs w).
Proof.
  intros Hplat Hx. apply casefold_ne in Hx; [|reflexivity].
  apply lookup_in_assoc_eq. unfold setup_logging, is_platform.
  destruct (String.eqb_spec (platform env) "darwin") as [E|_]; [contradiction|].
  cbv zeta. rewrite bind_run.
  pose proof (path_mkdir_other x "logs" w Hx) as H1.
  destruct (path_mkdir ["logs"] w) as [[[]|e] w1]; cbn [snd] in *; [|assumption].
  rewrite bind_run.
  pose proof (open_append_other env x "logs" ["build-" +:+ now env +:+ ".log"] w1 Hx) as H2.
  cbn [app].
  destruct (open_append env _ w1) as [[[]|e] w2]; unfold ret; cbn [snd] in *; congruence.
Qed.

Lemma setup_logging_touches_only_logs_witness :
  lookup_in ["web"; "package.json"]
    (fs (snd (setup_logging (Sample.env_of "linux" 0 true true) (World Sample.project []))))
  = Some (File (Bytes "{}") 420).
Proof.
  refine (setup_logging_touches_only_logs (Sample.env_of "linux" 0 true true)
            (World Sample.project []) "web" ["package.json"] _ _).
  - discriminate.
  - discriminate.
Defined.

(** X9.  Off macOS, provided [logs] is not a regular file and no
    directory stands where the log file goes, [setup_logging] returns the
    name of the log file, [logs/build-<timestamp>.log] written with the
    separator of the platform, and that file exists afterwards: a log
    file already there is kept as it is (the handler appends), otherwise
    an empty one has been created, together with [logs/] if need be. *)
Theorem setup_logging_opens_log (env : Env) (w : world) :
  platform env <> "darwin" ->
  (forall d m, lookup_in ["logs"] (fs w) <> Some (File d m)) ->
  (forall r, lookup_in (log_path env) (fs w) <> Some (Dir r)) ->
  exists w',
    setup_logging env w = (Ret (path_str (platform env) (log_path env)), w')
    /\ lookup_in (log_path env) (fs w') =
       Some (match lookup_in (log_path env) (fs w) with
             | Some c => c
             | None => File (Bytes "") (new_file_mode env)
             end).
Proof.
  intros Hplat Hlogs Hfree.
  unfold setup_logging, is_platform. rewrite (proj2 (String.eqb_neq _ _) Hplat).
  cbv zeta. cbn [app]. fold (log_path env).
  rewrite bind_run, path_mkdir_run.
  unfold log_path in *. rewrite lookup_in_two in *. rewrite lookup_in_single in *.
  destruct (assoc "logs" (fs w)) as [[d m|r]|] eqn:El.
  - now elim (Hlogs d m).
  - rewrite bind_run. unfold open_append. rewrite bind_run. unfold get_fs. cbv beta iota.
    rewrite lookup_in_two, El.
    destruct (assoc _ r) as [[d m|r']|] eqn:Ef.
    + eexists. split; [reflexivity|]. cbn [fs]. now rewrite lookup_in_two, El.
    + now elim (Hfree r').
    + unfold write_file. rewrite bind_run. unfold get_fs. cbv beta iota.
      rewrite lookup_in_two, El, Ef.
      change (lookup_in (parent ["logs"; _]) (fs w)) with (lookup_in ["logs"] (fs w)).
      rewrite lookup_in_single, El. run_steps.
      eexists. split; [reflexivity|]. cbn [fs].
      eapply lookup_store_in_two_eq, El.
  - change (lookup_in (parent ["logs"]) (fs w)) with (Some (Dir (fs w))). cbv iota.
    set (es1 := store_in ["logs"] (Dir []) (fs w)).
    assert (El1 : assoc "logs" es1 = Some (Dir [])) by apply assoc_set_child_eq.
    rewrite bind_run. unfold open_append. rewrite bind_run. unfold get_fs. cbv beta iota.
    cbn [fs trace]. rewrite lookup_in_two, El1. cbn [assoc].
    unfold write_file. rewrite bind_run. unfold get_fs. cbv beta iota. cbn [fs trace].
    rewrite lookup_in_two, El1. cbn [assoc].
    change (lookup_in (parent ["logs"; ?f]) es1) with (lookup_in ["logs"] es1).
    rewrite lookup_in_single, El1. run_steps.
    eexists. split; [reflexivity|]. cbn [fs].
    eapply lookup_store_in_two_eq, El1.
Qed.

Lemma setup_logging_opens_log_witness :
  fst (setup_logging (Sample.env_of "win32" 0 true true) (World Sample.project [])) =
  Ret "logs\build-20240101-120000.log".
Proof.
  edestruct (setup_logging_opens_log (Sample.env_of "win32" 0 true true)
               (World Sample.project [])) as (w' & Hrun & _).
  - discriminate.
  - intros d m. vm_compute. discriminate.
  - intros r. vm_compute. discriminate.
  - exact (f_equal fst Hrun).
Defined.

(** X10.  Off macOS, when [logs] is a regular file the run is over before
    it has begun: [mkdir] raises [FileExistsError], nothing is cleaned,
    no program is started, the tree is left as it was and the exit status
    is 1. *)
Theorem logs_in_the_way (env : Env) (es : dirents) (d : fdata) (m : Z) :
  platform env <> "darwin" ->
  lookup_in ["logs"] es = Some (File d m) ->
  run_script env es =
  (1%Z,
   World es
     [ELog ERROR ("Error during build: " +:+ exn_text env (OSError FileExistsError ["logs"]))]).
Proof.
  intros Hplat Hlogs. unfold run_script. rewrite build_app_conclude.
  assert (Hs : build_steps env (World es []) =
               (Raise (OSError FileExistsError ["logs"]), World es [])).
  { unfold build_steps. rewrite bind_run.
    unfold setup_logging, is_platform. rewrite (proj2 (String.eqb_neq _ _) Hplat).
    cbv zeta. rewrite bind_run, path_mkdir_run. cbn [fs]. now rewrite Hlogs. }
  rewrite Hs. reflexivity.
Qed.

Lemma logs_in_the_way_witness :
  fst (run_script (Sample.env_of "linux" 0 true true)
         (("logs", File (Bytes "") 420) :: Sample.project)) = 1%Z.
Proof.
  refine (f_equal fst
    (logs_in_the_way (Sample.env_of "linux" 0 true true)
       (("logs", File (Bytes "") 420) :: Sample.project) (Bytes "") 420 _ _)).
  - discriminate.
  - reflexivity.
Defined.

(** X11.  [build_frontend] raises nothing but [SystemExit(1)], the last
    thing done being an ERROR record, and [OSError]: a failed npm step
    never leaves it as a [CalledProcessError], while a program that
    cannot be started, or a regular file at [web/dist], passes through as
    the [OSError] it is. *)
Theorem frontend_raises_only (env : Env) (w w' : world) (e : exn) :
  build_frontend env w = (Raise e, w') ->
  (e = SystemExit 1 /\ ends_with_error (trace w'))
  \/ (exists kind target, e = OSError kind target).
Proof.
  intros H.
  assert (G : match build_frontend env w with
              | (Raise e0, w0) =>
                  (e0 = SystemExit 1 /\ ends_with_error (trace w0))
                  \/ (exists kind target, e0 = OSError kind target)
              | _ => True
              end); [|now rewrite H in G].
  clear H. unfold build_frontend, try_except, shutil_rmtree, subprocess_run. monad_cbv.
  split_tests; try exact Logic.I; try discriminate;
    first [ left; split; [reflexivity | eexists _, _; reflexivity]
          | right; eexists _, _; reflexivity ].
Qed.

Lemma frontend_raises_only_witness :
  let env := Faulty.env_of "linux" "npm" false in
  let w := World Sample.project [] in
  (OSError FileNotFoundError ["web"] = SystemExit 1
   /\ ends_with_error (trace (snd (build_frontend env w))))
  \/ (exists kind target, OSError FileNotFoundError ["web"] = OSError kind target).
Proof.
  intros env w. apply (frontend_raises_only env w).
  vm_compute. reflexivity.
Defined.

(** X12.  A directory [web/dist] left by an earlier frontend build is
    removed before npm runs: npm install is started in a tree in which
    [web/dist] does not exist, and its status is what the tool does
    there.  A regular file [web/dist] instead stops [build_frontend] with
    [NotADirectoryError], no program having been started. *)
Theorem stale_frontend_output_removed (env : Env) (w : world) (c : node) :
  lookup_in ["web"; "dist"] (fs w) = Some c ->
  match c with
  | Dir _ =>
      let w1 := after_frontend_cleanup w in
      let install := [npm_program env; "install"] in
      lookup_in ["web"; "dist"] (fs w1) = None
      /\ exists tr,
           trace (snd (build_frontend env w)) =
           trace w1 ++
           ESpawn install (Some ["web"]) (spawn_status (exec env install (Some ["web"]) w1))
           :: tr
  | File _ _ =>
      build_frontend env w =
      (Raise (OSError NotADirectoryError ["web"; "dist"]),
       World (fs w)
         (trace w ++ [EStat ["web"]; ELog INFO "Building frontend..."; EStat ["web"; "dist"];
                      ELog INFO "Cleaning previous frontend build..."]))
  end.
Proof.
  intros Hc.
  assert (Hweb : lookup_in ["web"] (fs w) <> None).
  { rewrite lookup_in_two in Hc. rewrite lookup_in_single.
    destruct (assoc "web" (fs w)); [discriminate|discriminate Hc]. }
  assert (Hrun : build_frontend env w =
            match c with
            | Dir _ =>
                try_except
                  (subprocess_run env [npm_program env; "install"] (Some ["web"]) true ;;
                   subprocess_run env [npm_program env; "run"; "build"] (Some ["web"]) true ;;
                   ret tt)
                  is_CalledProcessError
                  (fun e =>
                     logging ERROR ("Error building frontend: " +:+ exn_text env e) ;;
                     sys_exit 1)
                  (after_frontend_cleanup w)
            | File _ _ =>
                (Raise (OSError NotADirectoryError ["web"; "dist"]),
                 World (fs w)
                   (trace w ++ [EStat ["web"]; ELog INFO "Building frontend...";
                                EStat ["web"; "dist"];
                                ELog INFO "Cleaning previous frontend build..."]))
            end).
  { unfold build_frontend. cbv zeta. cbn [app].
    rewrite bind_run, path_exists_run.
    destruct (lookup_in ["web"] (fs w)) as [n|]; [clear Hweb|now elim Hweb].
    cbn [negb]. run_steps. cbn [fs trace]. unfold try_except.
    rewrite bind_run, path_exists_run. cbn [fs trace]. rewrite Hc.
    rewrite bind_run, bind_run, logging_run. cbv beta iota. unfold shutil_rmtree.
    rewrite bind_run. unfold get_fs. cbv beta iota. cbn [fs trace]. rewrite Hc.
    destruct c as [d m|r].
    - unfold raise. cbn [is_CalledProcessError]. now rewrite <- !app_assoc.
    - rewrite bind_run. unfold put_fs, emit. cbv beta iota. cbn [fs trace].
      rewrite <- !app_assoc. cbn [app]. fold (after_frontend_cleanup w).
      reflexivity. }
  destruct c as [d m|r]; [exact Hrun|].
  intros w1 install. split.
  - apply (unreachable_lookup ["web"; "dist"] w1). apply reach_remove_in_self. discriminate.
  - rewrite Hrun. fold w1. fold install. clearbody w1. clear.
    unfold try_except. rewrite bind_run. unfold subprocess_run at 1.
    destruct (exec env install (Some ["web"]) w1) as [why|rc es1]; cbn [spawn_status].
    + cbn [is_CalledProcessError snd trace]. now exists [].
    + cbn [andb].
      destruct (negb (rc =? 0)%Z); cbv beta iota.
      * cbn [is_CalledProcessError]. rewrite bind_run, logging_run.
        cbn [sys_exit raise snd trace fs]. eexists. now rewrite <- app_assoc.
      * rewrite bind_run. unfold subprocess_run. cbn [fs trace andb].
        destruct (exec env _ (Some ["web"]) _) as [why|rc2 es2].
        -- cbn [is_CalledProcessError snd trace]. eexists. now rewrite <- app_assoc.
        -- destruct (negb (rc2 =? 0)%Z); cbv beta iota.
           ++ cbn [is_CalledProcessError]. rewrite bind_run, logging_run.
              cbn [sys_exit raise snd trace fs]. eexists. now rewrite <- !app_assoc.
           ++ rewrite ret_run. cbn [snd trace]. eexists. now rewrite <- app_assoc.
Qed.

Lemma stale_frontend_output_removed_witness :
  lookup_in ["web"; "dist"] (fs (after_frontend_cleanup (World Sample.project []))) = None.
Proof.
  refine (proj1 (stale_frontend_output_removed (Sample.env_of "linux" 0 true true)
                   (World Sample.project []) (Dir []) _)).
  reflexivity.
Defined.

(** X13.  If the packager is started at all in a run, both npm steps have
    run before it, install and then build, each ended with status 0, and
    nothing before them has started the packager. *)
Theorem packager_after_npm (env : Env) (es : dirents) :
  Exists packager_invoked (trace (snd (run_script env es))) ->
  exists t1 t2,
    trace (snd (run_script env es)) =
    t1 ++
    [ESpawn [npm_program env; "install"] (Some ["web"]) (Some 0%Z);
     ESpawn [npm_program env; "run"; "build"] (Some ["web"]) (Some 0%Z)] ++ t2
    /\ Forall (fun e => ~ packager_invoked e) t1.
Proof.
  rewrite run_script_world, build_app_conclude, build_steps_frontend, bind_run.
  destruct (tame_upto_frontend env (World es [])) as (tr1 & Ht1 & Hq1 & Hr1).
  assert (Hn1 : Forall (fun e => ~ packager_invoked e) tr1).
  { eapply Forall_impl; [exact Hq1|]. apply quiet_not_packager. }
  assert (Hlog : forall msg, ~ packager_invoked (ELog ERROR msg)).
  { intros msg (cwd & st & Heq). discriminate. }
  destruct (upto_frontend env (World es [])) as [[log_file|e] w1]; simpl in Ht1, Hr1.
  - unfold from_frontend. rewrite bind_run.
    destruct (build_frontend_outcome env w1) as (tr2 & Ht2 & Hp2 & Hr2).
    destruct (build_frontend env w1) as [[[]|e] w2] eqn:Hf; simpl in Ht2, Hr2.
    + intros _. destruct (build_frontend_Ret _ _ _ Hf) as (t & Hw2 & Hqt).
      destruct (from_resources_raises env log_file w2) as (tr3 & Ht3 & _ & _).
      assert (Hend : exists t3,
                trace (snd (conclude env (fst (from_resources env log_file w2))
                              (snd (from_resources env log_file w2)))) =
                trace w2 ++ t3).
      { destruct (from_resources env log_file w2) as [[[]|e] w3]; simpl in *.
        - now exists tr3.
        - destruct (is_Exception e); simpl; [|now exists tr3].
          eexists. rewrite Ht3, <- app_assoc. reflexivity. }
      destruct Hend as (t3 & Hend). exists (tr1 ++ t), t3. split.
      * cbv beta iota. rewrite Hend, Hw2, Ht1. cbn [app]. now rewrite <- !app_assoc.
      * apply Forall_app_2; [assumption|].
        eapply Forall_impl; [exact Hqt|]. apply quiet_not_packager.
    + intros Hex. exfalso. revert Hex. cbn [fst snd]. apply Forall_Exists_neg.
      assert (Hall : Forall (fun e => ~ packager_invoked e) (trace w2)).
      { rewrite Ht2, Ht1. cbn [app]. now apply Forall_app_2. }
      unfold conclude. destruct (is_Exception e); cbn [snd trace]; [|assumption].
      apply Forall_app_2; [assumption|]. repeat constructor. apply Hlog.
  - intros Hex. exfalso. revert Hex. cbn [fst snd]. apply Forall_Exists_neg.
    assert (Hall : Forall (fun e => ~ packager_invoked e) (trace w1)).
    { now rewrite Ht1. }
    unfold conclude. destruct (is_Exception e); cbn [snd trace]; [|assumption].
    apply Forall_app_2; [assumption|]. repeat constructor. apply Hlog.
Qed.

Lemma packager_after_npm_witness :
  exists t1 t2,
    trace (snd (run_script (Sample.env_of "linux" 0 true true) Sample.project)) =
    t1 ++
    [ESpawn ["npm"; "install"] (Some ["web"]) (Some 0%Z);
     ESpawn ["npm"; "run"; "build"] (Some ["web"]) (Some 0%Z)] ++ t2.
Proof.
  destruct (packager_after_npm (Sample.env_of "linux" 0 true true) Sample.project)
    as (t1 & t2 & Htrace & _).
  - apply List.Exists_exists. exists (ESpawn pyinstaller_argv None (Some 0%Z)). split.
    + vm_compute. repeat first [left; reflexivity | right].
    + now exists None, (Some 0%Z).
  - now exists t1, t2.
Defined.

(** X14.  Off macOS, whatever the run, the script itself creates and
    writes at no other path than [logs/], the log file in it,
    [resources/] and [dist/TAK-Manager-Windows.zip]: every directory it
    makes, every file it writes and every mode it sets is at one of
    them.  (What npm, the packager and tar write is theirs.) *)
Theorem script_writes_only_outputs (env : Env) (es : dirents) :
  platform env <> "darwin" ->
  Forall (writes_within env) (trace (snd (run_script env es))).
Proof.
  intros Hplat. rewrite run_script_world.
  destruct (writes_build_app env Hplat (World es [])) as (tr & Ht & Hp & _).
  now rewrite Ht.
Qed.

Lemma script_writes_only_outputs_witness :
  Forall (writes_within (Sample.env_of "win32" 0 true true))
    (trace (snd (run_script (Sample.env_of "win32" 0 true true) Sample.project))).
Proof.
  apply script_writes_only_outputs. discriminate.
Defined.

(** X15.  Whatever the run, the script itself removes no other tree than
    the top-level [build], [dist] and [__pycache__], [web/dist] and
    entries called [__pycache__], and unlinks no other file than
    top-level [*.spec] files whose name is not [tak-manager.spec]. *)
Theorem script_deletes_only_build_output (env : Env) (es : dirents) :
  Forall (deletes_within env) (trace (snd (run_script env es))).
Proof.
  rewrite run_script_world.
  destruct (deletes_build_app env (World es [])) as (tr & Ht & Hp & _).
  now rewrite Ht.
Qed.

(** X16.  pathlib matches [*.spec] without regard to case on Windows,
    while the name is compared with [tak-manager.spec] as it is written:
    on win32, a top-level regular file whose name is [tak-manager.spec]
    in another casing is unlinked by every [clean_build] that returns. *)
Theorem recased_spec_is_unlinked (env : Env) (w : world) (x : string) (d : fdata) (m : Z) :
  platform env = "win32" ->
  casefold x = canonical_spec -> x <> canonical_spec ->
  lookup_in [x] (fs w) = Some (File d m) ->
  fst (clean_build env w) = Ret tt ->
  In (EUnlink [x]) (trace (snd (clean_build env w)))
  /\ lookup_in [x] (fs (snd (clean_build env w))) = None.
Proof.
  intros Hplat Hfold Hne Hx Hret. rewrite lookup_in_single in Hx.
  assert (Hm : spec_match env x = true).
  { unfold spec_match. now rewrite Hplat, Hfold. }
  destruct (strays_unlinked env w x d m Hret Hx Hm Hne) as [(t & Ht & Hin) Hun].
  split; [|now apply unreachable_lookup].
  rewrite Ht. apply in_or_app. now right.
Qed.

Lemma recased_spec_is_unlinked_witness :
  lookup_in ["TAK-Manager.spec"]
    (fs (snd (clean_build (Sample.env_of "win32" 0 true true)
                (World [("TAK-Manager.spec", File (Bytes "a = Analysis()") 420)] []))))
  = None.
Proof.
  refine (proj2 (recased_spec_is_unlinked (Sample.env_of "win32" 0 true true)
                   (World [("TAK-Manager.spec", File (Bytes "a = Analysis()") 420)] [])
                   "TAK-Manager.spec" (Bytes "a = Analysis()") 420 _ _ _ _ _)).
  - reflexivity.
  - reflexivity.
  - discriminate.
  - reflexivity.
  - reflexivity.
Defined.

(** X17.  A run that ends with exit status 0 has started the packager,
    and the packager has ended with status 0. *)
Theorem success_means_packaged (env : Env) (es : dirents) :
  fst (run_script env es) = 0%Z ->
  In (ESpawn pyinstaller_argv None (Some 0%Z)) (trace (snd (run_script env es))).
Proof.
  rewrite run_script_status, run_script_world, build_app_conclude.
  destruct (build_steps env (World es [])) as [[[]|e] w'] eqn:Hs; cbn [fst snd conclude].
  - intros _. eapply build_steps_Ret_packaged, Hs.
  - destruct e as [c|argv rc|kind target]; cbn [is_Exception fst exit_status];
      try discriminate.
    destruct (build_steps_exit _ _ _ _ Hs) as [-> _]. discriminate.
Qed.

Lemma success_means_packaged_witness :
  In (ESpawn pyinstaller_argv None (Some 0%Z))
    (trace (snd (run_script (Sample.env_of "win32" 0 true true) Sample.project))).
Proof.
  apply success_means_packaged. reflexivity.
Defined.

(** X18.  [build_frontend] starts npm run build only after npm install
    has ended with status 0: where install fails or cannot be started,
    the build command is never run. *)
Theorem npm_build_needs_install (env : Env) (w : world) :
  exists t,
    trace (snd (build_frontend env w)) = trace w ++ t
    /\ forall st,
         In (ESpawn [npm_program env; "run"; "build"] (Some ["web"]) st) t ->
         In (ESpawn [npm_program env; "install"] (Some ["web"]) (Some 0%Z)) t.
Proof.
  assert (G : match build_frontend env w with
              | (_, w0) =>
                  exists t,
                    trace w0 = trace w ++ t
                    /\ forall st,
                         In (ESpawn [npm_program env; "run"; "build"] (Some ["web"]) st) t ->
                         In (ESpawn [npm_program env; "install"] (Some ["web"]) (Some 0%Z)) t
              end); [|now destruct (build_frontend env w)].
  destruct w as [es0 tr0].
  unfold build_frontend, try_except, shutil_rmtree, subprocess_run, npm_program. monad_cbv.
  cbn [app].
  repeat (match goal with
          | |- context [match ?x with _ => _ end] =>
              lazymatch x with
              | context [match _ with _ => _ end] => fail
              | _ => destruct x eqn:?
              end
          end; cbv beta iota; cbn [negb andb is_CalledProcessError]).
  all: (eexists; split; [rewrite <- ?app_assoc; cbn [app]; reflexivity|]);
    intros st; cbn [In]; intros Hin.
  all: repeat match goal with
              | H : _ \/ _ |- _ => destruct H
              | H : False |- _ => destruct H
              | H : ESpawn _ _ _ = ESpawn _ _ _ |- _ => try discriminate H; clear H
              | H : EStat _ = _ |- _ => discriminate H
              | H : ELog _ _ = _ |- _ => discriminate H
              | H : ERmtree _ = _ |- _ => discriminate H
              end.
  all: repeat match goal with
              | H : negb (?s =? 0)%Z = false |- _ =>
                  apply negb_false_iff, Z.eqb_eq in H; subst s
              end.
  all: repeat first [left; reflexivity | right].
Qed.

(** X19.  [clean_build] returns without raising from every tree in which
    [build], [dist] and [__pycache__] at the top are not regular files,
    no directory at the top is called like a spec file that is to be
    unlinked, and no regular file anywhere is called [__pycache__]. *)
Theorem clean_build_returns (env : Env) (w : world) :
  wf_tree (fs w) ->
  (forall d, In d dirs_to_clean -> no_file_at [d] w) ->
  strays_are_files env w ->
  caches_are_dirs w ->
  fst (clean_build env w) = Ret tt.
Proof.
  intros Hwf Hdirs Hspec Hcache.
  rewrite clean_build_loops, bind_run.
  pose proof (clean_dirs_return w Hdirs) as Hret1.
  pose proof (keeps_clean_dirs wf_world dirs_to_clean stable_wf_world wf_world_remove_in
                w Hwf) as HwfA.
  pose proof (keeps_clean_dirs (strays_are_files env) dirs_to_clean
                (fun es tr e H => H) (strays_are_files_remove_in env) w Hspec) as HspecA.
  pose proof (keeps_clean_dirs caches_are_dirs dirs_to_clean
                (fun es tr e H => H) caches_are_dirs_remove_in w Hcache) as HcacheA.
  destruct (for_each dirs_to_clean clean_dir w) as [[[]|e] wA]; [|discriminate].
  cbn [snd] in *. rewrite bind_run, glob_spec_run. cbv beta iota. rewrite bind_run.
  set (wA' := World (fs wA) (trace wA ++ [EGlob "*.spec"])).
  pose proof (clean_specs_return env (fs wA) (trace wA') 
                (proj1 (proj1 (wf_node_Dir _) HwfA)) HspecA) as Hret2.
  pose proof (keeps_clean_specs env wf_world (spec_files_of env (fs wA))
                stable_wf_world wf_world_remove_in wA' HwfA) as HwfB.
  pose proof (keeps_clean_specs env caches_are_dirs (spec_files_of env (fs wA))
                (fun es tr e H => H) caches_are_dirs_remove_in wA' HcacheA) as HcacheB.
  change (World (fs wA) (trace wA')) with wA' in Hret2.
  destruct (for_each (spec_files_of env (fs wA)) (clean_spec env) wA') as [[[]|e] wB];
    [|discriminate].
  cbn [snd] in *. rewrite bind_run, glob_pycache_run. cbv beta iota.
  apply clean_pycaches_return; auto.
Qed.

Lemma clean_build_returns_witness :
  fst (clean_build (Sample.env_of "linux" 0 true true)
         (World [("build", Dir []); ("old.spec", File (Bytes "") 420)] [])) = Ret tt.
Proof.
  apply clean_build_returns.
  - unfold wf_tree. cbn [fs wf_node List.map fst snd].
    repeat match goal with
           | |- _ /\ _ => split
           | |- True => exact Logic.I
           | |- List.NoDup _ => constructor
           | |- ~ In _ _ => cbn [In]; intuition discriminate
           end.
  - intros d Hd a b. cbn [In] in Hd.
    destruct Hd as [<-|[<-|[<-|[]]]]; vm_compute; discriminate.
  - intros x Hm Hne r. cbn [fs]. rewrite lookup_in_single. cbn [assoc].
    destruct (String.eqb_spec "build" x) as [<-|_]; [vm_compute in Hm; discriminate|].
    destruct (String.eqb "old.spec" x); discriminate.
  - intros a d m. cbn [fs]. destruct a as [|x a]; [vm_compute; discriminate|].
    rewrite <- app_comm_cons, lookup_in_cons. cbn [assoc].
    destruct (String.eqb "build" x); [destruct a; discriminate|].
    destruct (String.eqb "old.spec" x); [destruct a; discriminate|discriminate].
Defined.

(** X20.  Off macOS, [ensure_resources] touches nothing but [resources/]
    and [logs/], where its records go: whether it returns or raises,
    every path whose first name is neither [resources] nor [logs], in any
    casing, resolves after it as it did before; and where an entry
    [resources] is already there, every path below it does too. *)
Theorem ensure_resources_touches_only_resources (env : Env) (w : world) :
  platform env <> "darwin" ->
  (forall x q, casefold x <> "resources" -> casefold x <> "logs" ->
     lookup_in (x :: q) (fs (snd (ensure_resources env w))) = lookup_in (x :: q) (fs w))
  /\ (forall c q, lookup_in ["resources"] (fs w) = Some c ->
        lookup_in ("resources" :: q) (fs (snd (ensure_resources env w))) =
        lookup_in ("resources" :: q) (fs w)).
Proof.
  intros _.
  assert (Hfs : fs (snd (ensure_resources env w)) = fs (snd (path_mkdir ["resources"] w))).
  { unfold ensure_resources. cbv zeta. rewrite bind_run.
    destruct (path_mkdir ["resources"] w) as [[[]|e] w1]; [|reflexivity]. cbn [snd].
    destruct (required_files !! platform env) as [f|]; [|reflexivity].
    destruct (negb (String.eqb f "")); [|reflexivity].
    rewrite bind_run, path_exists_run.
    destruct (lookup_in _ (fs w1)); cbn [negb]; reflexivity. }
  rewrite Hfs. split.
  - intros x q Hx _. apply casefold_ne in Hx; [|reflexivity].
    apply lookup_in_assoc_eq. now apply path_mkdir_other.
  - intros c q Hres. rewrite path_mkdir_run, Hres.
    destruct c as [d m|r]; reflexivity.
Qed.

Lemma ensure_resources_touches_only_resources_witness :
  lookup_in ["web"; "package.json"]
    (fs (snd (ensure_resources (Sample.env_of "linux" 0 true true)
                (World Sample.project []))))
  = Some (File (Bytes "{}") 420).
Proof.
  refine (proj1 (ensure_resources_touches_only_resources (Sample.env_of "linux" 0 true true)
                   (World Sample.project []) _) "web" ["package.json"] _ _).
  - discriminate.
  - discriminate.
  - discriminate.
Defined.

(** X21.  Every platform other than darwin and win32 takes the tar
    branch under the Linux names, not linux alone: with [dist/tak-manager]
    present tar is started with the same arguments, and whatever its
    status the run goes on to the success records and exits 0. *)
Theorem other_platforms_use_tar (env : Env) (es : dirents) (log_file : string)
    (w : world) (rc : Z) (es' : dirents) :
  platform env <> "darwin" -> platform env <> "win32" ->
  upto_archive env (World es []) = (Ret log_file, w) ->
  lookup_in ["dist"; "tak-manager"] (fs w) <> None ->
  exec env tar_argv None (at_tar w) = Exited rc es' ->
  run_script env es =
  (0%Z, World es' (trace (at_tar w) ++ ESpawn tar_argv None (Some rc) :: success_records log_file)).
Proof.
  intros Hd Hw Hup Hout Htar. unfold run_script.
  rewrite build_app_conclude, build_steps_archive, bind_run, Hup.
  unfold from_archive, create_archive, is_platform.
  rewrite (proj2 (String.eqb_neq _ _) Hd), (proj2 (String.eqb_neq _ _) Hw).
  unfold path_str, os_sep. rewrite (proj2 (String.eqb_neq _ _) Hw).
  cbn [String.concat app].
  change ("dist" +:+ "/" +:+ "TAK-Manager-Linux.tar.gz") with "dist/TAK-Manager-Linux.tar.gz".
  change ("Output can be found in the " +:+ "dist" +:+ " directory")
    with "Output can be found in the dist directory".
  fold tar_argv.
  rewrite bind_run, bind_run, path_exists_run.
  destruct (lookup_in ["dist"; "tak-manager"] (fs w)) as [n|]; [clear Hout|now elim Hout].
  rewrite bind_run, logging_run, bind_run. unfold subprocess_run. cbn [fs trace andb].
  rewrite <- app_assoc. cbn [app]. fold (at_tar w). rewrite Htar.
  run_steps. cbn [fs trace fst snd conclude exit_status at_tar success_records].
  now rewrite <- !app_assoc.
Qed.

Lemma other_platforms_use_tar_witness :
  fst (run_script (Sample.env_of "freebsd13" 0 true true) Sample.project) = 0%Z.
Proof.
  refine (f_equal fst
    (other_platforms_use_tar (Sample.env_of "freebsd13" 0 true true) Sample.project
       _ _ _ _ _ _ _ _ _)).
  - discriminate.
  - discriminate.
  - vm_compute. reflexivity.
  - vm_compute. discriminate.
  - vm_compute. reflexivity.
Defined.

(** X22.  When logging cannot be set up or [clean_build] raises, the run
    ends there with exit status 1: the only thing done after the failure
    is the error record of [build_app], and no program has been started
    at any point of the run. *)
Theorem early_failure_starts_nothing (env : Env) (es : dirents) (e : exn) (w : world) :
  upto_frontend env (World es []) = (Raise e, w) ->
  run_script env es =
  (1%Z, World (fs w) (trace w ++ [ELog ERROR ("Error during build: " +:+ exn_text env e)]))
  /\ Forall (fun ev => is_spawn ev = false) (trace (snd (run_script env es))).
Proof.
  intros Hup.
  destruct (tame_upto_frontend env (World es [])) as (tr & Ht & Hq & He).
  rewrite Hup in Ht, He. cbn [fst snd trace app] in Ht, He.
  assert (Hrun : run_script env es =
                 (1%Z, World (fs w)
                         (trace w ++ [ELog ERROR ("Error during build: " +:+ exn_text env e)]))).
  { unfold run_script. rewrite build_app_conclude, build_steps_frontend, bind_run, Hup.
    cbn [fst snd conclude]. now rewrite He. }
  split; [exact Hrun|]. rewrite Hrun. cbn [snd trace]. rewrite Ht.
  apply Forall_app_2; [|repeat constructor].
  eapply Forall_impl; [exact Hq|]. intros ev. apply quiet_not_spawn.
Qed.

Lemma early_failure_starts_nothing_witness :
  fst (run_script (Sample.env_of "linux" 0 true true)
         [("build", File (Bytes "") 420); ("web", Dir [])]) = 1%Z.
Proof.
  refine (f_equal fst (proj1
    (early_failure_starts_nothing (Sample.env_of "linux" 0 true true)
       [("build", File (Bytes "") 420); ("web", Dir [])] _ _ _))).
  vm_compute. reflexivity.
Defined.
